(** * Space-weather event store: flare deduplication, retention, summaries
      and the CME catalogue

    A shallow embedding of [flare_tracker_simple.py] (class
    [SimpleFlareTracker]), of [cme_tracker_enhanced.py] (class
    [EnhancedCMETracker]) and of the flare query of the report generator
    ([get_flares_for_report_period] in [space_weather_automation.py]).
    SQLite tables are lists of row records kept in
    insertion order together with the AUTOINCREMENT counter of the table;
    Python dictionaries read through fixed keys are records of optional
    fields; every method that opens a connection, runs statements and
    commits is a function from the database before to the database after.

    Conventions shared by both trackers:
    - instants are Unix timestamps in whole seconds, the unit of every
      [*_timestamp] column; a [datetime] argument is taken at the value
      [int(dt.timestamp())] that the code derives from it;
    - flare magnitudes are Python floats in the source; the embedding keeps
      the exact decimal value read from the class string as a rational, so
      binary rounding of [float] is outside the model;
    - the text-to-instant parsers of the standard library ([strptime],
      [fromisoformat]) and the built-ins [hash] and [int] are parameters
      of the sections that use them;
    - every statement that reads the clock takes its reading as an
      argument; what the feeds deliver to a scraping cycle or a
      synchronisation is an argument as well, the fetching and the
      parsing of pages being outside the model;
    - a file written by an export is its content: the rows handed to the
      CSV writer, the text written to the Markdown file. *)

From Stdlib Require Import ZArith QArith Qabs Lqa List String Ascii Bool Lia.
From Stdlib Require Import DecimalString Sorted.
Import ListNotations.

Open Scope string_scope.
Open Scope Z_scope.

(* ===================================================================== *)
(** ** Python and SQL idioms used by both trackers *)
(* ===================================================================== *)

Module Py.

(** Truth value of [x] in [if x:] for a value that is [None] or a string. *)
Definition truthy_str (o : option string) : bool :=
  match o with
  | Some s => negb (s =? "")%string
  | None => false
  end.

(** Truth value of [x] in [if x:] for a value that is [None] or an int. *)
Definition truthy_int (o : option Z) : bool :=
  match o with
  | Some z => negb (z =? 0)
  | None => false
  end.

Definition is_digit (c : ascii) : bool :=
  ((48 <=? N_of_ascii c) && (N_of_ascii c <=? 57))%N.

Definition is_upper (c : ascii) : bool :=
  ((65 <=? N_of_ascii c) && (N_of_ascii c <=? 90))%N.

(** The longest prefix of digits, and what follows it: the greedy [\d*]. *)
Fixpoint span_digits (s : string) : string * string :=
  match s with
  | String c rest =>
      if is_digit c
      then let (d, r) := span_digits rest in (String c d, r)
      else (EmptyString, s)
  | EmptyString => (EmptyString, EmptyString)
  end.

Fixpoint digits_value (acc : N) (s : string) : N :=
  match s with
  | String c rest => digits_value (10 * acc + (N_of_ascii c - 48))%N rest
  | EmptyString => acc
  end.

(** Value of the decimal numeral [ip.fp]. *)
Definition decimal (ip fp : string) : Q :=
  Z.of_N (digits_value 0 (ip ++ fp))
    # Z.to_pos (10 ^ Z.of_nat (String.length fp)).

(** [float(s)] for a string of digits and dots, the only strings the
    trackers pass to it: [None] stands for [ValueError] (no digit at all,
    or more than one dot). *)
Definition float (s : string) : option Q :=
  let (ip, r) := span_digits s in
  match r with
  | EmptyString =>
      if (ip =? "")%string then None else Some (decimal ip "")
  | String "."%char r' =>
      let (fp, r'') := span_digits r' in
      match r'' with
      | EmptyString =>
          if ((ip =? "") && (fp =? ""))%string then None
          else Some (decimal ip fp)
      | String _ _ => None
      end
  | String _ _ => None
  end.

(** [s.startswith(c)] for a one-character prefix. *)
Definition startswith (c : ascii) (s : string) : bool :=
  match s with
  | String c' _ => Ascii.eqb c' c
  | EmptyString => false
  end.

(** [s[1:]] *)
Definition tail (s : string) : string :=
  match s with
  | String _ rest => rest
  | EmptyString => EmptyString
  end.

(** [re.sub(r'[^0-9.]', '', s)] *)
Fixpoint keep_numeric (s : string) : string :=
  match s with
  | String c rest =>
      if is_digit c || Ascii.eqb c "."
      then String c (keep_numeric rest)
      else keep_numeric rest
  | EmptyString => EmptyString
  end.

(** [re.match] of the class pattern: one capital letter (group 1), then
    one or more digits, an optional dot and any further digits (group 2),
    anchored at the start of [s]; whatever follows is ignored.  [None]
    when the pattern does not match. *)
Definition match_class (s : string) : option (ascii * string) :=
  match s with
  | String c rest =>
      if is_upper c then
        let (d1, r1) := span_digits rest in
        if (d1 =? "")%string then None
        else match r1 with
             | String "."%char r2 =>
                 let (d2, _) := span_digits r2 in
                 Some (c, d1 ++ String "." d2)
             | _ => Some (c, d1)
             end
      else None
  | EmptyString => None
  end.

(** Stable insertion sort: [ORDER BY] with the order [le]; rows that
    compare equal keep their table order. *)
Section Sort.
Context {A : Type}.
Variable le : A -> A -> bool.

Fixpoint insert_sorted (x : A) (l : list A) : list A :=
  match l with
  | [] => [x]
  | y :: l' => if le x y then x :: l else y :: insert_sorted x l'
  end.

Definition order_by (l : list A) : list A :=
  fold_right insert_sorted [] l.

End Sort.

(** Ascending order on a nullable integer column; SQLite puts NULL
    before every value. *)
Definition le_nullable (a b : option Z) : bool :=
  match a, b with
  | None, _ => true
  | Some _, None => false
  | Some x, Some y => x <=? y
  end.

Definition eqb_opt_string (a b : option string) : bool :=
  match a, b with
  | Some x, Some y => (x =? y)%string
  | None, None => true
  | _, _ => false
  end.

(** Days from 1970-01-01 to the proleptic Gregorian date [y-m-d]. *)
Definition days_from_civil (y m d : Z) : Z :=
  let y' := if m <=? 2 then y - 1 else y in
  let era := y' / 400 in
  let yoe := y' - era * 400 in
  let doy := (153 * ((m + 9) mod 12) + 2) / 5 + d - 1 in
  era * 146097 + (yoe * 365 + yoe / 4 - yoe / 100 + doy) - 719468.

Definition is_leap (y : Z) : bool :=
  ((y mod 4 =? 0) && negb (y mod 100 =? 0)) || (y mod 400 =? 0).

Definition days_in_month (y m : Z) : Z :=
  if m =? 2 then (if is_leap y then 29 else 28)
  else if (m =? 4) || (m =? 6) || (m =? 9) || (m =? 11) then 30
  else 31.

Definition digit (c : ascii) : option Z :=
  if is_digit c then Some (Z.of_N (N_of_ascii c) - 48) else None.

Definition number (cs : list ascii) : option Z :=
  fold_left (fun acc c =>
               match acc, digit c with
               | Some n, Some k => Some (10 * n + k)
               | _, _ => None
               end) cs (Some 0).

(** [strptime] with format [%Y-%m-%d %H:%M:%S], read as UTC, on text whose
    fields are all zero-padded to full width, the shape both feeds
    produce; other spellings that [strptime] tolerates are answered
    [None] here.  This is the instance the worked examples plug in for
    the parser parameter. *)
Definition strptime_padded (s : string) : option Z :=
  match list_ascii_of_string s with
  | [y1; y2; y3; y4; s1; m1; m2; s2; d1; d2; sp; h1; h2; c1; i1; i2; c2;
     e1; e2] =>
      if (Ascii.eqb s1 "-" && Ascii.eqb s2 "-" && Ascii.eqb sp " "
          && Ascii.eqb c1 ":" && Ascii.eqb c2 ":")%bool
      then
        match number [y1; y2; y3; y4], number [m1; m2], number [d1; d2],
              number [h1; h2], number [i1; i2], number [e1; e2] with
        | Some y, Some m, Some d, Some h, Some mi, Some sec =>
            if ((1 <=? y) && (1 <=? m) && (m <=? 12) && (1 <=? d)
                && (d <=? days_in_month y m) && (h <=? 23) && (mi <=? 59)
                && (sec <=? 59))%bool
            then Some (days_from_civil y m d * 86400
                       + h * 3600 + mi * 60 + sec)
            else None
        | _, _, _, _, _, _ => None
        end
      else None
  | _ => None
  end.

(** [str(n)] for an int. *)
Definition str_int (n : Z) : string :=
  NilEmpty.string_of_int (Z.to_int n).

(** A value under a key of a decoded JSON object: the key may be missing,
    hold [null] (Python [None]) or hold a value. *)
Inductive json (A : Type) : Type :=
| Missing : json A
| Null : json A
| Value : A -> json A.

Arguments Missing {A}.
Arguments Null {A}.
Arguments Value {A} _.

(** [d.get(key)] *)
Definition get {A} (j : json A) : option A :=
  match j with
  | Value a => Some a
  | Missing | Null => None
  end.

(** [d.get(key, default)] *)
Definition get_or {A} (j : json A) (default : A) : option A :=
  match j with
  | Value a => Some a
  | Missing => Some default
  | Null => None
  end.

(** How an f-string renders a value that is a string or [None]. *)
Definition fmt (o : option string) : string :=
  match o with
  | Some s => s
  | None => "None"
  end.

(** [needle in s] for strings. *)
Definition contains (needle s : string) : bool :=
  match String.index 0 needle s with
  | Some _ => true
  | None => false
  end.

(** [sep.join(parts)] *)
Fixpoint join (sep : string) (parts : list string) : string :=
  match parts with
  | [] => ""
  | [p] => p
  | p :: rest => p ++ sep ++ join sep rest
  end.

(** [fromisoformat] on the catalogue's own spelling of an instant,
    [YYYY-MM-DDTHH:MMZ], as Unix seconds; [None] on any other text.  This
    is the instance the worked examples plug in for the parser
    parameter. *)
Definition fromisoformat_catalog (s : string) : option Z :=
  match list_ascii_of_string s with
  | [y1; y2; y3; y4; s1; m1; m2; s2; d1; d2; t; h1; h2; c1; i1; i2; z] =>
      if (Ascii.eqb s1 "-" && Ascii.eqb s2 "-" && Ascii.eqb t "T"
          && Ascii.eqb c1 ":" && Ascii.eqb z "Z")%bool
      then
        match number [y1; y2; y3; y4], number [m1; m2], number [d1; d2],
              number [h1; h2], number [i1; i2] with
        | Some y, Some m, Some d, Some h, Some mi =>
            if ((1 <=? y) && (1 <=? m) && (m <=? 12) && (1 <=? d)
                && (d <=? days_in_month y m) && (h <=? 23)
                && (mi <=? 59))%bool
            then Some (days_from_civil y m d * 86400 + h * 3600 + mi * 60)
            else None
        | _, _, _, _, _ => None
        end
      else None
  | _ => None
  end.

(** [s.split(sep)] for a one-character separator: the pieces between the
    occurrences of [sep], empty pieces included. *)
Fixpoint split (sep : ascii) (s : string) : list string :=
  match s with
  | EmptyString => [EmptyString]
  | String c rest =>
      if Ascii.eqb c sep then EmptyString :: split sep rest
      else match split sep rest with
           | piece :: pieces => String c piece :: pieces
           | [] => [String c EmptyString]
           end
  end.

(** [x or ''] for a value that is a string or [None]. *)
Definition or_empty (o : option string) : string :=
  match o with
  | Some s => s
  | None => ""
  end.

(** ASCII letters compare equal whatever their case under SQLite's
    [LIKE]. *)
Definition upcase (c : ascii) : ascii :=
  let n := N_of_ascii c in
  if ((97 <=? n) && (n <=? 122))%N then ascii_of_N (n - 32) else c.

(** SQLite's [s LIKE pattern] on ASCII text, without ESCAPE: [%] stands
    for any run of characters, [_] for any one character, letters match
    without regard to case. *)
Fixpoint like (pattern s : string) : bool :=
  match pattern with
  | EmptyString => (s =? "")%string
  | String p pattern' =>
      if Ascii.eqb p "%" then
        (fix any (t : string) : bool :=
           like pattern' t
           || match t with
              | EmptyString => false
              | String _ t' => any t'
              end) s
      else
        match s with
        | EmptyString => false
        | String c s' =>
            (Ascii.eqb p "_" || Ascii.eqb (upcase p) (upcase c))
            && like pattern' s'
        end
  end.

(** The end of a call that may raise. *)
Inductive outcome (A : Type) : Type :=
| Raises : outcome A
| Returns : A -> outcome A.

Arguments Raises {A}.
Arguments Returns {A} _.

(** The line feed written by ["\n"]. *)
Definition nl : string := String (ascii_of_N 10) EmptyString.

(** [enumerate(l, start)] *)
Fixpoint enumerate {A} (start : Z) (l : list A) : list (Z * A) :=
  match l with
  | [] => []
  | x :: l' => (start, x) :: enumerate (start + 1) l'
  end.

(** [int(s)] on a plain run of ASCII digits, [None] on any other text:
    the instance the worked examples plug in for the [int] parameter. *)
Definition int_plain (s : string) : option Z :=
  if (s =? "")%string then None else number (list_ascii_of_string s).

(** [c in s] for a one-character [c]. *)
Fixpoint has_char (c : ascii) (s : string) : bool :=
  match s with
  | EmptyString => false
  | String c' rest => Ascii.eqb c' c || has_char c rest
  end.

(** Characters that stand for themselves, and only for themselves, in a
    [LIKE] pattern: no wildcard and no letter. *)
Definition plain_char (c : ascii) : bool :=
  negb (Ascii.eqb c "%") && negb (Ascii.eqb c "_")
  && Ascii.eqb (upcase c) c && negb (is_upper c).

Fixpoint plain (s : string) : bool :=
  match s with
  | EmptyString => true
  | String c rest => plain_char c && plain rest
  end.

End Py.


(* ===================================================================== *)
(** ** The flare tracker ([SimpleFlareTracker]) *)
(* ===================================================================== *)

Module Flare.

(** A flare dictionary handed to [store_flares].  Each field is the value
    of the lookup the tracker performs: [flare['event_date']] and
    [flare['flare_class']] are mandatory; the other keys are read with
    [flare.get(key)], where [None] covers both a missing key and a stored
    [None]; [raw_text] alone is read with a default, so a missing key
    and a stored [None] differ. *)
Record flare := {
  event_date : string;
  event_time : option string;
  event_timestamp : option Z;
  flare_class : string;
  region : option string;
  location : option string;
  peak_time : option string;
  end_time : option string;
  raw_text : Py.json string
}.

(** A row of table [flares].  The projections carry the names under which
    [store_flares] unpacks a selected row ([ex_id], [ex_class], ...). *)
Record row := {
  ex_id : Z;
  ex_date : string;
  ex_time : option string;
  ex_timestamp : option Z;
  ex_class : string;
  ex_region : option string;
  ex_location : option string;
  ex_peak : option string;
  ex_end : option string;
  ex_scraped_at : Z;
  ex_source : option string;
  ex_raw_text : option string
}.

(** Table [flares] with its AUTOINCREMENT counter. *)
Record db := {
  flares : list row;
  seq : Z
}.

Definition empty_db : db := {| flares := []; seq := 0 |}.

(** *** Magnitude tolerance *)

(** [class_letter] and [magnitude] of a class string, when the pattern
    matches. *)
Definition class_magnitude (s : string) : option (ascii * Q) :=
  match Py.match_class s with
  | Some (c, digits) =>
      match Py.float digits with
      | Some q => Some (c, q)
      | None => None
      end
  | None => None
  end.

Definition tolerance : Q := 2 # 10.

(** The check at the head of the candidate loop: with a parsed incoming
    class, the existing class must parse, carry the same letter and lie in
    [[magnitude - 0.2, magnitude + 0.2]]; otherwise the loop [continue]s.
    Without a parsed incoming class there is no check.  The bounds are
    exact here; in the source they are floats, so a magnitude at distance
    exactly 0.2 may fall on either side there. *)
Definition within_tolerance (parsed : option (ascii * Q)) (ex : row) : bool :=
  match parsed with
  | None => true
  | Some (class_letter, magnitude) =>
      match Py.match_class (ex_class ex) with
      | None => false
      | Some (c, digits) =>
          if Ascii.eqb c class_letter then
            match Py.float digits with
            | Some ex_magnitude =>
                Qle_bool (magnitude - tolerance) ex_magnitude
                && Qle_bool ex_magnitude (magnitude + tolerance)
            | None => false
            end
          else false
      end
  end.

(** The rows fetched as [existing_candidates]: same [event_date], most
    recent [event_timestamp] first when the incoming class parsed;
    same date and identical class string, in table order, when it did not. *)
Definition existing_candidates (fl : flare) (tbl : list row) : list row :=
  match class_magnitude (flare_class fl) with
  | Some _ =>
      Py.order_by
        (fun a b => Py.le_nullable (ex_timestamp b) (ex_timestamp a))
        (filter (fun r => (ex_date r =? event_date fl)%string) tbl)
  | None =>
      filter (fun r => ((ex_date r =? event_date fl)
                        && (ex_class r =? flare_class fl))%string) tbl
  end.

(** *** Match criteria *)

Inductive criterion :=
| StartTimestamp     (* start timestamps within 5 minutes *)
| NoaaTimeLmsalPeak  (* incoming NOAA time against existing LMSAL peak *)
| LmsalPeakNoaaTime  (* incoming LMSAL peak against existing NOAA time *)
| PeakPeak           (* both LMSAL, peak against peak *)
| LocationWindow.    (* same location, start timestamps within 30 minutes *)

Definition criteria : list criterion :=
  [StartTimestamp; NoaaTimeLmsalPeak; LmsalPeakNoaaTime; PeakPeak;
   LocationWindow].

Section Matching.

(** [int(datetime.strptime(s, "%Y-%m-%d %H:%M:%S")
         .replace(tzinfo=timezone.utc).timestamp())];
    [None] when [strptime] raises [ValueError]. *)
Variable strptime : string -> option Z.

(** The incoming source tag, the [source] argument of [store_flares]. *)
Variable source : string.

Definition peak_timestamp (date : string) (peak : string) : option Z :=
  strptime (date ++ " " ++ peak).

Definition timestamp_match (fl : flare) (ex : row) : bool :=
  match event_timestamp fl, ex_timestamp ex with
  | Some incoming_ts, Some ex_ts => Z.abs (incoming_ts - ex_ts) <=? 300
  | _, _ => false
  end.

Definition noaa_time_match (fl : flare) (ex : row) : bool :=
  (source =? "NOAA")%string
  && Py.truthy_int (event_timestamp fl)
  && Py.eqb_opt_string (ex_source ex) (Some "LMSAL")
  && Py.truthy_str (ex_peak ex)
  && match event_timestamp fl, ex_peak ex with
     | Some ts, Some pk =>
         match peak_timestamp (event_date fl) pk with
         | Some peak_ts => Z.abs (ts - peak_ts) <=? 120
         | None => false
         end
     | _, _ => false
     end.

Definition lmsal_peak_match (fl : flare) (ex : row) : bool :=
  (source =? "LMSAL")%string
  && Py.truthy_str (peak_time fl)
  && Py.eqb_opt_string (ex_source ex) (Some "NOAA")
  && Py.truthy_int (ex_timestamp ex)
  && match peak_time fl, ex_timestamp ex with
     | Some pk, Some ex_ts =>
         match peak_timestamp (event_date fl) pk with
         | Some peak_ts => Z.abs (peak_ts - ex_ts) <=? 120
         | None => false
         end
     | _, _ => false
     end.

Definition peak_peak_match (fl : flare) (ex : row) : bool :=
  (source =? "LMSAL")%string
  && Py.eqb_opt_string (ex_source ex) (Some "LMSAL")
  && Py.truthy_str (peak_time fl)
  && Py.truthy_str (ex_peak ex)
  && match peak_time fl, ex_peak ex with
     | Some pk, Some ex_pk =>
         match peak_timestamp (event_date fl) pk,
               peak_timestamp (event_date fl) ex_pk with
         | Some incoming_peak, Some existing_peak =>
             Z.abs (incoming_peak - existing_peak) <=? 60
         | _, _ => false
         end
     | _, _ => false
     end.

Definition location_match (fl : flare) (ex : row) : bool :=
  Py.truthy_str (location fl)
  && Py.truthy_str (ex_location ex)
  && Py.eqb_opt_string (location fl) (ex_location ex)
  && Py.truthy_int (event_timestamp fl)
  && Py.truthy_int (ex_timestamp ex)
  && match event_timestamp fl, ex_timestamp ex with
     | Some ts, Some ex_ts => Z.abs (ts - ex_ts) <=? 1800
     | _, _ => false
     end.

Definition holds (c : criterion) (fl : flare) (ex : row) : bool :=
  match c with
  | StartTimestamp => timestamp_match fl ex
  | NoaaTimeLmsalPeak => noaa_time_match fl ex
  | LmsalPeakNoaaTime => lmsal_peak_match fl ex
  | PeakPeak => peak_peak_match fl ex
  | LocationWindow => location_match fl ex
  end.

(** State of the [match_found] flag while one candidate is examined,
    with the criteria whose condition has been evaluated so far. *)
Record probe := {
  match_found : bool;
  evaluated : list criterion
}.

(** One [if not match_found and (...)] statement: the condition is
    evaluated only while the flag is still unset. *)
Definition try_criterion (fl : flare) (ex : row) (p : probe) (c : criterion)
  : probe :=
  if match_found p then p
  else {| match_found := holds c fl ex; evaluated := evaluated p ++ [c] |}.

(** The five statements between [match_found = False] and
    [if match_found:]. *)
Definition examine (fl : flare) (ex : row) : probe :=
  fold_left (try_criterion fl ex) criteria
            {| match_found := false; evaluated := [] |}.

(** The criterion that set the flag. *)
Definition matched_by (fl : flare) (ex : row) : option criterion :=
  let p := examine fl ex in
  if match_found p then Some (last (evaluated p) StartTimestamp) else None.

(** The candidate loop: the first fetched row that passes the tolerance
    check and sets [match_found] becomes [existing]. *)
Fixpoint first_match (parsed : option (ascii * Q)) (fl : flare)
  (candidates : list row) : option row :=
  match candidates with
  | [] => None
  | candidate :: rest =>
      if within_tolerance parsed candidate
         && match_found (examine fl candidate)
      then Some candidate
      else first_match parsed fl rest
  end.

Definition find_existing (fl : flare) (tbl : list row) : option row :=
  first_match (class_magnitude (flare_class fl)) fl
              (existing_candidates fl tbl).

(** *** Merge *)

(** The [updates] dictionary; [None] is an absent key. *)
Record updates := {
  u_flare_class : option string;
  u_region : option string;
  u_location : option string;
  u_event_time : option string;
  u_event_timestamp : option Z;
  u_peak_time : option string;
  u_end_time : option string;
  u_source : option string
}.

Definition prefer_incoming (ex : row) : bool :=
  (source =? "LMSAL")%string
  && Py.eqb_opt_string (ex_source ex) (Some "NOAA").

(** [flare.get(k) and (not ex_k or prefer_incoming)] *)
Definition fill (incoming existing : option string) (prefer : bool)
  : option string :=
  if Py.truthy_str incoming && (negb (Py.truthy_str existing) || prefer)
  then incoming else None.

Definition build_updates (fl : flare) (ex : row) : updates :=
  let prefer := prefer_incoming ex in
  let time := fill (event_time fl) (ex_time ex) prefer in
  {| u_flare_class :=
       if prefer && negb (flare_class fl =? ex_class ex)%string
       then Some (flare_class fl) else None;
     u_region := fill (region fl) (ex_region ex) prefer;
     u_location := fill (location fl) (ex_location ex) prefer;
     u_event_time := time;
     u_event_timestamp :=
       match time with
       | Some _ =>
           if Py.truthy_int (event_timestamp fl) then event_timestamp fl
           else None
       | None => None
       end;
     u_peak_time := fill (peak_time fl) (ex_peak ex) prefer;
     u_end_time := fill (end_time fl) (ex_end ex) prefer;
     u_source := if prefer then Some source else None |}.

Definition is_set {A} (o : option A) : bool :=
  match o with Some _ => true | None => false end.

(** [should_update] is raised exactly where a key is written (the
    timestamp is only written together with [event_time]). *)
Definition should_update (u : updates) : bool :=
  is_set (u_flare_class u) || is_set (u_region u) || is_set (u_location u)
  || is_set (u_event_time u) || is_set (u_peak_time u)
  || is_set (u_end_time u) || is_set (u_source u).

Definition assign {A} (u : option A) (old : option A) : option A :=
  match u with Some _ => u | None => old end.

(** The effect of [UPDATE flares SET k = ?, ..., scraped_at = ?] on one
    row. *)
Definition apply_updates (u : updates) (scraped_at : Z) (r : row) : row :=
  {| ex_id := ex_id r;
     ex_date := ex_date r;
     ex_time := assign (u_event_time u) (ex_time r);
     ex_timestamp := assign (u_event_timestamp u) (ex_timestamp r);
     ex_class :=
       match u_flare_class u with Some c => c | None => ex_class r end;
     ex_region := assign (u_region u) (ex_region r);
     ex_location := assign (u_location u) (ex_location r);
     ex_peak := assign (u_peak_time u) (ex_peak r);
     ex_end := assign (u_end_time u) (ex_end r);
     ex_scraped_at := scraped_at;
     ex_source := assign (u_source u) (ex_source r);
     ex_raw_text := ex_raw_text r |}.

(** [UPDATE flares SET ... WHERE id = ?] *)
Definition update_where_id (u : updates) (scraped_at id : Z)
  (tbl : list row) : list row :=
  map (fun r => if ex_id r =? id then apply_updates u scraped_at r else r)
      tbl.

(** The row written by [INSERT INTO flares]. *)
Definition new_row (id scraped_at : Z) (fl : flare) : row :=
  {| ex_id := id;
     ex_date := event_date fl;
     ex_time := event_time fl;
     ex_timestamp := event_timestamp fl;
     ex_class := flare_class fl;
     ex_region := region fl;
     ex_location := location fl;
     ex_peak := peak_time fl;
     ex_end := end_time fl;
     ex_scraped_at := scraped_at;
     ex_source := Some source;
     ex_raw_text := Py.get_or (raw_text fl) "" |}.

(** The loop state of [store_flares]. *)
Record progress := {
  store : db;
  new_count : Z;
  updated_count : Z
}.

(** One iteration of [for flare in flares]. *)
Definition store_flare (scraped_at : Z) (st : progress) (fl : flare)
  : progress :=
  let d := store st in
  match find_existing fl (flares d) with
  | Some existing =>
      let u := build_updates fl existing in
      if should_update u then
        {| store := {| flares := update_where_id u scraped_at
                                   (ex_id existing) (flares d);
                       seq := seq d |};
           new_count := new_count st;
           updated_count := updated_count st + 1 |}
      else st
  | None =>
      {| store := {| flares := flares d
                                 ++ [new_row (seq d + 1) scraped_at fl];
                     seq := seq d + 1 |};
         new_count := new_count st + 1;
         updated_count := updated_count st |}
  end.

(** [store_flares(flares, source)]: the database afterwards and the
    returned [new_count]; [scraped_at] is the clock read at entry. *)
Definition store_flares (scraped_at : Z) (fls : list flare) (d : db)
  : db * Z :=
  let st := fold_left (store_flare scraped_at) fls
              {| store := d; new_count := 0; updated_count := 0 |} in
  (store st, new_count st).

End Matching.


(** *** Retention *)

Definition expired (cutoff_timestamp : Z) (r : row) : bool :=
  match ex_timestamp r with
  | Some ts => ts <? cutoff_timestamp
  | None => false
  end.

(** [cleanup_old_flares(hours)]: [DELETE FROM flares WHERE event_timestamp
    < ? AND event_timestamp IS NOT NULL] with the cutoff [hours] hours
    before the clock reading [now]; returns the database afterwards and
    the number of deleted rows. *)
Definition cleanup_old_flares (now hours : Z) (d : db) : db * Z :=
  let cutoff_timestamp := now - 3600 * hours in
  ({| flares := filter (fun r => negb (expired cutoff_timestamp r))
                       (flares d);
      seq := seq d |},
   Z.of_nat (List.length (filter (expired cutoff_timestamp) (flares d)))).

(** *** The 24-hour listing and its summary *)

(** A dictionary of the six columns selected by [get_flares_last_24h]. *)
Record listed := {
  l_event_date : string;
  l_event_time : option string;
  l_flare_class : string;
  l_region : option string;
  l_location : option string;
  l_raw_text : option string
}.

Definition listing (r : row) : listed :=
  {| l_event_date := ex_date r;
     l_event_time := ex_time r;
     l_flare_class := ex_class r;
     l_region := ex_region r;
     l_location := ex_location r;
     l_raw_text := ex_raw_text r |}.

(** [WHERE event_timestamp >= ? OR event_timestamp IS NULL] *)
Definition recent (cutoff_timestamp : Z) (r : row) : bool :=
  match ex_timestamp r with
  | Some ts => cutoff_timestamp <=? ts
  | None => true
  end.

(** The rows behind [get_flares_last_24h], [ORDER BY event_timestamp DESC
    NULLS LAST]. *)
Definition rows_last_24h (now : Z) (d : db) : list row :=
  let cutoff_timestamp := now - 3600 * 24 in
  Py.order_by
    (fun a b => Py.le_nullable (ex_timestamp b) (ex_timestamp a))
    (filter (recent cutoff_timestamp) (flares d)).

Definition get_flares_last_24h (now : Z) (d : db) : list listed :=
  map listing (rows_last_24h now d).

(** The [float(re.sub(...) or '0')] shared by the three branches of
    [flare_strength]. *)
Definition strength_digits (flare_class : string) : option Q :=
  let kept := Py.keep_numeric (Py.tail flare_class) in
  Py.float (if (kept =? "")%string then "0" else kept).

(** The inner function [flare_strength]; [None] when [float] raises. *)
Definition flare_strength (flare_class : string) : option Q :=
  if Py.startswith "X" flare_class then
    option_map (Qplus 1000) (strength_digits flare_class)
  else if Py.startswith "M" flare_class then
    option_map (Qplus 100) (strength_digits flare_class)
  else if Py.startswith "C" flare_class then
    option_map (Qplus 10) (strength_digits flare_class)
  else Some 0%Q.

(** [max(flares, key=...)] after its first element: a later element
    replaces the running maximum only when its key is strictly greater. *)
Fixpoint max_from (best : listed) (best_key : Q) (rest : list listed)
  : option listed :=
  match rest with
  | [] => Some best
  | f :: rest' =>
      match flare_strength (l_flare_class f) with
      | None => None
      | Some k =>
          match Qcompare best_key k with
          | Lt => max_from f k rest'
          | _ => max_from best best_key rest'
          end
      end
  end.

(** [max(flares, key=lambda f: flare_strength(f['flare_class']))] on a
    non-empty list; [None] when a key raises. *)
Definition strongest (fls : list listed) : option listed :=
  match fls with
  | [] => None
  | f :: rest =>
      match flare_strength (l_flare_class f) with
      | None => None
      | Some k => max_from f k rest
      end
  end.

Definition count_class (c : ascii) (fls : list listed) : Z :=
  Z.of_nat (List.length
              (filter (fun f => Py.startswith c (l_flare_class f)) fls)).

Record summary := {
  total_count : Z;
  x_class_count : Z;
  m_class_count : Z;
  c_class_count : Z;
  strongest_flare : option listed;
  flares_list : list listed
}.

(** [get_flares_summary()]; [None] when [flare_strength] raises
    [ValueError] and the call fails. *)
Definition get_flares_summary (now : Z) (d : db) : option summary :=
  let fls := get_flares_last_24h now d in
  match fls with
  | [] =>
      Some {| total_count := 0; x_class_count := 0; m_class_count := 0;
              c_class_count := 0; strongest_flare := None;
              flares_list := [] |}
  | _ :: _ =>
      match strongest fls with
      | None => None
      | Some s =>
          Some {| total_count := Z.of_nat (List.length fls);
                  x_class_count := count_class "X" fls;
                  m_class_count := count_class "M" fls;
                  c_class_count := count_class "C" fls;
                  strongest_flare := Some s;
                  flares_list := fls |}
      end
  end.

(** *** Notions used to state the properties *)


(** The elements of [l] up to and including the first one satisfying
    [p]. *)
Fixpoint through_first {A} (p : A -> bool) (l : list A) : list A :=
  match l with
  | [] => []
  | x :: l' => if p x then [x] else x :: through_first p l'
  end.


(** Primary-key discipline of table [flares]: ids are pairwise distinct
    and none exceeds the AUTOINCREMENT counter. *)
Definition well_formed (d : db) : Prop :=
  NoDup (map ex_id (flares d))
  /\ forall r, In r (flares d) -> ex_id r <= seq d.

(** What a merge without [prefer_incoming] leaves in a text field: the
    stored value when there is one, else the incoming value when there is
    one. *)
Definition gap_filled (incoming existing : option string) : option string :=
  if Py.truthy_str existing then existing
  else if Py.truthy_str incoming then incoming
  else existing.

(** *** Worked data *)

(** The two NOAA reports of the worked example: one event, seen twice,
    the second report carrying another region number. *)
Definition noaa_first : flare :=
  {| event_date := "2025-11-02";
     event_time := Some "00:26";
     event_timestamp := Some 1762043160;
     flare_class := "M1.0";
     region := Some "4274";
     location := None;
     peak_time := None;
     end_time := None;
     raw_text := Py.Value "M1.0 flare at 0026 UTC on 02 Nov" |}.

Definition noaa_second : flare :=
  {| event_date := "2025-11-02";
     event_time := Some "00:27";
     event_timestamp := Some 1762043220;
     flare_class := "M1.0";
     region := Some "4275";
     location := None;
     peak_time := None;
     end_time := None;
     raw_text := Py.Value "M1.0 flare at 0027 UTC on 02 Nov" |}.

Definition after_noaa_first : db :=
  fst (store_flares Py.strptime_padded "NOAA" 1762050000 [noaa_first]
         empty_db).

Definition after_noaa_second : db :=
  fst (store_flares Py.strptime_padded "NOAA" 1762064400 [noaa_second]
         after_noaa_first).

(** An LMSAL row whose start timestamp is NULL, and an LMSAL report of
    the same peak that has no start timestamp either. *)
Definition lmsal_row_no_timestamp : row :=
  {| ex_id := 1;
     ex_date := "2025-11-02";
     ex_time := None;
     ex_timestamp := None;
     ex_class := "M1.1";
     ex_region := Some "4274";
     ex_location := Some "N24E47";
     ex_peak := Some "00:26:30";
     ex_end := None;
     ex_scraped_at := 1762050000;
     ex_source := Some "LMSAL";
     ex_raw_text := Some "LMSAL: M1.1" |}.

Definition lmsal_report_no_timestamp : flare :=
  {| event_date := "2025-11-02";
     event_time := None;
     event_timestamp := None;
     flare_class := "M1.1";
     region := None;
     location := None;
     peak_time := Some "00:26:30";
     end_time := None;
     raw_text := Py.Value "LMSAL: M1.1" |}.

(** An LMSAL row without start timestamp and without peak time, and an
    LMSAL report from the same location with a known start timestamp. *)
Definition located_row_no_timestamp : row :=
  {| ex_id := 2;
     ex_date := "2025-11-02";
     ex_time := None;
     ex_timestamp := None;
     ex_class := "C8.2";
     ex_region := None;
     ex_location := Some "N24E47";
     ex_peak := None;
     ex_end := None;
     ex_scraped_at := 1762050000;
     ex_source := Some "LMSAL";
     ex_raw_text := Some "LMSAL: C8.2" |}.

Definition report_same_location : flare :=
  {| event_date := "2025-11-02";
     event_time := Some "12:46";
     event_timestamp := Some 1762087560;
     flare_class := "C8.2";
     region := None;
     location := Some "N24E47";
     peak_time := Some "12:50:00";
     end_time := Some "12:58:00";
     raw_text := Py.Value "LMSAL: C8.2 at 2025/11/02 12:46:00" |}.

(** The listing entry of a flare known by its class only. *)
Definition listed_of_class (c : string) : listed :=
  {| l_event_date := "2025-11-02";
     l_event_time := None;
     l_flare_class := c;
     l_region := None;
     l_location := None;
     l_raw_text := Some "" |}.

Definition row_of_class (id ts : Z) (c : string) : row :=
  {| ex_id := id;
     ex_date := "2025-11-02";
     ex_time := None;
     ex_timestamp := Some ts;
     ex_class := c;
     ex_region := None;
     ex_location := None;
     ex_peak := None;
     ex_end := None;
     ex_scraped_at := 1762090000;
     ex_source := Some "NOAA";
     ex_raw_text := Some "" |}.

(** Two B-class flares of one day: B1.0 at 13:00 UTC, B9.0 at 12:00. *)
Definition two_b_flares : db :=
  {| flares := [row_of_class 1 1762084800 "B9.0";
                row_of_class 2 1762088400 "B1.0"];
     seq := 2 |}.





(** An LMSAL row whose region is not numbered yet, and the table that
    holds it. *)
Definition lmsal_row_no_region : row :=
  {| ex_id := 1;
     ex_date := "2025-11-02";
     ex_time := Some "00:20";
     ex_timestamp := Some 1762042800;
     ex_class := "M1.1";
     ex_region := None;
     ex_location := Some "N24E47";
     ex_peak := Some "00:26:30";
     ex_end := Some "00:40:00";
     ex_scraped_at := 1762046000;
     ex_source := Some "LMSAL";
     ex_raw_text := Some "LMSAL: M1.1 at 2025/11/02 00:20:00" |}.

Definition lmsal_table : db :=
  {| flares := [lmsal_row_no_region]; seq := 1 |}.

(** The scenario of a vague report followed by a precise one: NOAA gives
    M1.0 at 00:26, LMSAL then gives M1.1 peaking at 00:26:30 in region
    4274. *)
Definition vague_report : flare :=
  {| event_date := "2025-11-02";
     event_time := Some "00:26";
     event_timestamp := Some 1762043160;
     flare_class := "M1.0";
     region := None;
     location := None;
     peak_time := None;
     end_time := None;
     raw_text := Py.Value "M1.0 flare at 0026 UTC on 02 Nov" |}.

Definition precise_report : flare :=
  {| event_date := "2025-11-02";
     event_time := None;
     event_timestamp := None;
     flare_class := "M1.1";
     region := Some "4274";
     location := None;
     peak_time := Some "00:26:30";
     end_time := None;
     raw_text := Py.Value "LMSAL: M1.1" |}.

(** An LMSAL report one minute after the start of [lmsal_row_no_region],
    from the same location. *)
Definition close_located_report : flare :=
  {| event_date := "2025-11-02";
     event_time := Some "00:21";
     event_timestamp := Some 1762042860;
     flare_class := "M1.1";
     region := None;
     location := Some "N24E47";
     peak_time := Some "00:26:30";
     end_time := Some "00:40:00";
     raw_text := Py.Value "LMSAL: M1.1 at 2025/11/02 00:21:00" |}.

(** An X-class row of 2024 without timestamp, next to a recent C-class
    row. *)
Definition undated_row : row :=
  {| ex_id := 1;
     ex_date := "2024-05-10";
     ex_time := None;
     ex_timestamp := None;
     ex_class := "X1.5";
     ex_region := Some "3664";
     ex_location := None;
     ex_peak := None;
     ex_end := None;
     ex_scraped_at := 1715300000;
     ex_source := Some "NOAA";
     ex_raw_text := Some "X1.5/2B flare from Region 3664" |}.

Definition undated_table : db :=
  {| flares := [undated_row; row_of_class 2 1762088400 "C8.2"];
     seq := 2 |}.

(* --------------------------------------------------------------------- *)
(** *** Archive links, monthly exports and the scraping cycle *)
(* --------------------------------------------------------------------- *)

Definition lmsal_archive : string :=
  "http://www.lmsal.com/solarsoft/latest_events_archive/events_summary/".

(** [generate_lmsal_link(event_date, event_time, peak_time)]: every
    failure inside the [try] (a date that does not split in three, a time
    without a second field) ends in the bare [except] and gives [""]. *)
Definition generate_lmsal_link (date : string)
  (time peak : option string) : string :=
  match Py.split "-" date with
  | [year; month; day] =>
      let chosen :=
        if Py.truthy_str time then time
        else if Py.truthy_str peak then peak
        else None in
      match chosen with
      | None => ""
      | Some t =>
          match Py.split ":" t with
          | hour :: minute :: _ =>
              lmsal_archive ++ year ++ "/" ++ month ++ "/" ++ day ++ "/"
              ++ "gev_" ++ year ++ month ++ day ++ "_" ++ hour ++ minute
              ++ "/index.html"
          | _ => ""
          end
      end
  | _ => ""
  end.

Definition le_nullable_text (a b : option string) : bool :=
  match a, b with
  | None, _ => true
  | Some _, None => false
  | Some x, Some y => String.leb x y
  end.

(** [ORDER BY event_date, event_time] *)
Definition export_order (a b : row) : bool :=
  if (ex_date a =? ex_date b)%string
  then le_nullable_text (ex_time a) (ex_time b)
  else String.leb (ex_date a) (ex_date b).

(** The rows both monthly exports select: [WHERE event_date LIKE ?] with
    the pattern [year_month%]. *)
Definition monthly_rows (year_month : string) (d : db) : list row :=
  Py.order_by export_order
    (filter (fun r => Py.like (year_month ++ "%") (ex_date r)) (flares d)).

Definition region_cell (r : row) : string :=
  if Py.truthy_str (ex_region r)
  then "AR" ++ Py.or_empty (ex_region r) else "".

Definition csv_header : list string :=
  ["#"; "LMSAL Link"; "Flare Class"; "Date"; "Start Time"; "Peak Time";
   "End Time"; "Position"; "Active Region"].

(** The list handed to [writer.writerow] for one flare. *)
Definition csv_row (idx : Z) (r : row) : list string :=
  [Py.str_int idx;
   generate_lmsal_link (ex_date r) (ex_time r) (ex_peak r);
   ex_class r;
   ex_date r;
   Py.or_empty (ex_time r);
   Py.or_empty (ex_peak r);
   Py.or_empty (ex_end r);
   Py.or_empty (ex_location r);
   region_cell r].

(** [export_monthly_flares_csv(year_month)]: the rows written to the CSV
    file, header first, or [None] when the month has no flare and no
    file is written.  The file name is not part of the model. *)
Definition export_monthly_flares_csv (year_month : string) (d : db)
  : option (list (list string)) :=
  match monthly_rows year_month d with
  | [] => None
  | rows =>
      Some (csv_header
            :: map (fun ir => csv_row (fst ir) (snd ir))
                   (Py.enumerate 1 rows))
  end.

Definition month_names : list string :=
  [""; "January"; "February"; "March"; "April"; "May"; "June"; "July";
   "August"; "September"; "October"; "November"; "December"].

(** [month_names[n]]: negative indices count from the end, [None] is
    [IndexError]. *)
Definition month_name (n : Z) : option string :=
  if (0 <=? n) && (n <=? 12) then nth_error month_names (Z.to_nat n)
  else if (-13 <=? n) && (n <? 0)
       then nth_error month_names (Z.to_nat (n + 13))
       else None.

Definition markdown_row (idx : Z) (r : row) : string :=
  let lmsal_link := generate_lmsal_link (ex_date r) (ex_time r) (ex_peak r) in
  let link_cell :=
    if (lmsal_link =? "")%string then ""
    else "[Link](" ++ lmsal_link ++ ")" in
  "| " ++ Py.str_int idx ++ " | " ++ link_cell ++ " | " ++ ex_class r
  ++ " | " ++ ex_date r ++ " | " ++ Py.or_empty (ex_time r) ++ " | "
  ++ Py.or_empty (ex_peak r) ++ " | " ++ Py.or_empty (ex_end r) ++ " | "
  ++ Py.or_empty (ex_location r) ++ " | " ++ region_cell r ++ " |"
  ++ Py.nl.

Definition markdown_table_head : string :=
  "| # | LMSAL Link | Flare Class | Date | Start Time | Peak Time | End Time | Position | Active Region |"
  ++ Py.nl ++
  "|---|------------|-------------|------|------------|-----------|----------|----------|---------------|"
  ++ Py.nl.

Section Cycle.

(** The built-in [int] on text; [None] when it raises [ValueError]. *)
Variable int : string -> option Z.

(** [export_monthly_flares_markdown(year_month)]: the text written to the
    Markdown file, [None] when the month has no flare.  With flares to
    write, the call raises unless [year_month] splits at its dashes into
    exactly a year and a month that [int] accepts and [month_names] can
    be indexed with. *)
Definition export_monthly_flares_markdown (year_month : string) (d : db)
  : Py.outcome (option string) :=
  match monthly_rows year_month d with
  | [] => Py.Returns None
  | rows =>
      match Py.split "-" year_month with
      | [year; month] =>
          match int month with
          | Some n =>
              match month_name n with
              | Some name =>
                  Py.Returns
                    (Some
                       ("# Solar Flares - " ++ name ++ " " ++ year
                        ++ Py.nl ++ Py.nl
                        ++ "Total flares recorded: **"
                        ++ Py.str_int (Z.of_nat (List.length rows))
                        ++ "**" ++ Py.nl ++ Py.nl
                        ++ markdown_table_head
                        ++ String.concat ""
                             (map (fun ir => markdown_row (fst ir) (snd ir))
                                  (Py.enumerate 1 rows))))
              | None => Py.Raises
              end
          | None => Py.Raises
          end
      | _ => Py.Raises
      end
  end.

(** What [scrape_and_update] reads from outside the database: the flares
    parsed from each feed ([None] when the fetch gave nothing), the clock
    at each statement that reads it, and the month text of the clock. *)
Record cycle_input := {
  lmsal_flares : option (list flare);
  noaa_flares : option (list flare);
  at_lmsal_store : Z;
  at_noaa_store : Z;
  at_cleanup : Z;
  at_summary : Z;
  year_month : string
}.

(** The dictionary [scrape_and_update] returns. *)
Inductive cycle_report :=
| NoSource
| Cycle (new_flares deleted_old current_total : Z)
        (sources_used : list string) (report : summary)
        (monthly_csv : option (list (list string)))
        (monthly_md : option string).

Variable strptime : string -> option Z.

(** One feed of the cycle: [if flares: new_count = store_flares(...)]. *)
Definition store_feed (source : string) (scraped_at : Z)
  (fls : option (list flare)) (d : db) : db * Z * list string :=
  match fls with
  | Some (fl :: rest) =>
      let (d', n) := store_flares strptime source scraped_at (fl :: rest) d in
      (d', n, [source])
  | Some [] | None => (d, 0, [])
  end.

(** [scrape_and_update()]: the database afterwards and the returned
    dictionary, or [Raises] when the summary or the Markdown export
    raises (the stores and the cleanup are committed by then). *)
Definition scrape_and_update (i : cycle_input) (d : db)
  : db * Py.outcome cycle_report :=
  let '(d1, n1, s1) := store_feed "LMSAL" (at_lmsal_store i)
                                  (lmsal_flares i) d in
  let '(d2, n2, s2) := store_feed "NOAA" (at_noaa_store i)
                                  (noaa_flares i) d1 in
  match (s1 ++ s2)%list with
  | [] => (d2, Py.Returns NoSource)
  | sources_used =>
      let (d3, deleted) := cleanup_old_flares (at_cleanup i) 24 d2 in
      match get_flares_summary (at_summary i) d3 with
      | None => (d3, Py.Raises)
      | Some s =>
          match export_monthly_flares_markdown (year_month i) d3 with
          | Py.Raises => (d3, Py.Raises)
          | Py.Returns md =>
              (d3,
               Py.Returns
                 (Cycle (n1 + n2) deleted (total_count s) sources_used s
                        (export_monthly_flares_csv (year_month i) d3) md))
          end
      end
  end.

End Cycle.

(** The nine columns [get_flares_for_report_period] selects. *)
Record reported := {
  p_flare_class : string;
  p_event_date : string;
  p_event_time : option string;
  p_peak_time : option string;
  p_end_time : option string;
  p_region : option string;
  p_location : option string;
  p_raw_text : option string;
  p_event_timestamp : option Z
}.

Definition report_entry (r : row) : reported :=
  {| p_flare_class := ex_class r;
     p_event_date := ex_date r;
     p_event_time := ex_time r;
     p_peak_time := ex_peak r;
     p_end_time := ex_end r;
     p_region := ex_region r;
     p_location := ex_location r;
     p_raw_text := ex_raw_text r;
     p_event_timestamp := ex_timestamp r |}.

(** [WHERE event_timestamp >= ? AND event_timestamp <= ?] *)
Definition in_period (start_ts end_ts : Z) (r : row) : bool :=
  match ex_timestamp r with
  | Some ts => (start_ts <=? ts) && (ts <=? end_ts)
  | None => false
  end.

(** [get_flares_for_report_period(start_time, end_time)] of the report
    generator, on an existing flare database. *)
Definition get_flares_for_report_period (start_ts end_ts : Z) (d : db)
  : list reported :=
  map report_entry
      (Py.order_by
         (fun a b => Py.le_nullable (ex_timestamp b) (ex_timestamp a))
         (filter (in_period start_ts end_ts) (flares d))).

(* --------------------------------------------------------------------- *)
(** *** Notions used to state the further properties *)
(* --------------------------------------------------------------------- *)

(** The columns no statement of [store_flares] writes after the
    insertion. *)
Definition fixed_part (r : row) : Z * string * option string :=
  (ex_id r, ex_date r, ex_raw_text r).

(** What a merge with [prefer_incoming] leaves in a text field: the
    incoming value when there is one, else the stored value. *)
Definition overwritten (incoming existing : option string) : option string :=
  if Py.truthy_str incoming then incoming else existing.




(** A NOAA mention of a flare that carries no time at all. *)
Definition undated_report : flare :=
  {| event_date := "2025-11-02";
     event_time := None;
     event_timestamp := None;
     flare_class := "C3.4";
     region := Some "4274";
     location := None;
     peak_time := None;
     end_time := None;
     raw_text := Py.Missing |}.

(** The table after NOAA's [vague_report], as the loop state in which
    LMSAL's [precise_report] arrives. *)
Definition after_vague_report : progress :=
  {| store := fst (store_flares Py.strptime_padded "NOAA" 1762050000
                     [vague_report] empty_db);
     new_count := 0;
     updated_count := 0 |}.

(** Three rows: one three days old, one of the last day, one without
    timestamp. *)
Definition three_days_old_row : row :=
  {| ex_id := 1;
     ex_date := "2025-10-30";
     ex_time := Some "13:00";
     ex_timestamp := Some 1761829200;
     ex_class := "M2.0";
     ex_region := Some "4267";
     ex_location := None;
     ex_peak := None;
     ex_end := None;
     ex_scraped_at := 1761830000;
     ex_source := Some "NOAA";
     ex_raw_text := Some "M2.0 flare at 1300 UTC on 30 Oct" |}.

Definition mixed_ages : db :=
  {| flares := [three_days_old_row;
                row_of_class 2 1762084800 "C8.2";
                undated_row];
     seq := 3 |}.

(** A stored class text that [float] rejects after its letter. *)
Definition malformed_class_table : db :=
  {| flares := [row_of_class 1 1762084800 "C8.2";
                row_of_class 2 1762088400 "M1.2.3"];
     seq := 2 |}.

(** [if flares:] on what a feed delivered. *)
Definition fetched (fls : option (list flare)) : bool :=
  match fls with
  | Some (_ :: _) => true
  | Some [] | None => false
  end.

(** The flares a feed hands to [store_flares]. *)
Definition delivered (fls : option (list flare)) : list flare :=
  match fls with
  | Some l => l
  | None => []
  end.

(** A cycle on 2 November 2025 in which LMSAL delivers the precise
    report and NOAA the vague one, on a table that still holds a flare
    of 30 October. *)
Definition cycle_of_november : cycle_input :=
  {| lmsal_flares := Some [precise_report];
     noaa_flares := Some [vague_report];
     at_lmsal_store := 1762088400;
     at_noaa_store := 1762088401;
     at_cleanup := 1762088402;
     at_summary := 1762088402;
     year_month := "2025-11" |}.

Definition stale_table : db :=
  {| flares := [three_days_old_row]; seq := 1 |}.

(** A cycle in which neither feed delivers a flare. *)
Definition cycle_without_feeds : cycle_input :=
  {| lmsal_flares := None;
     noaa_flares := Some [];
     at_lmsal_store := 1762088400;
     at_noaa_store := 1762088401;
     at_cleanup := 1762088402;
     at_summary := 1762088402;
     year_month := "2025-11" |}.

End Flare.


(* ===================================================================== *)
(** ** The CME tracker ([EnhancedCMETracker]) *)
(* ===================================================================== *)

Module CME.

(** *** The DONKI payload *)

(** An entry of [impactList]. *)
Record impact := {
  location : Py.json string;
  arrivalTime : Py.json string
}.

(** An entry of [enlilList]. *)
Record enlil := {
  modelCompletionTime : Py.json string;
  estimatedShockArrivalTime : Py.json string;
  estimatedDuration : Py.json Q;
  rmin_re : Py.json Q;
  kp_90 : Py.json Z;
  kp_135 : Py.json Z;
  kp_180 : Py.json Z;
  impactList : Py.json (list impact)
}.

(** An entry of [cmeAnalyses]; [type_] is the key [type]. *)
Record analysis := {
  featureCode : Py.json string;
  time21_5 : Py.json string;
  measurementTechnique : Py.json string;
  levelOfData : Py.json Z;
  speed : Py.json Q;
  type_ : Py.json string;
  longitude : Py.json Q;
  latitude : Py.json Q;
  halfAngle : Py.json Q;
  imageType : Py.json string;
  enlilList : Py.json (list enlil)
}.

(** The dictionary handed to [store_cme].  [activityID] and [startTime]
    are read with [cme_data[...]]; [instruments] lists the [displayName]
    of each instrument and [linkedEvents] the [activityID] of each linked
    event. *)
Record cme_data := {
  activityID : string;
  startTime : string;
  sourceLocation : Py.json string;
  activeRegionNum : Py.json Z;
  instruments : Py.json (list string);
  note : Py.json string;
  link : Py.json string;
  linkedEvents : Py.json (list string);
  cmeAnalyses : Py.json (list analysis)
}.

(** *** Tables *)

(** Table [cmes_enhanced]. *)
Record cme_row := {
  c_id : Z;
  c_activity_id : string;
  c_catalog : option string;
  c_start_time : string;
  c_start_timestamp : Z;
  c_source_location : option string;
  c_source_region : option string;
  c_associated_flare : option string;
  c_note : option string;
  c_instruments : option string;
  c_donki_url : option string;
  c_created_at : Z;
  c_updated_at : option Z
}.

(** Table [cme_analyses]; the columns [analysis_url], [instruments],
    [submitted_by] and [submission_time] are never written and stay
    NULL. *)
Record analysis_row := {
  a_id : Z;
  a_cme_id : Z;
  a_activity_id : string;
  a_analysis_id : Z;
  a_analysis_type : option string;
  a_measurement_time : option string;
  a_measurement_timestamp : option Z;
  a_technique : option string;
  a_data_level : option Z;
  a_speed : option Q;
  a_type : option string;
  a_direction_lon : option Q;
  a_direction_lat : option Q;
  a_half_angle : option Q;
  a_time_at_21_5_rs : option string;
  a_image_type : option string;
  a_created_at : Z;
  a_updated_at : option Z
}.

(** Table [cme_model_runs]. *)
Record run_row := {
  m_id : Z;
  m_analysis_id : Z;
  m_activity_id : string;
  m_run_number : Z;
  m_model_completion_time : option string;
  m_model_completion_timestamp : option Z;
  m_earth_arrival_time : option string;
  m_earth_arrival_timestamp : option Z;
  m_impact_duration : option Q;
  m_rmin_earth_radii : option Q;
  m_kp_90 : option Z;
  m_kp_135 : option Z;
  m_kp_180 : option Z;
  m_created_at : Z
}.

(** Table [cme_spacecraft_impacts]. *)
Record impact_row := {
  s_id : Z;
  s_model_run_id : Z;
  s_analysis_id : Z;
  s_activity_id : string;
  s_spacecraft_name : string;
  s_arrival_time : option string;
  s_arrival_timestamp : option Z;
  s_created_at : Z
}.

(** The four tables, each with its AUTOINCREMENT counter. *)
Record db := {
  cmes_enhanced : list cme_row;
  cme_analyses : list analysis_row;
  cme_model_runs : list run_row;
  cme_spacecraft_impacts : list impact_row;
  seq_cmes : Z;
  seq_analyses : Z;
  seq_model_runs : Z;
  seq_impacts : Z
}.

Definition empty_db : db :=
  {| cmes_enhanced := []; cme_analyses := []; cme_model_runs := [];
     cme_spacecraft_impacts := [];
     seq_cmes := 0; seq_analyses := 0; seq_model_runs := 0;
     seq_impacts := 0 |}.

(** *** Storing *)

Section Store.

(** [int(datetime.fromisoformat(s.replace('Z', '+00:00')).timestamp())];
    [None] when [fromisoformat] raises. *)
Variable fromisoformat : string -> option Z.

(** The built-in [hash] on strings, fixed for the life of a process. *)
Variable hash : string -> Z.

(** The clock, [int(datetime.now(timezone.utc).timestamp())], taken as
    one reading for all rows written by a call. *)
Variable now : Z.

(** The [*_timestamp] of a time text that may be empty or [None]: outer
    [None] when parsing raises. *)
Definition optional_timestamp (time : option string)
  : option (option Z) :=
  if Py.truthy_str time then
    match time with
    | Some t =>
        match fromisoformat t with
        | Some ts => Some (Some ts)
        | None => None
        end
    | None => Some None
    end
  else Some None.

(** [_store_spacecraft_impact]: the row is appended; any exception
    (a time that does not parse, a NULL spacecraft name rejected by the
    NOT NULL constraint) is logged and leaves the tables as they were. *)
Definition _store_spacecraft_impact (model_run_id analysis_id : Z)
  (activity_id : string) (imp : impact) (d : db) : db :=
  let arrival_time := Py.get (arrivalTime imp) in
  match optional_timestamp arrival_time,
        Py.get_or (location imp) "" with
  | Some arrival_timestamp, Some spacecraft_name =>
      let id := seq_impacts d + 1 in
      {| cmes_enhanced := cmes_enhanced d;
         cme_analyses := cme_analyses d;
         cme_model_runs := cme_model_runs d;
         cme_spacecraft_impacts :=
           cme_spacecraft_impacts d
           ++ [{| s_id := id;
                  s_model_run_id := model_run_id;
                  s_analysis_id := analysis_id;
                  s_activity_id := activity_id;
                  s_spacecraft_name := spacecraft_name;
                  s_arrival_time := arrival_time;
                  s_arrival_timestamp := arrival_timestamp;
                  s_created_at := now |}];
         seq_cmes := seq_cmes d;
         seq_analyses := seq_analyses d;
         seq_model_runs := seq_model_runs d;
         seq_impacts := id |}
  | _, _ => d
  end.

(** The list iterated by [if key in d and d[key]: for x in d[key]]. *)
Definition entries {A} (j : Py.json (list A)) : list A :=
  match j with
  | Py.Value l => l
  | Py.Missing | Py.Null => []
  end.

(** [_store_model_run]: [INSERT OR REPLACE] under
    [UNIQUE(analysis_id, run_number)], then one impact row per entry of
    [impactList]. *)
Definition _store_model_run (analysis_id : Z) (activity_id : string)
  (run_number : Z) (e : enlil) (d : db) : db :=
  let model_completion_time := Py.get_or (modelCompletionTime e) "" in
  let earth_arrival_time := Py.get (estimatedShockArrivalTime e) in
  match optional_timestamp model_completion_time,
        optional_timestamp earth_arrival_time with
  | Some model_completion_timestamp, Some earth_arrival_timestamp =>
      let model_run_id := seq_model_runs d + 1 in
      let kept :=
        filter (fun r => negb ((m_analysis_id r =? analysis_id)
                               && (m_run_number r =? run_number)))
               (cme_model_runs d) in
      let d' :=
        {| cmes_enhanced := cmes_enhanced d;
           cme_analyses := cme_analyses d;
           cme_model_runs :=
             kept
             ++ [{| m_id := model_run_id;
                    m_analysis_id := analysis_id;
                    m_activity_id := activity_id;
                    m_run_number := run_number;
                    m_model_completion_time := model_completion_time;
                    m_model_completion_timestamp :=
                      model_completion_timestamp;
                    m_earth_arrival_time := earth_arrival_time;
                    m_earth_arrival_timestamp := earth_arrival_timestamp;
                    m_impact_duration := Py.get (estimatedDuration e);
                    m_rmin_earth_radii := Py.get (rmin_re e);
                    m_kp_90 := Py.get (kp_90 e);
                    m_kp_135 := Py.get (kp_135 e);
                    m_kp_180 := Py.get (kp_180 e);
                    m_created_at := now |}];
           cme_spacecraft_impacts := cme_spacecraft_impacts d;
           seq_cmes := seq_cmes d;
           seq_analyses := seq_analyses d;
           seq_model_runs := model_run_id;
           seq_impacts := seq_impacts d |} in
      fold_left
        (fun acc imp =>
           _store_spacecraft_impact model_run_id analysis_id activity_id
                                    imp acc)
        (entries (impactList e)) d'
  | _, _ => d
  end.

(** [for run_num, enlil in enumerate(l, 1)] *)
Fixpoint store_runs_from (run_num analysis_db_id : Z)
  (activity_id : string) (l : list enlil) (d : db) : db :=
  match l with
  | [] => d
  | e :: rest =>
      store_runs_from (run_num + 1) analysis_db_id activity_id rest
        (_store_model_run analysis_db_id activity_id run_num e d)
  end.

(** Two rows collide under [UNIQUE(activity_id, analysis_id,
    analysis_type)]; a NULL type collides with nothing. *)
Definition same_analysis_key (activity_id : string) (analysis_id : Z)
  (analysis_type : option string) (r : analysis_row) : bool :=
  (a_activity_id r =? activity_id)%string
  && (a_analysis_id r =? analysis_id)
  && match a_analysis_type r, analysis_type with
     | Some t, Some t' => (t =? t')%string
     | _, _ => false
     end.

(** [_store_analysis]: [INSERT OR REPLACE] of the analysis row, then one
    model run per entry of [enlilList], numbered from 1 and attached to
    the id of the row just written. *)
Definition _store_analysis (cme_id : Z) (activity_id : string)
  (an : analysis) (d : db) : db :=
  let analysis_type := Py.get_or (featureCode an) "LE" in
  let measurement_time := Py.get_or (time21_5 an) "" in
  match optional_timestamp measurement_time with
  | Some measurement_timestamp =>
      let analysis_id :=
        Z.abs (hash (activity_id ++ "_" ++ Py.fmt analysis_type ++ "_"
                       ++ Py.fmt measurement_time)) mod 1000000 in
      let analysis_db_id := seq_analyses d + 1 in
      let kept :=
        filter (fun r => negb (same_analysis_key activity_id analysis_id
                                                 analysis_type r))
               (cme_analyses d) in
      let d' :=
        {| cmes_enhanced := cmes_enhanced d;
           cme_analyses :=
             kept
             ++ [{| a_id := analysis_db_id;
                    a_cme_id := cme_id;
                    a_activity_id := activity_id;
                    a_analysis_id := analysis_id;
                    a_analysis_type := analysis_type;
                    a_measurement_time := measurement_time;
                    a_measurement_timestamp := measurement_timestamp;
                    a_technique :=
                      Py.get_or (measurementTechnique an) "";
                    a_data_level := Py.get_or (levelOfData an) 0;
                    a_speed := Py.get (speed an);
                    a_type := Py.get_or (type_ an) "";
                    a_direction_lon := Py.get (longitude an);
                    a_direction_lat := Py.get (latitude an);
                    a_half_angle := Py.get (halfAngle an);
                    a_time_at_21_5_rs := Py.get_or (time21_5 an) "";
                    a_image_type := Py.get_or (imageType an) "";
                    a_created_at := now;
                    a_updated_at := Some now |}];
           cme_model_runs := cme_model_runs d;
           cme_spacecraft_impacts := cme_spacecraft_impacts d;
           seq_cmes := seq_cmes d;
           seq_analyses := analysis_db_id;
           seq_model_runs := seq_model_runs d;
           seq_impacts := seq_impacts d |} in
      store_runs_from 1 analysis_db_id activity_id
                      (entries (enlilList an)) d'
  | None => d
  end.

(** The first linked event whose id mentions [FLR]. *)
Definition associated_flare_of (p : cme_data) : option string :=
  match filter (Py.contains "FLR") (entries (linkedEvents p)) with
  | e :: _ => Some e
  | [] => None
  end.

(** [store_cme(cme_data)]: the database afterwards and the returned row
    id.  An exception raised in the body of [store_cme] itself (a start
    time that does not parse, a [null] where a list is iterated) is
    logged, nothing is committed and [None] is returned. *)
Definition store_cme (p : cme_data) (d : db) : db * option Z :=
  match fromisoformat (startTime p),
        instruments p, cmeAnalyses p with
  | None, _, _ => (d, None)
  | _, Py.Null, _ => (d, None)
  | _, _, Py.Null => (d, None)
  | Some start_timestamp, _, _ =>
      let activity_id := activityID p in
      let cme_id := seq_cmes d + 1 in
      let kept :=
        filter (fun r => negb (c_activity_id r =? activity_id)%string)
               (cmes_enhanced d) in
      let d' :=
        {| cmes_enhanced :=
             kept
             ++ [{| c_id := cme_id;
                    c_activity_id := activity_id;
                    c_catalog := Some "M2M_CATALOG";
                    c_start_time := startTime p;
                    c_start_timestamp := start_timestamp;
                    c_source_location := Py.get_or (sourceLocation p) "";
                    c_source_region :=
                      if Py.truthy_int (Py.get (activeRegionNum p))
                      then option_map Py.str_int
                                      (Py.get (activeRegionNum p))
                      else None;
                    c_associated_flare := associated_flare_of p;
                    c_note := Py.get_or (note p) "";
                    c_instruments :=
                      Some (Py.join ", " (entries (instruments p)));
                    c_donki_url := Py.get_or (link p) "";
                    c_created_at := now;
                    c_updated_at := Some now |}];
           cme_analyses := cme_analyses d;
           cme_model_runs := cme_model_runs d;
           cme_spacecraft_impacts := cme_spacecraft_impacts d;
           seq_cmes := cme_id;
           seq_analyses := seq_analyses d;
           seq_model_runs := seq_model_runs d;
           seq_impacts := seq_impacts d |} in
      (fold_left (fun acc an => _store_analysis cme_id activity_id an acc)
                 (entries (cmeAnalyses p)) d',
       Some cme_id)
  end.

End Store.

(** The row counts of the four tables: CMEs, analyses, model runs,
    spacecraft impacts. *)
Definition row_counts (d : db) : nat * nat * nat * nat :=
  (List.length (cmes_enhanced d), List.length (cme_analyses d),
   List.length (cme_model_runs d),
   List.length (cme_spacecraft_impacts d)).


(** *** Queries *)

(** A model run with its spacecraft impacts, an analysis with its model
    runs, a CME with its analyses: the nested dictionaries the queries
    return. *)
Record run_tree := {
  run : run_row;
  spacecraft_impacts : list impact_row
}.

Record analysis_tree := {
  analysis_of : analysis_row;
  model_runs : list run_tree
}.

Record cme_tree := {
  cme : cme_row;
  analyses : list analysis_tree
}.

Definition le_opt_string (a b : option string) : bool :=
  match a, b with
  | None, _ => true
  | Some _, None => false
  | Some x, Some y => String.leb x y
  end.

(** [ORDER BY analysis_type, analysis_id] *)
Definition analysis_order (a b : analysis_row) : bool :=
  if Py.eqb_opt_string (a_analysis_type a) (a_analysis_type b)
  then a_analysis_id a <=? a_analysis_id b
  else le_opt_string (a_analysis_type a) (a_analysis_type b).

(** [_get_analyses_for_cme(cursor, cme_id)] *)
Definition _get_analyses_for_cme (d : db) (cme_id : Z)
  : list analysis_tree :=
  map (fun a =>
         {| analysis_of := a;
            model_runs :=
              map (fun m =>
                     {| run := m;
                        spacecraft_impacts :=
                          Py.order_by
                            (fun x y => String.leb (s_spacecraft_name x)
                                                   (s_spacecraft_name y))
                            (filter (fun s => s_model_run_id s =? m_id m)
                                    (cme_spacecraft_impacts d)) |})
                  (Py.order_by
                     (fun x y => m_run_number x <=? m_run_number y)
                     (filter (fun m => m_analysis_id m =? a_id a)
                             (cme_model_runs d))) |})
      (Py.order_by analysis_order
         (filter (fun a => a_cme_id a =? cme_id) (cme_analyses d))).





(** [get_cmes_for_period(start_time, end_time)] *)
Definition get_cmes_for_period (start_ts end_ts : Z) (d : db)
  : list cme_tree :=
  map (fun c => {| cme := c;
                   analyses := _get_analyses_for_cme d (c_id c) |})
      (Py.order_by
         (fun x y => c_start_timestamp y <=? c_start_timestamp x)
         (filter (fun c => (start_ts <=? c_start_timestamp c)
                           && (c_start_timestamp c <=? end_ts))
                 (cmes_enhanced d))).

(** *** Notions used to state the properties *)



(** No model run refers to an analysis id beyond the counter of
    [cme_analyses]: what AUTOINCREMENT guarantees for rows written by the
    tracker. *)
Definition runs_bounded (d : db) : Prop :=
  forall m, In m (cme_model_runs d) -> m_analysis_id m <= seq_analyses d.

Section Written.

Variable fromisoformat : string -> option Z.

(** A time text on which [optional_timestamp] does not raise. *)
Definition parses (time : option string) : bool :=
  match optional_timestamp fromisoformat time with
  | Some _ => true
  | None => false
  end.

(** The entries for which [_store_model_run] reaches its INSERT. *)
Definition run_is_written (e : enlil) : bool :=
  parses (Py.get_or (modelCompletionTime e) "")
  && parses (Py.get (estimatedShockArrivalTime e)).

(** The entries for which [_store_analysis] reaches its INSERT. *)
Definition analysis_is_written (an : analysis) : bool :=
  parses (Py.get_or (time21_5 an) "").

(** The calls of [store_cme] that commit. *)
Definition cme_is_written (p : cme_data) : bool :=
  match fromisoformat (startTime p), instruments p, cmeAnalyses p with
  | None, _, _ => false
  | _, Py.Null, _ => false
  | _, _, Py.Null => false
  | Some _, _, _ => true
  end.

(** Number of model-run rows one committed [store_cme] writes. *)
Definition runs_written (p : cme_data) : nat :=
  list_sum
    (map (fun an =>
            if analysis_is_written an
            then List.length (filter run_is_written (entries (enlilList an)))
            else 0%nat)
         (entries (cmeAnalyses p))).

(** The entries for which [_store_spacecraft_impact] reaches its INSERT
    and passes the NOT NULL constraint on the spacecraft name. *)
Definition impact_is_written (imp : impact) : bool :=
  parses (Py.get (arrivalTime imp))
  && match Py.get_or (location imp) "" with
     | Some _ => true
     | None => false
     end.

Definition impacts_of_runs (l : list enlil) : nat :=
  list_sum
    (map (fun e =>
            if run_is_written e
            then List.length (filter impact_is_written
                                     (entries (impactList e)))
            else 0%nat) l).

(** Number of spacecraft-impact rows one committed [store_cme] writes. *)
Definition impacts_written (p : cme_data) : nat :=
  list_sum
    (map (fun an =>
            if analysis_is_written an
            then impacts_of_runs (entries (enlilList an))
            else 0%nat)
         (entries (cmeAnalyses p))).

End Written.

(** *** Worked data *)

(** A catalogue entry with one leading-edge analysis, one model run
    predicting arrival at Earth 50 hours after the start, and one
    spacecraft impact. *)
Definition sample_impact : impact :=
  {| location := Py.Value "STEREO A";
     arrivalTime := Py.Value "2025-11-04T02:00Z" |}.

Definition sample_run : enlil :=
  {| modelCompletionTime := Py.Value "2025-11-02T06:00Z";
     estimatedShockArrivalTime := Py.Value "2025-11-04T02:26Z";
     estimatedDuration := Py.Value (12 # 1);
     rmin_re := Py.Null;
     kp_90 := Py.Value 4;
     kp_135 := Py.Value 5;
     kp_180 := Py.Value 6;
     impactList := Py.Value [sample_impact] |}.

Definition sample_analysis : analysis :=
  {| featureCode := Py.Value "LE";
     time21_5 := Py.Value "2025-11-02T04:00Z";
     measurementTechnique := Py.Value "SWPC_CAT";
     levelOfData := Py.Value 0;
     speed := Py.Value (800 # 1);
     type_ := Py.Value "C";
     longitude := Py.Value (10 # 1);
     latitude := Py.Value (5 # 1);
     halfAngle := Py.Value (30 # 1);
     imageType := Py.Value "running difference";
     enlilList := Py.Value [sample_run] |}.

Definition sample_cme : cme_data :=
  {| activityID := "2025-11-02T00:26:00-CME-001";
     startTime := "2025-11-02T00:26Z";
     sourceLocation := Py.Value "N24E47";
     activeRegionNum := Py.Value 4274;
     instruments := Py.Value ["SOHO: LASCO/C2"; "SOHO: LASCO/C3"];
     note := Py.Missing;
     link := Py.Value "https://kauai.ccmc.gsfc.nasa.gov/DONKI/view/CME/1";
     linkedEvents := Py.Value ["2025-11-02T00:10:00-FLR-001"];
     cmeAnalyses := Py.Value [sample_analysis] |}.

(** A stand-in for the built-in [hash] of one process. *)
Definition sample_hash (s : string) : Z :=
  fold_left (fun h c => (31 * h + Z.of_N (N_of_ascii c)) mod 2147483647)
            (list_ascii_of_string s) 7.

(** The built-in [hash] of another process: string hashing is salted per
    process, so the same text hashes differently there. *)
Definition other_hash (s : string) : Z := sample_hash s + 1.

Definition stored_once : db :=
  fst (store_cme Py.fromisoformat_catalog sample_hash 1762070000
         sample_cme empty_db).

Definition stored_twice : db :=
  fst (store_cme Py.fromisoformat_catalog sample_hash 1762084400
         sample_cme stored_once).

(** The second call made by a later process. *)
Definition stored_again_later : db :=
  fst (store_cme Py.fromisoformat_catalog other_hash 1762084400
         sample_cme stored_once).

(* --------------------------------------------------------------------- *)
(** *** Synchronisation *)
(* --------------------------------------------------------------------- *)

Section Sync.

Variable fromisoformat : string -> option Z.
Variable hash : string -> Z.

(** The clock at the [k]-th call of [store_cme] made by one sync. *)
Variable clock : nat -> Z.

(** The loop [for cme in cmes: if self.store_cme(cme): stored_count += 1]
    from its [k]-th iteration on. *)
Fixpoint sync_from (k : nat) (cmes : list cme_data) (d : db)
  (stored_count : Z) : db * Z :=
  match cmes with
  | [] => (d, stored_count)
  | p :: rest =>
      let (d', id) := store_cme fromisoformat hash (clock k) p d in
      sync_from (S k) rest d'
        (if Py.truthy_int id then stored_count + 1 else stored_count)
  end.

(** [sync_cmes(start_date, end_date)] on the list that
    [fetch_cmes_from_api] returned (empty when the request failed). *)
Definition sync_cmes (cmes : list cme_data) (d : db) : db * Z :=
  sync_from 0 cmes d 0.

End Sync.

(* --------------------------------------------------------------------- *)
(** *** Notions used to state the further properties *)
(* --------------------------------------------------------------------- *)

(** What the constraints of the schema and AUTOINCREMENT give for tables
    written by the tracker alone: one row per [activity_id], ids
    distinct and at most the counter of their table, and no reference
    beyond the counter of the table referred to. *)
Definition consistent (d : db) : Prop :=
  0 <= seq_cmes d
  /\ NoDup (map c_activity_id (cmes_enhanced d))
  /\ NoDup (map c_id (cmes_enhanced d))
  /\ (forall c, In c (cmes_enhanced d) -> c_id c <= seq_cmes d)
  /\ (forall a, In a (cme_analyses d) ->
        a_id a <= seq_analyses d /\ a_cme_id a <= seq_cmes d)
  /\ (forall m, In m (cme_model_runs d) ->
        m_id m <= seq_model_runs d /\ m_analysis_id m <= seq_analyses d)
  /\ (forall s, In s (cme_spacecraft_impacts d) ->
        s_id s <= seq_impacts d /\ s_model_run_id s <= seq_model_runs d).

(** [d] is [d0] after statements of one [store_cme] that follow the
    insertion of the CME row [cme_id]: the CME table is untouched, and
    every analysis, model run and impact either was there or carries an
    id issued since, and refers to a row issued since. *)
Record grown (cme_id : Z) (d0 d : db) : Prop := {
  g_cmes : cmes_enhanced d = cmes_enhanced d0;
  g_seq_cmes : seq_cmes d = seq_cmes d0;
  g_seq_analyses : seq_analyses d0 <= seq_analyses d;
  g_seq_model_runs : seq_model_runs d0 <= seq_model_runs d;
  g_seq_impacts : seq_impacts d0 <= seq_impacts d;
  g_analyses :
    forall a, In a (cme_analyses d) ->
      In a (cme_analyses d0)
      \/ (seq_analyses d0 < a_id a <= seq_analyses d
          /\ a_cme_id a = cme_id);
  g_runs :
    forall m, In m (cme_model_runs d) ->
      In m (cme_model_runs d0)
      \/ (seq_model_runs d0 < m_id m <= seq_model_runs d
          /\ seq_analyses d0 < m_analysis_id m <= seq_analyses d);
  g_impacts :
    forall s, In s (cme_spacecraft_impacts d) ->
      In s (cme_spacecraft_impacts d0)
      \/ (seq_impacts d0 < s_id s <= seq_impacts d
          /\ seq_model_runs d0 < s_model_run_id s <= seq_model_runs d)
}.

(** Every analysis row bears the [activity_id] of the CME row it refers
    to. *)
Definition owned (d : db) : Prop :=
  forall a c,
    In a (cme_analyses d) -> In c (cmes_enhanced d) ->
    a_cme_id a = c_id c -> a_activity_id a = c_activity_id c.

(** What the statements of one [store_cme] for [activity_id], after the
    insertion of the CME row [cme_id], leave alone: the analyses of any
    other CME row that has none under this [activity_id], the model runs
    of every analysis that was there and the impacts of every model run
    that was there, as the queries select them. *)
Record untouched (cme_id : Z) (activity_id : string) (d0 d : db)
  : Prop := {
  u_activity :
    forall a, In a (cme_analyses d) ->
      In a (cme_analyses d0) \/ a_activity_id a = activity_id;
  u_analyses :
    forall cid, cid <> cme_id ->
      (forall a, In a (cme_analyses d0) -> a_cme_id a = cid ->
                 a_activity_id a <> activity_id) ->
      filter (fun a => a_cme_id a =? cid) (cme_analyses d)
      = filter (fun a => a_cme_id a =? cid) (cme_analyses d0);
  u_runs :
    forall aid, aid <= seq_analyses d0 ->
      filter (fun m => m_analysis_id m =? aid) (cme_model_runs d)
      = filter (fun m => m_analysis_id m =? aid) (cme_model_runs d0);
  u_impacts :
    forall mid, mid <= seq_model_runs d0 ->
      filter (fun s => s_model_run_id s =? mid) (cme_spacecraft_impacts d)
      = filter (fun s => s_model_run_id s =? mid)
               (cme_spacecraft_impacts d0)
}.

(** A second catalogue entry, without analyses. *)
Definition second_cme : cme_data :=
  {| activityID := "2025-11-03T10:12:00-CME-001";
     startTime := "2025-11-03T10:12Z";
     sourceLocation := Py.Missing;
     activeRegionNum := Py.Null;
     instruments := Py.Value ["STEREO A: SECCHI/COR2"];
     note := Py.Value "Faint";
     link := Py.Missing;
     linkedEvents := Py.Null;
     cmeAnalyses := Py.Value [] |}.

(** A catalogue entry whose start time is not a time. *)
Definition broken_cme : cme_data :=
  {| activityID := "2025-11-03T12:00:00-CME-001";
     startTime := "unknown";
     sourceLocation := Py.Missing;
     activeRegionNum := Py.Null;
     instruments := Py.Value [];
     note := Py.Missing;
     link := Py.Missing;
     linkedEvents := Py.Null;
     cmeAnalyses := Py.Value [] |}.

End CME.


(* ===================================================================== *)
(** * Properties *)
(* ===================================================================== *)

(** ** Sorting and parsing *)

Section PyFacts.

Import Py.

Section SortFacts.
Context {A : Type}.
Variable le : A -> A -> bool.

Lemma insert_sorted_In x y l :
  In y (insert_sorted le x l) <-> y = x \/ In y l.
Proof.
  induction l as [|z l IH]; simpl.
  - intuition congruence.
  - destruct (le x z); simpl; [intuition congruence|].
    rewrite IH. intuition.
Qed.

Lemma order_by_In y l : In y (order_by le l) <-> In y l.
Proof.
  induction l as [|x l IH]; simpl; [tauto|].
  rewrite insert_sorted_In, IH. intuition.
Qed.

Lemma insert_sorted_length x l :
  List.length (insert_sorted le x l) = S (List.length l).
Proof.
  induction l as [|z l IH]; simpl; [reflexivity|].
  destruct (le x z); simpl; congruence.
Qed.

Lemma order_by_length l : List.length (order_by le l) = List.length l.
Proof.
  induction l as [|x l IH]; simpl; [reflexivity|].
  rewrite insert_sorted_length; congruence.
Qed.
Lemma insert_sorted_NoDup x l :
  ~ In x l -> NoDup l -> NoDup (insert_sorted le x l).
Proof.
  induction l as [|z l IH]; simpl; intros Hx Hl.
  - constructor; [tauto|constructor].
  - destruct (le x z).
    + constructor; [simpl; tauto|assumption].
    + inversion Hl; subst. constructor.
      * rewrite insert_sorted_In. intros [->|H]; [tauto|contradiction].
      * apply IH; tauto.
Qed.

Lemma order_by_NoDup l : NoDup l -> NoDup (order_by le l).
Proof.
  induction l as [|x l IH]; simpl; intros H; [constructor|].
  inversion H; subst. apply insert_sorted_NoDup; [|auto].
  now rewrite order_by_In.
Qed.

End SortFacts.

Example float_ex1 : float "1.4" = Some (14 # 10).
Proof. reflexivity. Qed.

Example float_ex2 : float "1.2.3" = None /\ float "." = None.
Proof. split; reflexivity. Qed.

Example match_class_ex :
  match_class "M1.4/2B" = Some ("M"%char, "1.4")
  /\ match_class "X10" = Some ("X"%char, "10")
  /\ match_class "m1.0" = None.
Proof. repeat split; reflexivity. Qed.

Example strptime_padded_ex :
  strptime_padded "2025-11-02 00:26:30" = Some 1762043190
  /\ strptime_padded "1970-01-01 00:00:00" = Some 0
  /\ strptime_padded "2024-02-30 00:00:00" = None.
Proof. repeat split; reflexivity. Qed.

End PyFacts.


(** ** The flare tracker *)

Section FlareFacts.

Import Flare.

(* --------------------------------------------------------------------- *)
(** *** The candidate loop and the magnitude gate *)
(* --------------------------------------------------------------------- *)

Section CandidateLoop.

Variable strptime : string -> option Z.
Variable source : string.

Lemma first_match_some parsed fl cands c :
  first_match strptime source parsed fl cands = Some c ->
  In c cands
  /\ within_tolerance parsed c = true
  /\ match_found (examine strptime source fl c) = true.
Proof.
  induction cands as [|x cands IH]; simpl; [discriminate|].
  destruct (within_tolerance parsed x
            && match_found (examine strptime source fl x)) eqn:E.
  - intros [= <-]. apply andb_prop in E. tauto.
  - intros H. destruct (IH H) as (? & ? & ?). auto.
Qed.

Lemma first_match_none parsed fl cands :
  (forall c, In c cands ->
             within_tolerance parsed c = false
             \/ match_found (examine strptime source fl c) = false) ->
  first_match strptime source parsed fl cands = None.
Proof.
  induction cands as [|x cands IH]; simpl; intros H; [reflexivity|].
  destruct (H x (or_introl eq_refl)) as [-> | ->]; simpl;
    rewrite ?andb_false_r; apply IH; auto.
Qed.

Lemma existing_candidates_In fl tbl c :
  In c (existing_candidates fl tbl) ->
  In c tbl /\ ex_date c = event_date fl.
Proof.
  unfold existing_candidates.
  destruct (class_magnitude (flare_class fl)).
  - rewrite order_by_In, filter_In, String.eqb_eq. tauto.
  - rewrite filter_In, andb_true_iff, String.eqb_eq. tauto.
Qed.

Lemma find_existing_some fl tbl c :
  find_existing strptime source fl tbl = Some c ->
  In c tbl
  /\ ex_date c = event_date fl
  /\ within_tolerance (class_magnitude (flare_class fl)) c = true
  /\ match_found (examine strptime source fl c) = true.
Proof.
  unfold find_existing. intros H.
  apply first_match_some in H. destruct H as (Hin & Ht & Hm).
  apply existing_candidates_In in Hin. tauto.
Qed.

(** When every fetched row fails the tolerance check or leaves
    [match_found] unset, the flare is appended as a new row. *)
Lemma store_flare_inserts scraped_at st fl :
  (forall c, In c (existing_candidates fl (flares (store st))) ->
             within_tolerance (class_magnitude (flare_class fl)) c = false
             \/ match_found (examine strptime source fl c) = false) ->
  store_flare strptime source scraped_at st fl =
  {| store := {| flares := flares (store st)
                             ++ [new_row source (seq (store st) + 1)
                                         scraped_at fl];
                 seq := seq (store st) + 1 |};
     new_count := new_count st + 1;
     updated_count := updated_count st |}.
Proof.
  intros H. unfold store_flare, find_existing.
  now rewrite first_match_none.
Qed.

(** Rows with pairwise distinct ids are determined by their id. *)
Lemma unique_id_eq (tbl : list row) a b :
  NoDup (map ex_id tbl) -> In a tbl -> In b tbl ->
  ex_id a = ex_id b -> a = b.
Proof.
  induction tbl as [|x tbl IH]; simpl; [tauto|].
  intros Hnd [<-|Ha] [<-|Hb] Hid; inversion Hnd; subst; auto.
  - exfalso. apply H1. rewrite Hid. now apply in_map.
  - exfalso. apply H1. rewrite <- Hid. now apply in_map.
Qed.





End CandidateLoop.


(* --------------------------------------------------------------------- *)
(** *** Order of the match criteria *)
(* --------------------------------------------------------------------- *)





Section Priority.

Variable strptime : string -> option Z.
Variable source : string.

Lemma try_criterion_found fl ex (l : list criterion) p :
  match_found p = true ->
  fold_left (try_criterion strptime source fl ex) l p = p.
Proof.
  induction l as [|c l IH]; simpl; intros Hp; [reflexivity|].
  unfold try_criterion at 2. rewrite Hp. now apply IH.
Qed.

Lemma try_criteria_unfound fl ex (l : list criterion) seen :
  fold_left (try_criterion strptime source fl ex) l
            {| match_found := false; evaluated := seen |} =
  {| match_found := existsb (fun c => holds strptime source c fl ex) l;
     evaluated :=
       (seen ++ through_first (fun c => holds strptime source c fl ex) l)
       %list |}.
Proof.
  revert seen. induction l as [|c l IH]; intros seen; simpl.
  - now rewrite app_nil_r.
  - unfold try_criterion at 2. simpl.
    destruct (holds strptime source c fl ex) eqn:Hc.
    + now rewrite try_criterion_found.
    + rewrite IH. simpl. now rewrite <- app_assoc.
Qed.

Lemma examine_spec fl ex :
  examine strptime source fl ex =
  {| match_found :=
       existsb (fun c => holds strptime source c fl ex) criteria;
     evaluated :=
       through_first (fun c => holds strptime source c fl ex) criteria |}.
Proof. unfold examine. now rewrite try_criteria_unfound. Qed.


End Priority.


(** A report that satisfies the first criterion and would satisfy the
    fifth: the first decides and the fifth is not evaluated. *)
Example first_criterion_wins :
  holds Py.strptime_padded "LMSAL" StartTimestamp close_located_report
        lmsal_row_no_region = true
  /\ holds Py.strptime_padded "LMSAL" LocationWindow close_located_report
           lmsal_row_no_region = true
  /\ matched_by Py.strptime_padded "LMSAL" close_located_report
       lmsal_row_no_region = Some StartTimestamp
  /\ evaluated (examine Py.strptime_padded "LMSAL" close_located_report
                  lmsal_row_no_region) = [StartTimestamp].
Proof. repeat split; reflexivity. Qed.

(* --------------------------------------------------------------------- *)
(** *** Field-level merge *)
(* --------------------------------------------------------------------- *)





Lemma update_where_id_ids u scraped_at id tbl :
  map ex_id (update_where_id u scraped_at id tbl) = map ex_id tbl.
Proof.
  unfold update_where_id. rewrite map_map. apply map_ext.
  intros r. destruct (ex_id r =? id); reflexivity.
Qed.


Section Merge.

Variable strptime : string -> option Z.
Variable source : string.

Lemma store_flare_well_formed scraped_at st fl :
  well_formed (store st) ->
  well_formed (store (store_flare strptime source scraped_at st fl)).
Proof.
  intros [Hnd Hle]. unfold store_flare.
  destruct (find_existing strptime source fl (flares (store st)))
    as [existing|].
  - destruct (should_update (build_updates source fl existing));
      [|now split].
    split; simpl.
    + now rewrite update_where_id_ids.
    + intros r Hr. unfold update_where_id in Hr.
      apply in_map_iff in Hr. destruct Hr as (r0 & <- & Hr0).
      specialize (Hle r0 Hr0).
      destruct (ex_id r0 =? ex_id existing); simpl; assumption.
  - split; simpl.
    + rewrite map_app. simpl.
      apply NoDup_app; [assumption|repeat constructor; simpl; tauto|].
      intros i Hi [<-|[]]. apply in_map_iff in Hi.
      destruct Hi as (r & Hid & Hr). specialize (Hle r Hr). lia.
    + intros r Hr. apply in_app_or in Hr. destruct Hr as [Hr|[<-|[]]].
      * specialize (Hle r Hr). lia.
      * simpl. lia.
Qed.





End Merge.


Lemma lmsal_table_well_formed : well_formed lmsal_table.
Proof.
  split; simpl.
  - constructor; [simpl; tauto|constructor].
  - intros r [<-|[]]. simpl. lia.
Defined.


(** The vague report followed by the precise one leaves a single row
    with the precise class, the region and the precise source tag. *)
Example vague_then_precise :
  map (fun r => (ex_id r, ex_class r, ex_region r, ex_source r))
      (flares
         (fst (store_flares Py.strptime_padded "LMSAL" 1762064400
                 [precise_report]
                 (fst (store_flares Py.strptime_padded "NOAA" 1762050000
                         [vague_report] empty_db)))))
  = [(1, "M1.1", Some "4274", Some "LMSAL")].
Proof. reflexivity. Qed.

(* --------------------------------------------------------------------- *)
(** *** Merging at equal precision *)
(* --------------------------------------------------------------------- *)

Lemma assign_fill incoming existing :
  assign (fill incoming existing false) existing
  = gap_filled incoming existing.
Proof.
  unfold fill, gap_filled, assign.
  destruct (Py.truthy_str existing), (Py.truthy_str incoming) eqn:E;
    simpl; try reflexivity.
  destruct incoming; [reflexivity|discriminate].
Qed.

Lemma fill_unset incoming existing :
  is_set (fill incoming existing false) = false ->
  gap_filled incoming existing = existing.
Proof.
  unfold fill, gap_filled.
  destruct (Py.truthy_str existing); [reflexivity|].
  destruct (Py.truthy_str incoming) eqn:E; [|reflexivity].
  destruct incoming; simpl; discriminate.
Qed.

Lemma should_update_gaps source fl ex :
  prefer_incoming source ex = false ->
  should_update (build_updates source fl ex) = false ->
  gap_filled (region fl) (ex_region ex) = ex_region ex
  /\ gap_filled (location fl) (ex_location ex) = ex_location ex
  /\ gap_filled (event_time fl) (ex_time ex) = ex_time ex
  /\ gap_filled (peak_time fl) (ex_peak ex) = ex_peak ex
  /\ gap_filled (end_time fl) (ex_end ex) = ex_end ex.
Proof.
  intros Hp. unfold should_update, build_updates. rewrite Hp.
  cbv beta iota delta [u_flare_class u_region u_location u_event_time
                       u_peak_time u_end_time u_source].
  intros H.
  repeat match type of H with
         | (_ || _)%bool = false =>
             let H' := fresh "H" in
             apply orb_false_elim in H; destruct H as [H H']
         end.
  repeat split; now apply fill_unset.
Qed.

(** C7, as stated, fails.  A NOAA report is stored with region 4274; a
    later NOAA report of the same flare (start timestamps one minute
    apart) carries region 4275.  Both sides have the field, both come
    from the same source, the second report is matched with the stored
    row, and the table afterwards still holds the single row with the
    earlier value 4274, not the more recently observed 4275. *)
Lemma equal_precision_counterexample :
  map ex_source (flares after_noaa_first) = [Some "NOAA"]
  /\ map ex_region (flares after_noaa_first) = [Some "4274"]
  /\ region noaa_second = Some "4275"
  /\ option_map ex_id
       (find_existing Py.strptime_padded "NOAA" noaa_second
          (flares after_noaa_first)) = Some 1
  /\ map ex_id (flares after_noaa_second) = [1]
  /\ map ex_region (flares after_noaa_second) = [Some "4274"]
  /\ map ex_region (flares after_noaa_second) <> [region noaa_second].
Proof. repeat split; try reflexivity. discriminate. Qed.

(** C7 (amended: at equal precision the stored value stays).  When the
    incoming flare is matched with a stored record bearing the same
    source tag, the row found under that record's id afterwards has, in
    each of [region], [location], [event_time], [peak_time], [end_time],
    the stored value whenever the record had one (also when the incoming
    flare has one too), and the incoming value only where the record had
    none; class and source tag are the stored ones. *)
Theorem equal_precision_keeps_existing strptime source scraped_at st fl ex :
  find_existing strptime source fl (flares (store st)) = Some ex ->
  ex_source ex = Some source ->
  well_formed (store st) ->
  let st' := store_flare strptime source scraped_at st fl in
  (exists r', In r' (flares (store st')) /\ ex_id r' = ex_id ex)
  /\ forall r', In r' (flares (store st')) -> ex_id r' = ex_id ex ->
       ex_class r' = ex_class ex
       /\ ex_source r' = ex_source ex
       /\ ex_region r' = gap_filled (region fl) (ex_region ex)
       /\ ex_location r' = gap_filled (location fl) (ex_location ex)
       /\ ex_time r' = gap_filled (event_time fl) (ex_time ex)
       /\ ex_peak r' = gap_filled (peak_time fl) (ex_peak ex)
       /\ ex_end r' = gap_filled (end_time fl) (ex_end ex).
Proof.
  intros Hfind Hsrc [Hnd _] st'.
  assert (Hp : prefer_incoming source ex = false).
  { unfold prefer_incoming. rewrite Hsrc. simpl.
    destruct (String.eqb_spec source "LMSAL") as [->|]; reflexivity. }
  pose proof (find_existing_some strptime source fl _ _ Hfind) as (Hin & _).
  subst st'. unfold store_flare. rewrite Hfind.
  destruct (should_update (build_updates source fl ex)) eqn:Hup; simpl.
  - split.
    + exists (apply_updates (build_updates source fl ex) scraped_at ex).
      split; [|reflexivity].
      unfold update_where_id. apply in_map_iff. exists ex.
      now rewrite Z.eqb_refl.
    + intros r' Hr' Hid. unfold update_where_id in Hr'.
      apply in_map_iff in Hr'. destruct Hr' as (r & <- & Hr).
      destruct (Z.eqb_spec (ex_id r) (ex_id ex)) as [Heq|Hneq];
        [|contradiction].
      assert (r = ex) by (eapply unique_id_eq; eauto). subst r.
      unfold build_updates. rewrite Hp. simpl.
      rewrite !assign_fill. repeat split; reflexivity.
  - split; [now exists ex|].
    intros r' Hr' Hid.
    assert (r' = ex) by (eapply unique_id_eq; eauto). subst r'.
    destruct (should_update_gaps source fl ex Hp Hup)
      as (-> & -> & -> & -> & ->).
    repeat split; reflexivity.
Qed.

Lemma after_noaa_first_well_formed :
  well_formed
    (store {| store := after_noaa_first; new_count := 1;
              updated_count := 0 |}).
Proof.
  split; simpl.
  - constructor; [simpl; tauto|constructor].
  - intros r [<-|[]]. simpl. lia.
Defined.

(** The second NOAA report against the row of the first: the region on
    file stays. *)
Lemma equal_precision_witness :
  exists r',
    In r' (flares
             (store
                (store_flare Py.strptime_padded "NOAA" 1762064400
                   {| store := after_noaa_first; new_count := 1;
                      updated_count := 0 |}
                   noaa_second)))
    /\ ex_id r' = 1
    /\ ex_region r' = Some "4274"
    /\ ex_time r' = Some "00:26".
Proof.
  destruct (equal_precision_keeps_existing Py.strptime_padded "NOAA"
              1762064400
              {| store := after_noaa_first; new_count := 1;
                 updated_count := 0 |}
              noaa_second
              (new_row "NOAA" 1 1762050000 noaa_first)
              eq_refl eq_refl after_noaa_first_well_formed)
    as ((r' & Hin & Hid) & H).
  exists r'.
  destruct (H r' Hin Hid) as (_ & _ & Hregion & _ & Htime & _).
  repeat split; assumption.
Defined.

(* --------------------------------------------------------------------- *)
(** *** Records without a start timestamp *)
(* --------------------------------------------------------------------- *)

(** C8, as stated, fails in both directions.  A stored record without a
    start timestamp is matched by the fourth criterion (peak against
    peak) and merged; and a stored record without a start timestamp whose
    location equals the incoming one is not matched at all: the flare is
    stored as a second row. *)
Lemma unknown_timestamp_counterexample :
  ex_timestamp lmsal_row_no_timestamp = None
  /\ matched_by Py.strptime_padded "LMSAL" lmsal_report_no_timestamp
       lmsal_row_no_timestamp = Some PeakPeak
  /\ find_existing Py.strptime_padded "LMSAL" lmsal_report_no_timestamp
       [lmsal_row_no_timestamp] = Some lmsal_row_no_timestamp
  /\ ex_timestamp located_row_no_timestamp = None
  /\ ex_location located_row_no_timestamp = location report_same_location
  /\ matched_by Py.strptime_padded "LMSAL" report_same_location
       located_row_no_timestamp = None
  /\ map ex_id
       (flares
          (fst (store_flares Py.strptime_padded "LMSAL" 1762090000
                  [report_same_location]
                  {| flares := [located_row_no_timestamp]; seq := 2 |})))
     = [2; 3].
Proof. repeat split; reflexivity. Qed.

(** C8 (amended: without a start timestamp only peak times can match).
    A stored record whose start timestamp is NULL satisfies neither the
    first criterion, nor the third, nor the fifth (location); it matches
    exactly when the second (incoming NOAA time against its LMSAL peak)
    or the fourth (LMSAL peak against LMSAL peak) holds.  An incoming
    flare without start timestamp satisfies neither the first, nor the
    second, nor the fifth; it matches exactly when the third or the
    fourth holds. *)
Theorem unknown_timestamp_matching strptime source fl ex :
  (ex_timestamp ex = None ->
   holds strptime source StartTimestamp fl ex = false
   /\ holds strptime source LmsalPeakNoaaTime fl ex = false
   /\ holds strptime source LocationWindow fl ex = false
   /\ match_found (examine strptime source fl ex)
      = noaa_time_match strptime source fl ex
        || peak_peak_match strptime source fl ex)
  /\ (event_timestamp fl = None ->
      holds strptime source StartTimestamp fl ex = false
      /\ holds strptime source NoaaTimeLmsalPeak fl ex = false
      /\ holds strptime source LocationWindow fl ex = false
      /\ match_found (examine strptime source fl ex)
         = lmsal_peak_match strptime source fl ex
           || peak_peak_match strptime source fl ex).
Proof.
  split; intros Hnone.
  - assert (H1 : timestamp_match fl ex = false).
    { unfold timestamp_match. rewrite Hnone.
      destruct (event_timestamp fl); reflexivity. }
    assert (H3 : lmsal_peak_match strptime source fl ex = false).
    { unfold lmsal_peak_match. rewrite Hnone. simpl.
      now rewrite !andb_false_r. }
    assert (H5 : location_match fl ex = false).
    { unfold location_match. rewrite Hnone. simpl.
      now rewrite !andb_false_r. }
    rewrite examine_spec. simpl. rewrite H1, H3, H5.
    repeat split; try reflexivity. now rewrite !orb_false_r.
  - assert (H1 : timestamp_match fl ex = false).
    { unfold timestamp_match. now rewrite Hnone. }
    assert (H2 : noaa_time_match strptime source fl ex = false).
    { unfold noaa_time_match. rewrite Hnone. simpl.
      now rewrite !andb_false_r. }
    assert (H5 : location_match fl ex = false).
    { unfold location_match. rewrite Hnone. simpl.
      now rewrite !andb_false_r. }
    rewrite examine_spec. simpl. rewrite H1, H2, H5.
    repeat split; try reflexivity. now rewrite !orb_false_r.
Qed.

(** The stored LMSAL row without start timestamp can only be reached
    through a peak-time criterion. *)
Lemma unknown_timestamp_witness :
  holds Py.strptime_padded "LMSAL" StartTimestamp
        lmsal_report_no_timestamp lmsal_row_no_timestamp = false
  /\ holds Py.strptime_padded "LMSAL" LocationWindow
           lmsal_report_no_timestamp lmsal_row_no_timestamp = false
  /\ match_found (examine Py.strptime_padded "LMSAL"
                    lmsal_report_no_timestamp lmsal_row_no_timestamp)
     = true.
Proof.
  destruct (unknown_timestamp_matching Py.strptime_padded "LMSAL"
              lmsal_report_no_timestamp lmsal_row_no_timestamp)
    as (Hex & _).
  destruct (Hex eq_refl) as (H1 & _ & H5 & Hm).
  split; [exact H1|]. split; [exact H5|]. rewrite Hm. reflexivity.
Defined.

(* --------------------------------------------------------------------- *)
(** *** Retention and the 24-hour listing *)
(* --------------------------------------------------------------------- *)

Lemma filter_split_length {A} (p : A -> bool) (l : list A) :
  (List.length (filter p l) + List.length (filter (fun x => negb (p x)) l)
   = List.length l)%nat.
Proof.
  induction l as [|x l IH]; simpl; [reflexivity|].
  destruct (p x); simpl; lia.
Qed.



Lemma recent_iff cutoff r :
  recent cutoff r = true <->
  ex_timestamp r = None
  \/ exists ts, ex_timestamp r = Some ts /\ cutoff <= ts.
Proof.
  unfold recent. destruct (ex_timestamp r) as [ts|].
  - rewrite Z.leb_le. split.
    + intros H. right. eauto.
    + intros [H|(ts' & [= <-] & H)]; [discriminate|exact H].
  - split; auto.
Qed.

Lemma rows_last_24h_In now d r :
  In r (rows_last_24h now d) <->
  In r (flares d) /\ recent (now - 3600 * 24) r = true.
Proof. unfold rows_last_24h. now rewrite order_by_In, filter_In. Qed.

Lemma count_class_In c (fls : list listed) f :
  In f fls -> Py.startswith c (l_flare_class f) = true ->
  1 <= count_class c fls.
Proof.
  intros Hin Hc. unfold count_class.
  assert (Hf : In f (filter (fun f => Py.startswith c (l_flare_class f))
                            fls))
    by (apply filter_In; auto).
  destruct (filter _ fls); [contradiction|simpl; lia].
Qed.

Lemma summary_fields now d s :
  get_flares_summary now d = Some s ->
  flares_list s = get_flares_last_24h now d
  /\ total_count s = Z.of_nat (List.length (flares_list s))
  /\ x_class_count s = count_class "X" (flares_list s)
  /\ m_class_count s = count_class "M" (flares_list s)
  /\ c_class_count s = count_class "C" (flares_list s).
Proof.
  unfold get_flares_summary.
  destruct (get_flares_last_24h now d) as [|f fls] eqn:E.
  - intros [= <-]. simpl. repeat split; reflexivity.
  - destruct (strongest (f :: fls)); [|discriminate].
    intros [= <-]. simpl. repeat split; reflexivity.
Qed.

(** C10 (rows without timestamp are always listed).  The listing
    returned by [get_flares_last_24h] consists of exactly the stored rows
    whose [event_timestamp] is NULL or at least the clock minus 24 hours.
    Hence a stored row with a NULL timestamp is listed at every clock
    reading, whatever its [event_date]; it is still stored and listed
    after any [cleanup_old_flares]; and every summary of the tracker has
    it in [flares_list], counts it in [total_count] and counts it in the
    X, M or C counter according to the first letter of its class. *)
Theorem null_timestamp_always_listed now d :
  (forall f, In f (get_flares_last_24h now d) <->
             exists r, In r (flares d) /\ f = listing r
                       /\ (ex_timestamp r = None
                           \/ exists ts, ex_timestamp r = Some ts
                                         /\ now - 3600 * 24 <= ts))
  /\ forall r, In r (flares d) -> ex_timestamp r = None ->
       In (listing r) (get_flares_last_24h now d)
       /\ (forall now' hours later,
             In (listing r)
                (get_flares_last_24h later
                   (fst (cleanup_old_flares now' hours d))))
       /\ (forall s, get_flares_summary now d = Some s ->
             In (listing r) (flares_list s)
             /\ 1 <= total_count s
             /\ (Py.startswith "X" (ex_class r) = true ->
                 1 <= x_class_count s)
             /\ (Py.startswith "M" (ex_class r) = true ->
                 1 <= m_class_count s)
             /\ (Py.startswith "C" (ex_class r) = true ->
                 1 <= c_class_count s)).
Proof.
  assert (Hlist : forall now0 d0 r,
             In r (flares d0) -> ex_timestamp r = None ->
             In (listing r) (get_flares_last_24h now0 d0)).
  { intros now0 d0 r Hr Hnull. unfold get_flares_last_24h.
    apply in_map. apply rows_last_24h_In. split; [assumption|].
    apply recent_iff. now left. }
  split.
  - intros f. unfold get_flares_last_24h. rewrite in_map_iff. split.
    + intros (r & <- & Hr). apply rows_last_24h_In in Hr.
      destruct Hr as [Hr Hrec]. apply recent_iff in Hrec.
      exists r. auto.
    + intros (r & Hr & -> & Hrec). exists r. split; [reflexivity|].
      apply rows_last_24h_In. split; [assumption|].
      now apply recent_iff.
  - intros r Hr Hnull. split; [now apply Hlist|]. split.
    + intros now' hours later. apply Hlist; [|assumption].
      simpl. apply filter_In. split; [assumption|].
      unfold expired. now rewrite Hnull.
    + intros s Hs. apply summary_fields in Hs.
      destruct Hs as (Hfl & Ht & Hx & Hm & Hc).
      assert (Hin : In (listing r) (flares_list s))
        by (rewrite Hfl; now apply Hlist).
      split; [assumption|]. split.
      * rewrite Ht. destruct (flares_list s); [contradiction|simpl; lia].
      * rewrite Hx, Hm, Hc.
        repeat split; intros Hk; eapply count_class_In; eauto.
Qed.

(** The undated row of 2024 is listed in November 2025, survives a
    cleanup and is counted as the X-class flare of the summary. *)
Lemma null_timestamp_witness :
  In (listing undated_row) (get_flares_last_24h 1762090000 undated_table)
  /\ In (listing undated_row)
        (get_flares_last_24h 1762090000
           (fst (cleanup_old_flares 1762090000 0 undated_table)))
  /\ exists s,
       get_flares_summary 1762090000 undated_table = Some s
       /\ In (listing undated_row) (flares_list s)
       /\ 1 <= x_class_count s.
Proof.
  destruct (null_timestamp_always_listed 1762090000 undated_table)
    as (_ & H).
  destruct (H undated_row (or_introl eq_refl) eq_refl)
    as (Hlisted & Hclean & Hsum).
  split; [exact Hlisted|]. split; [apply Hclean|].
  destruct (get_flares_summary 1762090000 undated_table) as [s|] eqn:E;
    [|discriminate E].
  exists s. split; [reflexivity|].
  destruct (Hsum s eq_refl) as (Hin & _ & Hx & _).
  split; [exact Hin|]. apply Hx. reflexivity.
Defined.

(* --------------------------------------------------------------------- *)
(** *** The strongest flare *)
(* --------------------------------------------------------------------- *)









Lemma Qcompare_not_Lt (a b : Q) : Qcompare a b <> Lt -> (b <= a)%Q.
Proof.
  intros H. apply Qnot_lt_le. intros Hlt. apply H.
  now apply Qlt_alt.
Qed.

(** [max_from] returns an element whose key bounds the running maximum
    and every later key. *)
Lemma max_from_spec rest : forall best kb s,
  flare_strength (l_flare_class best) = Some kb ->
  max_from best kb rest = Some s ->
  (s = best \/ In s rest)
  /\ exists ks, flare_strength (l_flare_class s) = Some ks
                /\ (kb <= ks)%Q
                /\ forall f, In f rest ->
                     exists kf, flare_strength (l_flare_class f) = Some kf
                                /\ (kf <= ks)%Q.
Proof.
  induction rest as [|f rest IH]; intros best kb s Hb; simpl.
  - intros [= <-]. split; [now left|].
    exists kb. split; [assumption|]. split; [apply Qle_refl|].
    intros f [].
  - destruct (flare_strength (l_flare_class f)) as [k|] eqn:Hf;
      [|discriminate].
    destruct (Qcompare kb k) eqn:Hcmp; intros Hmax.
    + destruct (IH best kb s Hb Hmax) as (Hin & ks & Hs & Hle & Hall).
      split; [tauto|]. exists ks. repeat split; try assumption.
      intros g [<-|Hg]; [|now apply Hall].
      exists k. split; [assumption|].
      apply Qeq_alt in Hcmp. rewrite <- Hcmp. assumption.
    + destruct (IH f k s Hf Hmax) as (Hin & ks & Hs & Hle & Hall).
      split; [destruct Hin as [->|]; simpl; auto|]. exists ks. apply Qlt_alt in Hcmp.
      repeat split; try assumption.
      * apply Qle_trans with k; [now apply Qlt_le_weak|assumption].
      * intros g [<-|Hg]; [|now apply Hall]. eauto.
    + destruct (IH best kb s Hb Hmax) as (Hin & ks & Hs & Hle & Hall).
      split; [tauto|]. exists ks. repeat split; try assumption.
      intros g [<-|Hg]; [|now apply Hall].
      exists k. split; [assumption|].
      apply Qgt_alt in Hcmp. apply Qle_trans with kb; [|assumption].
      now apply Qlt_le_weak.
Qed.

Lemma strongest_spec fls s :
  strongest fls = Some s ->
  In s fls
  /\ exists ks, flare_strength (l_flare_class s) = Some ks
                /\ forall f, In f fls ->
                     exists kf, flare_strength (l_flare_class f) = Some kf
                                /\ (kf <= ks)%Q.
Proof.
  destruct fls as [|f rest]; simpl; [discriminate|].
  destruct (flare_strength (l_flare_class f)) as [k|] eqn:Hf;
    [|discriminate].
  intros H. destruct (max_from_spec rest f k s Hf H)
    as (Hin & ks & Hs & Hle & Hall).
  split; [destruct Hin; auto|]. exists ks. split; [assumption|].
  intros g [<-|Hg]; eauto.
Qed.





End FlareFacts.


(** ** The CME tracker *)

Section CMEFacts.

Import CME.

(* --------------------------------------------------------------------- *)
(** *** The arrival-window query *)
(* --------------------------------------------------------------------- *)



Lemma tree_cmes (rows : list cme_row) (d : db) :
  map cme (map (fun c => {| cme := c;
                            analyses := _get_analyses_for_cme d (c_id c) |})
               rows) = rows.
Proof. rewrite map_map. simpl. apply map_id. Qed.

(** What [_get_analyses_for_cme] collects: all analyses of the CME, all
    model runs of each analysis, all impacts of each run. *)
Lemma get_analyses_complete d cme_id :
  (forall a, In a (map analysis_of (_get_analyses_for_cme d cme_id)) <->
             In a (cme_analyses d) /\ a_cme_id a = cme_id)
  /\ forall t, In t (_get_analyses_for_cme d cme_id) ->
       (forall m, In m (map run (model_runs t)) <->
                  In m (cme_model_runs d)
                  /\ m_analysis_id m = a_id (analysis_of t))
       /\ forall rt, In rt (model_runs t) ->
            forall s, In s (spacecraft_impacts rt) <->
                      In s (cme_spacecraft_impacts d)
                      /\ s_model_run_id s = m_id (run rt).
Proof.
  unfold _get_analyses_for_cme. split.
  - intros a. rewrite map_map. simpl. rewrite map_id.
    now rewrite order_by_In, filter_In, Z.eqb_eq.
  - intros t Ht. apply in_map_iff in Ht. destruct Ht as (a & <- & _).
    simpl. split.
    + intros m. rewrite map_map. simpl. rewrite map_id.
      now rewrite order_by_In, filter_In, Z.eqb_eq.
    + intros rt Hrt. apply in_map_iff in Hrt.
      destruct Hrt as (m & <- & _). simpl. intros s.
      now rewrite order_by_In, filter_In, Z.eqb_eq.
Qed.



(* --------------------------------------------------------------------- *)
(** *** Re-ingesting a CME *)
(* --------------------------------------------------------------------- *)

Section Reingest.

Variable fromisoformat : string -> option Z.

Variable hash : string -> Z.
Variable now : Z.

Lemma filter_all {A} (p : A -> bool) (l : list A) :
  (forall x, In x l -> p x = true) -> filter p l = l.
Proof.
  induction l as [|x l IH]; simpl; intros H; [reflexivity|].
  rewrite (H x) by now left. f_equal. apply IH. intros; apply H; now right.
Qed.

Lemma store_impact_frame model_run_id analysis_id activity_id imp d :
  let d' := _store_spacecraft_impact fromisoformat now model_run_id
              analysis_id activity_id imp d in
  cme_model_runs d' = cme_model_runs d
  /\ seq_analyses d' = seq_analyses d.
Proof.
  unfold _store_spacecraft_impact.
  destruct (optional_timestamp fromisoformat (Py.get (arrivalTime imp)));
    [|now split].
  destruct (Py.get_or (location imp) ""); now split.
Qed.

Lemma store_impacts_frame model_run_id analysis_id activity_id imps :
  forall d,
  let d' := fold_left
              (fun acc imp =>
                 _store_spacecraft_impact fromisoformat now model_run_id
                   analysis_id activity_id imp acc) imps d in
  cme_model_runs d' = cme_model_runs d
  /\ seq_analyses d' = seq_analyses d.
Proof.
  induction imps as [|imp imps IH]; intros d; simpl; [now split|].
  destruct (IH (_store_spacecraft_impact fromisoformat now model_run_id
                  analysis_id activity_id imp d)) as [H1 H2].
  destruct (store_impact_frame model_run_id analysis_id activity_id imp d)
    as [H3 H4].
  split; congruence.
Qed.

(** A model run numbered above every stored run of its analysis replaces
    nothing: it is appended. *)
Lemma store_model_run_appends analysis_id activity_id n e d :
  (forall m, In m (cme_model_runs d) ->
             m_analysis_id m = analysis_id -> m_run_number m < n) ->
  let d' := _store_model_run fromisoformat now analysis_id activity_id n
              e d in
  seq_analyses d' = seq_analyses d
  /\ exists rows,
       cme_model_runs d' = (cme_model_runs d ++ rows)%list
       /\ List.length rows = (if run_is_written fromisoformat e then 1 else 0)%nat
       /\ forall r, In r rows ->
            m_analysis_id r = analysis_id /\ m_run_number r = n.
Proof.
  intros Hfresh. unfold _store_model_run, run_is_written, parses.
  destruct (optional_timestamp fromisoformat
              (Py.get_or (modelCompletionTime e) "")) as [t1|];
    [|split; [reflexivity|]; exists []; rewrite app_nil_r; simpl;
      intuition].
  destruct (optional_timestamp fromisoformat
              (Py.get (estimatedShockArrivalTime e))) as [t2|];
    [|split; [reflexivity|]; exists []; rewrite app_nil_r; simpl;
      intuition].
  match goal with
  | |- context [fold_left ?f ?l ?d0] =>
      destruct (store_impacts_frame (seq_model_runs d + 1) analysis_id
                  activity_id l d0) as [Hruns Hseq]
  end.
  simpl in *. rewrite Hruns, Hseq. split; [reflexivity|].
  rewrite filter_all.
  - eexists. split; [reflexivity|]. split; [reflexivity|].
    intros r [<-|[]]. simpl. auto.
  - intros m Hm. apply negb_true_iff, andb_false_iff.
    destruct (Z.eqb_spec (m_analysis_id m) analysis_id) as [Heq|];
      [right|now left].
    apply Z.eqb_neq. specialize (Hfresh m Hm Heq). lia.
Qed.

Lemma store_runs_from_appends analysis_id activity_id l :
  forall n d,
  (forall m, In m (cme_model_runs d) ->
             m_analysis_id m = analysis_id -> m_run_number m < n) ->
  let d' := store_runs_from fromisoformat now n analysis_id activity_id
              l d in
  seq_analyses d' = seq_analyses d
  /\ exists rows,
       cme_model_runs d' = (cme_model_runs d ++ rows)%list
       /\ List.length rows = List.length (filter (run_is_written fromisoformat) l)
       /\ forall r, In r rows -> m_analysis_id r = analysis_id.
Proof.
  induction l as [|e l IH]; intros n d Hfresh; simpl.
  - split; [reflexivity|]. exists []. rewrite app_nil_r. simpl. intuition.
  - destruct (store_model_run_appends analysis_id activity_id n e d Hfresh)
      as (Hseq & rows1 & Hruns1 & Hlen1 & Hrows1).
    destruct (IH (n + 1)
                 (_store_model_run fromisoformat now analysis_id
                    activity_id n e d))
      as (Hseq' & rows2 & Hruns2 & Hlen2 & Hrows2).
    { intros m Hm Hid. rewrite Hruns1 in Hm. apply in_app_or in Hm.
      destruct Hm as [Hm|Hm].
      - specialize (Hfresh m Hm Hid). lia.
      - destruct (Hrows1 m Hm) as [_ Hn]. lia. }
    split; [congruence|].
    exists (rows1 ++ rows2)%list. split; [|split].
    + rewrite Hruns2, Hruns1. now rewrite app_assoc.
    + rewrite length_app, Hlen1, Hlen2.
      destruct (run_is_written fromisoformat e); simpl; lia.
    + intros r Hr. apply in_app_or in Hr. destruct Hr as [Hr|Hr].
      * now destruct (Hrows1 r Hr).
      * now apply Hrows2.
Qed.

Lemma store_analysis_appends cme_id activity_id an d :
  runs_bounded d ->
  let d' := _store_analysis fromisoformat hash now cme_id activity_id
              an d in
  runs_bounded d'
  /\ List.length (cme_model_runs d')
     = (List.length (cme_model_runs d)
        + (if analysis_is_written fromisoformat an
           then List.length (filter (run_is_written fromisoformat) (entries (enlilList an)))
           else 0))%nat.
Proof.
  intros Hb. unfold _store_analysis, analysis_is_written, parses.
  destruct (optional_timestamp fromisoformat
              (Py.get_or (time21_5 an) "")) as [t|];
    [|split; [assumption|lia]].
  match goal with
  | |- context [store_runs_from _ _ 1 ?aid ?act ?l ?d0] =>
      destruct (store_runs_from_appends aid act l 1 d0)
        as (Hseq & rows & Hruns & Hlen & Hrows)
  end.
  { simpl. intros m Hm Hid. specialize (Hb m Hm). lia. }
  simpl in *. split.
  - intros m Hm. rewrite Hseq. rewrite Hruns in Hm.
    apply in_app_or in Hm. destruct Hm as [Hm|Hm].
    + specialize (Hb m Hm). lia.
    + rewrite (Hrows m Hm). lia.
  - rewrite Hruns, length_app, Hlen. reflexivity.
Qed.

Lemma store_analyses_appends cme_id activity_id ans :
  forall d,
  runs_bounded d ->
  let d' := fold_left
              (fun acc an =>
                 _store_analysis fromisoformat hash now cme_id activity_id
                                 an acc) ans d in
  runs_bounded d'
  /\ List.length (cme_model_runs d')
     = (List.length (cme_model_runs d)
        + list_sum
            (map (fun an =>
                    if analysis_is_written fromisoformat an
                    then List.length
                           (filter (run_is_written fromisoformat) (entries (enlilList an)))
                    else 0%nat) ans))%nat.
Proof.
  induction ans as [|an ans IH]; intros d Hb; simpl.
  - split; [assumption|lia].
  - destruct (store_analysis_appends cme_id activity_id an d Hb)
      as [Hb1 Hlen1].
    destruct (IH _ Hb1) as [Hb2 Hlen2].
    split; [assumption|]. rewrite Hlen2, Hlen1. lia.
Qed.

(** Every committed [store_cme] adds [runs_written fromisoformat p] rows to
    [cme_model_runs] and removes none. *)
Lemma store_cme_appends_runs p d :
  runs_bounded d ->
  let d' := fst (store_cme fromisoformat hash now p d) in
  runs_bounded d'
  /\ List.length (cme_model_runs d')
     = (List.length (cme_model_runs d)
        + (if cme_is_written fromisoformat p then runs_written fromisoformat p else 0))%nat.
Proof.
  intros Hb. unfold store_cme, cme_is_written, runs_written.
  destruct (fromisoformat (startTime p)) as [ts|];
    [|simpl; split; [assumption|lia]].
  destruct (instruments p) eqn:Hi;
    try (simpl; split; [assumption|lia]);
    destruct (cmeAnalyses p) eqn:Ha;
    try (simpl; split; [assumption|lia]);
    simpl fst;
    match goal with
    | |- context [fold_left _ ?ans ?d0] =>
        apply (store_analyses_appends (seq_cmes d + 1) (activityID p)
                 ans d0); exact Hb
    end.
Qed.

(** Spacecraft impacts are only ever appended. *)
Lemma store_impact_appends model_run_id analysis_id activity_id imp d :
  List.length
    (cme_spacecraft_impacts
       (_store_spacecraft_impact fromisoformat now model_run_id
          analysis_id activity_id imp d))
  = (List.length (cme_spacecraft_impacts d)
     + (if impact_is_written fromisoformat imp then 1 else 0))%nat.
Proof.
  unfold _store_spacecraft_impact, impact_is_written, parses.
  destruct (optional_timestamp fromisoformat (Py.get (arrivalTime imp)));
    [|simpl; lia].
  destruct (Py.get_or (location imp) ""); simpl; [|lia].
  rewrite length_app. simpl. lia.
Qed.

Lemma store_impacts_appends model_run_id analysis_id activity_id imps :
  forall d,
  List.length
    (cme_spacecraft_impacts
       (fold_left
          (fun acc imp =>
             _store_spacecraft_impact fromisoformat now model_run_id
               analysis_id activity_id imp acc) imps d))
  = (List.length (cme_spacecraft_impacts d)
     + List.length (filter (impact_is_written fromisoformat) imps))%nat.
Proof.
  induction imps as [|imp imps IH]; intros d; simpl; [lia|].
  rewrite IH, store_impact_appends.
  destruct (impact_is_written fromisoformat imp); simpl; lia.
Qed.

Lemma store_model_run_impacts analysis_id activity_id n e d :
  List.length
    (cme_spacecraft_impacts
       (_store_model_run fromisoformat now analysis_id activity_id n e d))
  = (List.length (cme_spacecraft_impacts d)
     + (if run_is_written fromisoformat e
        then List.length (filter (impact_is_written fromisoformat)
                                 (entries (impactList e)))
        else 0))%nat.
Proof.
  unfold _store_model_run, run_is_written, parses.
  destruct (optional_timestamp fromisoformat
              (Py.get_or (modelCompletionTime e) "")); [|simpl; lia].
  destruct (optional_timestamp fromisoformat
              (Py.get (estimatedShockArrivalTime e))); [|simpl; lia].
  rewrite store_impacts_appends. reflexivity.
Qed.

Lemma store_runs_from_impacts analysis_id activity_id l :
  forall n d,
  List.length
    (cme_spacecraft_impacts
       (store_runs_from fromisoformat now n analysis_id activity_id l d))
  = (List.length (cme_spacecraft_impacts d)
     + impacts_of_runs fromisoformat l)%nat.
Proof.
  unfold impacts_of_runs.
  induction l as [|e l IH]; intros n d; simpl; [lia|].
  rewrite IH, store_model_run_impacts. lia.
Qed.

Lemma store_analysis_impacts cme_id activity_id an d :
  List.length
    (cme_spacecraft_impacts
       (_store_analysis fromisoformat hash now cme_id activity_id an d))
  = (List.length (cme_spacecraft_impacts d)
     + (if analysis_is_written fromisoformat an
        then impacts_of_runs fromisoformat (entries (enlilList an))
        else 0))%nat.
Proof.
  unfold _store_analysis, analysis_is_written, parses.
  destruct (optional_timestamp fromisoformat
              (Py.get_or (time21_5 an) "")); [|simpl; lia].
  rewrite store_runs_from_impacts. reflexivity.
Qed.

Lemma store_analyses_impacts cme_id activity_id ans :
  forall d,
  List.length
    (cme_spacecraft_impacts
       (fold_left
          (fun acc an =>
             _store_analysis fromisoformat hash now cme_id activity_id
                             an acc) ans d))
  = (List.length (cme_spacecraft_impacts d)
     + list_sum
         (map (fun an =>
                 if analysis_is_written fromisoformat an
                 then impacts_of_runs fromisoformat (entries (enlilList an))
                 else 0%nat) ans))%nat.
Proof.
  induction ans as [|an ans IH]; intros d; simpl; [lia|].
  rewrite IH, store_analysis_impacts. lia.
Qed.

(** Every committed [store_cme] adds [impacts_written p] rows to
    [cme_spacecraft_impacts] and removes none. *)
Lemma store_cme_appends_impacts p d :
  List.length
    (cme_spacecraft_impacts (fst (store_cme fromisoformat hash now p d)))
  = (List.length (cme_spacecraft_impacts d)
     + (if cme_is_written fromisoformat p
        then impacts_written fromisoformat p else 0))%nat.
Proof.
  unfold store_cme, cme_is_written, impacts_written.
  destruct (fromisoformat (startTime p)); [|simpl; lia].
  destruct (instruments p); try (simpl; lia);
    destruct (cmeAnalyses p); try (simpl; lia);
    simpl fst; rewrite store_analyses_impacts; reflexivity.
Qed.

End Reingest.

(** Storing the same payload again adds its model runs and its
    spacecraft impacts again, whatever the tables held before, whatever
    [hash] is in either process, and whenever the two calls run. *)
Lemma reingest_duplicates_model_runs fromisoformat hash1 hash2 now1 now2
  p d :
  runs_bounded d ->
  cme_is_written fromisoformat p = true ->
  let d1 := fst (store_cme fromisoformat hash1 now1 p d) in
  let d2 := fst (store_cme fromisoformat hash2 now2 p d1) in
  List.length (cme_model_runs d2)
  = (List.length (cme_model_runs d1) + runs_written fromisoformat p)%nat
  /\ List.length (cme_spacecraft_impacts d2)
     = (List.length (cme_spacecraft_impacts d1)
        + impacts_written fromisoformat p)%nat.
Proof.
  intros Hb Hw d1 d2.
  destruct (store_cme_appends_runs fromisoformat hash1 now1 p d Hb)
    as [Hb1 _].
  destruct (store_cme_appends_runs fromisoformat hash2 now2 p d1 Hb1)
    as [_ Hlen].
  subst d2. split.
  - rewrite Hlen, Hw. reflexivity.
  - rewrite store_cme_appends_impacts, Hw. reflexivity.
Qed.

(** C1 (re-ingesting a CME), evaluated on [sample_cme].  Stored once
    into the empty database, the entry gives one row in each of the four
    tables.  Stored a second time, unchanged, within the same process,
    it gives again one CME row and one analysis row, under new ids, but
    two model-run rows and two spacecraft-impact rows: the rows written
    by the first call stay, attached to an analysis id that no longer
    exists, so the row counts after two calls differ from those after
    one. *)
Theorem store_cme_twice_row_counts :
  row_counts stored_once = (1, 1, 1, 1)%nat
  /\ row_counts stored_twice = (1, 1, 2, 2)%nat
  /\ map c_id (cmes_enhanced stored_once) = [1]
  /\ map c_id (cmes_enhanced stored_twice) = [2]
  /\ map a_id (cme_analyses stored_twice) = [2]
  /\ map m_analysis_id (cme_model_runs stored_twice) = [1; 2]
  /\ map s_model_run_id (cme_spacecraft_impacts stored_twice) = [1; 2]
  /\ runs_written Py.fromisoformat_catalog sample_cme = 1%nat
  /\ impacts_written Py.fromisoformat_catalog sample_cme = 1%nat.
Proof. vm_compute. repeat split; reflexivity. Qed.

(** When the second call runs in another process, the derived
    [analysis_id] differs as well and the analysis row is doubled too. *)
Example reingest_in_another_process :
  row_counts stored_again_later = (1, 2, 2, 2)%nat
  /\ map a_cme_id (cme_analyses stored_again_later) = [1; 2]
  /\ map c_id (cmes_enhanced stored_again_later) = [2].
Proof. vm_compute. repeat split; reflexivity. Qed.

End CMEFacts.


(* ===================================================================== *)
(** * Further properties *)
(* ===================================================================== *)

(** ** Sorting, splitting and [LIKE] *)

Section PyMore.

Import Py.

Lemma insert_sorted_sorted {A} (le : A -> A -> bool) x (l : list A) :
  (forall a b, le a b = true \/ le b a = true) ->
  (forall a b c, le a b = true -> le b c = true -> le a c = true) ->
  StronglySorted (fun a b => le a b = true) l ->
  StronglySorted (fun a b => le a b = true) (insert_sorted le x l).
Proof.
  intros Htot Htr. induction l as [|y l IH]; intros Hs; simpl.
  - constructor; constructor.
  - inversion Hs as [|? ? Hl Hy]; subst.
    destruct (le x y) eqn:Hxy.
    + constructor; [assumption|]. constructor; [assumption|].
      eapply Forall_impl; [|exact Hy]. intros a Ha. eauto.
    + constructor; [now apply IH|].
      apply Forall_forall. intros a Ha. apply insert_sorted_In in Ha.
      destruct Ha as [->|Ha].
      * destruct (Htot x y) as [H|H]; [congruence|assumption].
      * rewrite Forall_forall in Hy. now apply Hy.
Qed.

(** [ORDER BY] yields a sorted list, for a total and transitive order. *)
Lemma order_by_sorted {A} (le : A -> A -> bool) (l : list A) :
  (forall a b, le a b = true \/ le b a = true) ->
  (forall a b c, le a b = true -> le b c = true -> le a c = true) ->
  StronglySorted (fun a b => le a b = true) (order_by le l).
Proof.
  intros Htot Htr. induction l as [|x l IH]; simpl.
  - constructor.
  - now apply insert_sorted_sorted.
Qed.

Lemma sorted_after {A} (R : A -> A -> Prop) (pre post : list A) x :
  StronglySorted R (pre ++ x :: post) -> Forall (R x) post.
Proof.
  induction pre as [|y pre IH]; simpl; intros H;
    inversion H; subst; auto.
Qed.

Lemma split_nonempty sep s : split sep s <> [].
Proof.
  destruct s as [|c s]; simpl; [discriminate|].
  destruct (Ascii.eqb c sep); [discriminate|].
  destruct (split sep s); discriminate.
Qed.

Lemma split_free sep s : has_char sep s = false -> split sep s = [s].
Proof.
  induction s as [|c s IH]; simpl; [reflexivity|].
  intros H. apply orb_false_elim in H. destruct H as [Hc Hs].
  rewrite Hc, (IH Hs). reflexivity.
Qed.

Lemma split_app sep a b :
  has_char sep a = false ->
  split sep (a ++ String sep b) = a :: split sep b.
Proof.
  induction a as [|c a IH]; simpl.
  - intros _. now rewrite Ascii.eqb_refl.
  - intros H. apply orb_false_elim in H. destruct H as [Hc Ha].
    rewrite Hc, (IH Ha). reflexivity.
Qed.

(** [sep.join(parts).split(sep)] gives [parts] back when no part
    contains the separator. *)
Lemma split_join sep part parts :
  Forall (fun p => has_char sep p = false) (part :: parts) ->
  split sep (join (String sep EmptyString) (part :: parts))
  = part :: parts.
Proof.
  revert part. induction parts as [|q parts IH]; intros part H.
  - inversion H; subst. now apply split_free.
  - inversion H as [|? ? Hp Hrest]; subst.
    change (join (String sep "") (part :: q :: parts))
      with (part ++ String sep "" ++ join (String sep "") (q :: parts)).
    change (String sep "" ++ join (String sep "") (q :: parts))
      with (String sep (join (String sep "") (q :: parts))).
    rewrite (split_app sep part _ Hp), (IH q Hrest). reflexivity.
Qed.

Lemma like_percent s : like "%" s = true.
Proof.
  induction s as [|c s IH]; [reflexivity|].
  change (like "%" (String c s))
    with (like "" (String c s) || like "%" s).
  rewrite IH. apply orb_true_r.
Qed.

Lemma upcase_lower c :
  upcase c <> c -> is_upper (upcase c) = true.
Proof.
  unfold upcase, is_upper.
  destruct ((97 <=? N_of_ascii c) && (N_of_ascii c <=? 122))%N eqn:E;
    [|congruence].
  intros _. apply andb_true_iff in E. destruct E as [Hlo Hhi].
  apply N.leb_le in Hlo, Hhi.
  rewrite N_ascii_embedding by lia.
  apply andb_true_iff. split; apply N.leb_le; lia.
Qed.

(** A plain pattern character matches itself and nothing else. *)
Lemma plain_char_match p c :
  plain_char p = true ->
  Ascii.eqb p "_" || Ascii.eqb (upcase p) (upcase c) = Ascii.eqb p c.
Proof.
  unfold plain_char. intros H.
  apply andb_true_iff in H. destruct H as [H Hup].
  apply andb_true_iff in H. destruct H as [H Hfix].
  apply andb_true_iff in H. destruct H as [_ Hunder].
  apply negb_true_iff in Hunder, Hup. apply Ascii.eqb_eq in Hfix.
  rewrite Hunder, Hfix. simpl.
  destruct (Ascii.eqb_spec p c) as [->|Hne].
  - rewrite Hfix. apply Ascii.eqb_refl.
  - destruct (Ascii.eqb_spec p (upcase c)) as [->|]; [|reflexivity].
    rewrite upcase_lower in Hup; [discriminate|]. congruence.
Qed.

(** For a pattern of digits and dashes, [LIKE 'pattern%'] is the prefix
    test. *)
Lemma like_prefix pattern s :
  plain pattern = true ->
  like (pattern ++ "%") s = String.prefix pattern s.
Proof.
  revert s. induction pattern as [|p pattern IH]; intros s Hp.
  - rewrite like_percent. now destruct s.
  - cbn [plain] in Hp. apply andb_true_iff in Hp. destruct Hp as [Hc Hp].
    change (String p pattern ++ "%") with (String p (pattern ++ "%")).
    cbn [like].
    assert (Hpct : Ascii.eqb p "%" = false).
    { unfold plain_char in Hc.
      destruct (Ascii.eqb p "%"); [discriminate|reflexivity]. }
    rewrite Hpct. destruct s as [|c s]; [reflexivity|].
    rewrite (plain_char_match p c Hc), (IH s Hp). simpl.
    destruct (Ascii.eqb_spec p c) as [->|Hne].
    + destruct (ascii_dec c c); [reflexivity|congruence].
    + destruct (ascii_dec p c); [congruence|reflexivity].
Qed.

(** Filtering keeps a key column free of duplicates, and so does
    appending a row with a new key. *)
Lemma distinct_keys_filter {A K} (key : A -> K) (keep : A -> bool)
  (rows : list A) :
  NoDup (map key rows) -> NoDup (map key (filter keep rows)).
Proof.
  intros Hnd. induction rows as [|r rows IH]; simpl; [constructor|].
  inversion Hnd as [|? ? Hr Hrows]; subst.
  destruct (keep r); simpl; [|now apply IH].
  constructor; [|now apply IH].
  rewrite in_map_iff. intros (r' & Hk & Hin).
  apply filter_In in Hin. apply Hr. rewrite <- Hk.
  apply in_map. tauto.
Qed.

Lemma distinct_keys_append {A K} (key : A -> K) (rows : list A) (r : A) :
  NoDup (map key rows) ->
  (forall r', In r' rows -> key r' <> key r) ->
  NoDup (map key (rows ++ [r])).
Proof.
  induction rows as [|x rows IH]; simpl; intros Hnd Hnew.
  - constructor; [simpl; tauto|constructor].
  - inversion Hnd as [|? ? Hx Hrows]; subst. constructor.
    + rewrite map_app, in_app_iff. simpl. intros [Hin|[Heq|[]]].
      * contradiction.
      * apply (Hnew x); auto.
    + apply IH; auto.
Qed.

End PyMore.


(* ===================================================================== *)
(** * Further properties *)
(* ===================================================================== *)

(** ** Storing flares *)

Section FlareMore.

Import Flare.

Section StoreMore.

Variable strptime : string -> option Z.
Variable source : string.

Lemma first_match_none_inv parsed fl cands :
  first_match strptime source parsed fl cands = None ->
  forall c, In c cands ->
    within_tolerance parsed c
    && match_found (examine strptime source fl c) = false.
Proof.
  induction cands as [|x cands IH]; simpl; intros H c Hc; [destruct Hc|].
  destruct (within_tolerance parsed x
            && match_found (examine strptime source fl x)) eqn:E;
    [discriminate|].
  destruct Hc as [<-|Hc]; [assumption|now apply IH].
Qed.

(** The only candidate that passes decides the loop. *)
Lemma first_match_unique parsed fl cands x :
  In x cands ->
  within_tolerance parsed x
  && match_found (examine strptime source fl x) = true ->
  (forall c, In c cands ->
     within_tolerance parsed c
     && match_found (examine strptime source fl c) = true -> c = x) ->
  first_match strptime source parsed fl cands = Some x.
Proof.
  induction cands as [|y cands IH]; simpl; intros Hin Hx Huniq;
    [destruct Hin|].
  destruct (within_tolerance parsed y
            && match_found (examine strptime source fl y)) eqn:E.
  - f_equal. apply Huniq; auto.
  - destruct Hin as [->|Hin]; [congruence|]. apply IH; auto.
Qed.

Lemma existing_candidates_iff fl tbl c :
  In c (existing_candidates fl tbl) <->
  In c tbl /\ ex_date c = event_date fl
  /\ (class_magnitude (flare_class fl) = None ->
      ex_class c = flare_class fl).
Proof.
  unfold existing_candidates.
  destruct (class_magnitude (flare_class fl)).
  - rewrite order_by_In, filter_In, String.eqb_eq.
    intuition discriminate.
  - rewrite filter_In, andb_true_iff, !String.eqb_eq. intuition.
Qed.

(** One step of the loop of [store_flares], in terms of the table. *)
Lemma store_flare_step scraped_at st fl :
  let st' := store_flare strptime source scraped_at st fl in
  (flares (store st')
   = map (fun r => r) (flares (store st))
     \/ exists ex,
          find_existing strptime source fl (flares (store st)) = Some ex
          /\ flares (store st')
             = update_where_id (build_updates source fl ex) scraped_at
                 (ex_id ex) (flares (store st)))
  /\ seq (store st') = seq (store st)
  /\ new_count st' = new_count st
  \/ flares (store st')
     = (flares (store st)
          ++ [new_row source (seq (store st) + 1) scraped_at fl])%list
     /\ find_existing strptime source fl (flares (store st)) = None
     /\ seq (store st') = seq (store st) + 1
     /\ new_count st' = new_count st + 1.
Proof.
  unfold store_flare.
  destruct (find_existing strptime source fl (flares (store st)))
    as [ex|] eqn:E.
  - left. destruct (should_update (build_updates source fl ex)); simpl.
    + split; [right; eauto|auto].
    + split; [left; now rewrite map_id|auto].
  - right. simpl. auto.
Qed.

Lemma update_where_id_fixed u scraped_at id tbl :
  map fixed_part (update_where_id u scraped_at id tbl)
  = map fixed_part tbl.
Proof.
  unfold update_where_id. rewrite map_map. apply map_ext.
  intros r. destruct (ex_id r =? id); reflexivity.
Qed.

(** The accounting of the loop, for any starting state. *)
Lemma store_flares_loop scraped_at fls : forall st,
  let st' := fold_left (store_flare strptime source scraped_at) fls st in
  let n := new_count st' - new_count st in
  0 <= n <= Z.of_nat (List.length fls)
  /\ Z.of_nat (List.length (flares (store st')))
     = Z.of_nat (List.length (flares (store st))) + n
  /\ seq (store st') = seq (store st) + n
  /\ map fixed_part
       (firstn (List.length (flares (store st))) (flares (store st')))
     = map fixed_part (flares (store st)).
Proof.
  induction fls as [|fl fls IH]; intros st; simpl.
  - rewrite firstn_all. repeat split; lia.
  - specialize (IH (store_flare strptime source scraped_at st fl)).
    simpl in IH. destruct IH as (Hn & Hlen & Hseq & Hfix).
    destruct (store_flare_step scraped_at st fl)
      as [(Htbl & Hs & Hc) | (Htbl & _ & Hs & Hc)].
    + assert (Hl : List.length
                     (flares (store (store_flare strptime source
                                       scraped_at st fl)))
                   = List.length (flares (store st))).
      { destruct Htbl as [-> | (ex & _ & ->)].
        - now rewrite length_map.
        - unfold update_where_id. now rewrite length_map. }
      assert (Hf : map fixed_part
                     (flares (store (store_flare strptime source
                                       scraped_at st fl)))
                   = map fixed_part (flares (store st))).
      { destruct Htbl as [-> | (ex & _ & ->)].
        - now rewrite map_id.
        - apply update_where_id_fixed. }
      rewrite Hl in Hlen, Hfix. rewrite Hs in Hseq. rewrite Hc in *.
      rewrite Hf in Hfix. repeat split; try lia; assumption.
    + rewrite Htbl in Hlen, Hfix. rewrite length_app in Hlen, Hfix.
      simpl in Hlen, Hfix. rewrite Hs in Hseq. rewrite Hc in *.
      repeat split; try lia.
      apply (f_equal (firstn (List.length (flares (store st))))) in Hfix.
      rewrite !firstn_map, firstn_firstn in Hfix.
      rewrite Nat.min_l in Hfix by lia.
      rewrite firstn_app, Nat.sub_diag, firstn_all in Hfix.
      simpl in Hfix. rewrite app_nil_r in Hfix. exact Hfix.
Qed.

(** X1 (accounting of [store_flares]).  Whatever the source tag, the
    returned [new_count] lies between 0 and the number of flares handed
    in, it is exactly the number of rows the table gained and the
    advance of the id counter, and the rows that were there stay in
    their positions with their id, [event_date] and [raw_text]: merges
    never move, delete or re-date a row. *)
Theorem store_flares_accounting scraped_at fls d :
  let d' := fst (store_flares strptime source scraped_at fls d) in
  let added := snd (store_flares strptime source scraped_at fls d) in
  0 <= added <= Z.of_nat (List.length fls)
  /\ Z.of_nat (List.length (flares d'))
     = Z.of_nat (List.length (flares d)) + added
  /\ seq d' = seq d + added
  /\ map fixed_part (firstn (List.length (flares d)) (flares d'))
     = map fixed_part (flares d).
Proof.
  unfold store_flares. cbn [fst snd].
  pose proof (store_flares_loop scraped_at fls
                {| store := d; new_count := 0; updated_count := 0 |}) as H.
  cbn [store new_count] in H. rewrite Z.sub_0_r in H. exact H.
Qed.

Lemma store_flares_loop_well_formed scraped_at fls : forall st,
  well_formed (store st) ->
  well_formed
    (store (fold_left (store_flare strptime source scraped_at) fls st)).
Proof.
  induction fls as [|fl fls IH]; intros st Hwf; simpl; [assumption|].
  apply IH. now apply store_flare_well_formed.
Qed.

(** X2 (primary keys).  [store_flares] keeps the ids of table [flares]
    pairwise distinct and at most the AUTOINCREMENT counter, for any
    batch and any source tag. *)
Theorem store_flares_well_formed scraped_at fls d :
  well_formed d ->
  well_formed (fst (store_flares strptime source scraped_at fls d)).
Proof.
  intros Hwf. unfold store_flares. cbn [fst].
  now apply store_flares_loop_well_formed.
Qed.

Lemma within_own_tolerance id scraped_at fl :
  within_tolerance (class_magnitude (flare_class fl))
                   (new_row source id scraped_at fl) = true.
Proof.
  unfold within_tolerance, class_magnitude. cbn [ex_class new_row].
  destruct (Py.match_class (flare_class fl)) as [[c digits]|];
    [|reflexivity].
  destruct (Py.float digits) as [q|]; [|reflexivity].
  rewrite Ascii.eqb_refl. apply andb_true_iff.
  split; apply Qle_bool_iff; unfold tolerance; lra.
Qed.

Lemma own_timestamp_match id scraped_at fl :
  event_timestamp fl <> None ->
  match_found (examine strptime source fl (new_row source id scraped_at fl))
  = true.
Proof.
  intros Hts. rewrite examine_spec. cbn [match_found].
  unfold criteria. cbn [existsb holds]. unfold timestamp_match.
  cbn [ex_timestamp new_row].
  destruct (event_timestamp fl) as [ts|]; [|congruence].
  rewrite Z.sub_diag. reflexivity.
Qed.

Lemma fill_same v : fill v v false = None.
Proof.
  unfold fill. destruct (Py.truthy_str v); reflexivity.
Qed.

Lemma no_update_of_own_row id scraped_at fl :
  should_update
    (build_updates source fl (new_row source id scraped_at fl)) = false.
Proof.
  assert (Hp : prefer_incoming source (new_row source id scraped_at fl)
               = false).
  { unfold prefer_incoming. cbn [ex_source new_row Py.eqb_opt_string].
    destruct (String.eqb_spec source "LMSAL") as [->|]; reflexivity. }
  unfold build_updates. rewrite Hp.
  cbn [new_row ex_time ex_region ex_location ex_peak ex_end ex_class].
  rewrite !fill_same. reflexivity.
Qed.

(** X3 (storing again).  A flare with a start timestamp that was
    inserted as a new row is found again as that row when it is stored
    a second time, and the second store writes nothing: no row, no
    field, no counter. *)
Theorem store_again_changes_nothing scraped_at scraped_again st fl :
  find_existing strptime source fl (flares (store st)) = None ->
  event_timestamp fl <> None ->
  let st1 := store_flare strptime source scraped_at st fl in
  find_existing strptime source fl (flares (store st1))
  = Some (new_row source (seq (store st) + 1) scraped_at fl)
  /\ store_flare strptime source scraped_again st1 fl = st1.
Proof.
  intros Hnone Hts st1.
  assert (Hst1 : st1 =
                 {| store := {| flares := flares (store st)
                                  ++ [new_row source (seq (store st) + 1)
                                        scraped_at fl];
                                seq := seq (store st) + 1 |};
                    new_count := new_count st + 1;
                    updated_count := updated_count st |}).
  { subst st1. unfold store_flare. now rewrite Hnone. }
  assert (Hfind : find_existing strptime source fl (flares (store st1))
                  = Some (new_row source (seq (store st) + 1) scraped_at fl)).
  { rewrite Hst1. cbn [store flares]. unfold find_existing.
    apply first_match_unique.
    - apply existing_candidates_iff. split; [|split].
      + apply in_or_app. right. now left.
      + reflexivity.
      + reflexivity.
    - rewrite within_own_tolerance, own_timestamp_match by assumption.
      reflexivity.
    - intros c Hc Hpass. apply existing_candidates_iff in Hc.
      destruct Hc as (Hin & Hdate & Hclass).
      apply in_app_or in Hin. destruct Hin as [Hin|[<-|[]]]; [|reflexivity].
      exfalso. unfold find_existing in Hnone.
      pose proof (first_match_none_inv _ _ _ Hnone c) as Hfail.
      rewrite Hfail in Hpass; [discriminate|].
      apply existing_candidates_iff. auto. }
  split; [exact Hfind|].
  unfold store_flare at 1. rewrite Hfind.
  now rewrite no_update_of_own_row.
Qed.

Lemma undated_no_match fl c :
  source <> "LMSAL" ->
  event_timestamp fl = None ->
  match_found (examine strptime source fl c) = false.
Proof.
  intros Hsrc Hts. rewrite examine_spec. cbn [match_found].
  unfold criteria. cbn [existsb holds].
  unfold timestamp_match, noaa_time_match, lmsal_peak_match,
    peak_peak_match, location_match.
  rewrite Hts. cbn [Py.truthy_int].
  destruct (String.eqb_spec source "LMSAL") as [|_]; [contradiction|].
  rewrite !andb_false_r. reflexivity.
Qed.

Lemma undated_loop scraped_at fls : forall st,
  source <> "LMSAL" ->
  (forall fl, In fl fls -> event_timestamp fl = None) ->
  let st' := fold_left (store_flare strptime source scraped_at) fls st in
  new_count st' = new_count st + Z.of_nat (List.length fls)
  /\ updated_count st' = updated_count st
  /\ flares (store st')
     = (flares (store st)
        ++ map (fun ifl => new_row source (fst ifl) scraped_at (snd ifl))
               (Py.enumerate (seq (store st) + 1) fls))%list.
Proof.
  induction fls as [|fl fls IH]; intros st Hsrc Hall; simpl.
  - rewrite app_nil_r. repeat split; lia.
  - rewrite store_flare_inserts
      by (intros c _; right; apply undated_no_match; auto;
          apply Hall; now left).
    match goal with
    | |- context [fold_left _ fls ?s] => specialize (IH s Hsrc)
    end.
    destruct IH as (Hn & Hu & Htbl); [intros; apply Hall; now right|].
    cbn [store new_count updated_count flares seq] in *.
    rewrite Hn, Hu, Htbl, <- app_assoc. simpl.
    repeat split; lia.
Qed.

(** X4 (flares without a start timestamp from a source other than
    LMSAL).  Such a flare matches no stored record, whatever the table
    holds: every flare of the batch becomes a new row, in order, so
    storing the same batch twice stores every flare twice.  (The table
    [_init_database] creates has no UNIQUE constraint that an insertion
    could violate.) *)
Theorem undated_flares_always_inserted scraped_at fls d :
  source <> "LMSAL" ->
  (forall fl, In fl fls -> event_timestamp fl = None) ->
  store_flares strptime source scraped_at fls d
  = ({| flares :=
          (flares d
           ++ map (fun ifl => new_row source (fst ifl) scraped_at (snd ifl))
                  (Py.enumerate (seq d + 1) fls))%list;
        seq := seq d + Z.of_nat (List.length fls) |},
     Z.of_nat (List.length fls)).
Proof.
  intros Hsrc Hall. unfold store_flares.
  pose proof (undated_loop scraped_at fls
                {| store := d; new_count := 0; updated_count := 0 |}
                Hsrc Hall) as (Hn & _ & Htbl).
  pose proof (store_flares_loop scraped_at fls
                {| store := d; new_count := 0; updated_count := 0 |})
    as (_ & _ & Hseq & _).
  destruct (fold_left (store_flare strptime source scraped_at) fls
              {| store := d; new_count := 0; updated_count := 0 |})
    as [[tbl sq] n u].
  cbn [store new_count flares seq] in *. subst tbl.
  replace sq with (seq d + Z.of_nat (List.length fls)) by lia.
  replace n with (Z.of_nat (List.length fls)) by lia.
  reflexivity.
Qed.



Lemma store_flares_counts scraped_at fls d :
  0 <= snd (store_flares strptime source scraped_at fls d)
    <= Z.of_nat (List.length fls)
  /\ Z.of_nat (List.length
                 (flares (fst (store_flares strptime source scraped_at
                                 fls d))))
     = Z.of_nat (List.length (flares d))
       + snd (store_flares strptime source scraped_at fls d)
  /\ seq (fst (store_flares strptime source scraped_at fls d))
     = seq d + snd (store_flares strptime source scraped_at fls d).
Proof.
  unfold store_flares. cbn [fst snd].
  pose proof (store_flares_loop scraped_at fls
                {| store := d; new_count := 0; updated_count := 0 |}) as H.
  cbn [store new_count] in H. rewrite Z.sub_0_r in H. tauto.
Qed.

(** Every class on file after a store was on file before or is the
    class of the stored flare. *)
Lemma store_flare_classes (P : string -> Prop) scraped_at st fl :
  (forall r, In r (flares (store st)) -> P (ex_class r)) ->
  P (flare_class fl) ->
  forall r,
    In r (flares (store (store_flare strptime source scraped_at st fl))) ->
    P (ex_class r).
Proof.
  intros Hold Hnew r Hr.
  destruct (store_flare_step scraped_at st fl)
    as [([Htbl | (ex & _ & Htbl)] & _) | (Htbl & _)];
    rewrite Htbl in Hr.
  - rewrite map_id in Hr. now apply Hold.
  - unfold update_where_id in Hr. apply in_map_iff in Hr.
    destruct Hr as (r0 & <- & Hr0).
    destruct (ex_id r0 =? ex_id ex); [|now apply Hold].
    unfold build_updates. cbn [apply_updates ex_class u_flare_class].
    destruct (prefer_incoming source ex
              && negb (flare_class fl =? ex_class ex)%string);
      [assumption|now apply Hold].
  - apply in_app_or in Hr. destruct Hr as [Hr|[<-|[]]];
      [now apply Hold|assumption].
Qed.

Lemma store_flares_loop_classes (P : string -> Prop) scraped_at fls :
  forall st,
  (forall r, In r (flares (store st)) -> P (ex_class r)) ->
  (forall fl, In fl fls -> P (flare_class fl)) ->
  forall r,
    In r (flares (store (fold_left
                           (store_flare strptime source scraped_at)
                           fls st))) ->
    P (ex_class r).
Proof.
  induction fls as [|fl fls IH]; intros st Hold Hnew; simpl;
    [assumption|].
  apply IH.
  - apply store_flare_classes; [assumption|]. apply Hnew. now left.
  - intros fl' Hfl'. apply Hnew. now right.
Qed.

Lemma store_flares_classes (P : string -> Prop) scraped_at fls d :
  (forall r, In r (flares d) -> P (ex_class r)) ->
  (forall fl, In fl fls -> P (flare_class fl)) ->
  forall r,
    In r (flares (fst (store_flares strptime source scraped_at fls d))) ->
    P (ex_class r).
Proof.
  intros Hold Hnew. unfold store_flares. cbn [fst].
  now apply store_flares_loop_classes.
Qed.

End StoreMore.

(** A batch of two LMSAL reports against the LMSAL table. *)
Lemma store_flares_well_formed_witness :
  well_formed lmsal_table
  /\ well_formed
       (fst (store_flares Py.strptime_padded "LMSAL" 1762064400
               [precise_report; close_located_report] lmsal_table)).
Proof.
  split; [exact lmsal_table_well_formed|].
  apply store_flares_well_formed. exact lmsal_table_well_formed.
Defined.

(** The first NOAA report, stored twice into an empty table. *)
Lemma store_again_witness :
  let st := {| store := empty_db; new_count := 0; updated_count := 0 |} in
  let st1 := store_flare Py.strptime_padded "NOAA" 1762050000 st
               noaa_first in
  store_flare Py.strptime_padded "NOAA" 1762064400 st1 noaa_first = st1.
Proof.
  intros st st1.
  apply (store_again_changes_nothing Py.strptime_padded "NOAA"
           1762050000 1762064400 st noaa_first).
  - reflexivity.
  - simpl. discriminate.
Defined.

(** The same timeless NOAA mention, reported twice in one batch. *)
Lemma undated_flares_witness :
  snd (store_flares Py.strptime_padded "NOAA" 1762050000
         [undated_report; undated_report] empty_db) = 2
  /\ map ex_id
       (flares (fst (store_flares Py.strptime_padded "NOAA" 1762050000
                       [undated_report; undated_report] empty_db)))
     = [1; 2].
Proof.
  rewrite (undated_flares_always_inserted Py.strptime_padded "NOAA"
             1762050000 [undated_report; undated_report] empty_db).
  - split; reflexivity.
  - discriminate.
  - intros fl [<-|[<-|[]]]; reflexivity.
Defined.


Lemma assign_fill_prefer incoming existing :
  assign (fill incoming existing true) existing
  = overwritten incoming existing.
Proof.
  unfold fill, overwritten, assign. rewrite orb_true_r, andb_true_r.
  destruct (Py.truthy_str incoming) eqn:E; [|reflexivity].
  destruct incoming; [reflexivity|discriminate].
Qed.

(** X6 (the precise source overrides the vague one).  When an LMSAL
    flare is matched with a record stored from NOAA, the record is
    always rewritten: it takes the LMSAL class and source tag, and in
    each of [region], [location], [event_time], [peak_time], [end_time]
    the LMSAL value wherever LMSAL has one, the stored value elsewhere.
    The start timestamp is replaced only together with [event_time], and
    only by a non-zero timestamp; the update is counted, no row is
    added. *)
Theorem precise_overrides_vague strptime scraped_at st fl ex :
  find_existing strptime "LMSAL" fl (flares (store st)) = Some ex ->
  ex_source ex = Some "NOAA" ->
  well_formed (store st) ->
  let st' := store_flare strptime "LMSAL" scraped_at st fl in
  new_count st' = new_count st
  /\ updated_count st' = updated_count st + 1
  /\ map ex_id (flares (store st')) = map ex_id (flares (store st))
  /\ (exists r', In r' (flares (store st')) /\ ex_id r' = ex_id ex)
  /\ forall r', In r' (flares (store st')) -> ex_id r' = ex_id ex ->
       ex_class r' = flare_class fl
       /\ ex_source r' = Some "LMSAL"
       /\ ex_scraped_at r' = scraped_at
       /\ ex_region r' = overwritten (region fl) (ex_region ex)
       /\ ex_location r' = overwritten (location fl) (ex_location ex)
       /\ ex_time r' = overwritten (event_time fl) (ex_time ex)
       /\ ex_peak r' = overwritten (peak_time fl) (ex_peak ex)
       /\ ex_end r' = overwritten (end_time fl) (ex_end ex)
       /\ ex_timestamp r'
          = (if Py.truthy_str (event_time fl)
                && Py.truthy_int (event_timestamp fl)
             then event_timestamp fl else ex_timestamp ex).
Proof.
  intros Hfind Hsrc [Hnd _] st'.
  assert (Hp : prefer_incoming "LMSAL" ex = true).
  { unfold prefer_incoming. now rewrite Hsrc. }
  assert (Hup : should_update (build_updates "LMSAL" fl ex) = true).
  { unfold should_update, build_updates. rewrite Hp. cbn [u_source is_set].
    now rewrite !orb_true_r. }
  pose proof (find_existing_some strptime "LMSAL" fl _ _ Hfind) as (Hin & _).
  subst st'. unfold store_flare. rewrite Hfind, Hup.
  cbn [store new_count updated_count flares].
  split; [reflexivity|]. split; [reflexivity|].
  split; [apply update_where_id_ids|]. split.
  - exists (apply_updates (build_updates "LMSAL" fl ex) scraped_at ex).
    split; [|reflexivity].
    unfold update_where_id. apply in_map_iff. exists ex.
    now rewrite Z.eqb_refl.
  - intros r' Hr' Hid. unfold update_where_id in Hr'.
    apply in_map_iff in Hr'. destruct Hr' as (r & <- & Hr).
    destruct (Z.eqb_spec (ex_id r) (ex_id ex)) as [Heq|Hneq];
      [|contradiction].
    assert (r = ex)
      by (apply (unique_id_eq strptime "LMSAL" (flares (store st))); auto).
    subst r. unfold build_updates. rewrite Hp.
    cbn [apply_updates u_flare_class u_region u_location u_event_time
         u_event_timestamp u_peak_time u_end_time u_source
         ex_class ex_source ex_scraped_at ex_region ex_location ex_time
         ex_peak ex_end ex_timestamp andb].
    rewrite !assign_fill_prefer.
    split.
    { destruct (String.eqb_spec (flare_class fl) (ex_class ex)) as [E|E];
        simpl; congruence. }
    repeat split.
    unfold fill. rewrite orb_true_r, andb_true_r.
    destruct (Py.truthy_str (event_time fl)) eqn:Et; simpl; [|reflexivity].
    destruct (event_time fl); [|discriminate].
    destruct (Py.truthy_int (event_timestamp fl)) eqn:E; [|reflexivity].
    destruct (event_timestamp fl); [reflexivity|discriminate].
Qed.

Lemma after_vague_report_well_formed :
  well_formed (store after_vague_report).
Proof.
  split; simpl.
  - constructor; [simpl; tauto|constructor].
  - intros r [<-|[]]. simpl. lia.
Defined.

(** NOAA's M1.0 at 00:26 without region, then LMSAL's M1.1 of region
    4274: class, source and region become LMSAL's, the start time NOAA
    gave stays. *)
Lemma precise_overrides_witness :
  exists r',
    In r' (flares (store (store_flare Py.strptime_padded "LMSAL"
                            1762064400 after_vague_report precise_report)))
    /\ ex_id r' = 1
    /\ ex_class r' = "M1.1"
    /\ ex_source r' = Some "LMSAL"
    /\ ex_region r' = Some "4274"
    /\ ex_time r' = Some "00:26".
Proof.
  destruct (precise_overrides_vague Py.strptime_padded 1762064400
              after_vague_report precise_report
              (new_row "NOAA" 1 1762050000 vague_report)
              eq_refl eq_refl after_vague_report_well_formed)
    as (_ & _ & _ & (r' & Hin & Hid) & H).
  exists r'.
  destruct (H r' Hin Hid) as (Hclass & Hsrc & _ & Hregion & _ & Htime & _).
  repeat split; assumption.
Defined.

(* --------------------------------------------------------------------- *)
(** ** Retention and the listing *)
(* --------------------------------------------------------------------- *)

Lemma filter_filter_weaker {A} (p q : A -> bool) (l : list A) :
  (forall x, q x = true -> p x = true) ->
  filter q (filter p l) = filter q l.
Proof.
  intros H. induction l as [|x l IH]; simpl; [reflexivity|].
  destruct (p x) eqn:Hp; simpl.
  - now rewrite IH.
  - rewrite IH. destruct (q x) eqn:Hq; [|reflexivity].
    apply H in Hq. congruence.
Qed.

Lemma filter_length_mono {A} (p q : A -> bool) (l : list A) :
  (forall x, p x = true -> q x = true) ->
  (List.length (filter p l) <= List.length (filter q l))%nat.
Proof.
  intros H. induction l as [|x l IH]; simpl; [lia|].
  destruct (p x) eqn:Hp.
  - rewrite (H x Hp). simpl. lia.
  - destruct (q x); simpl; lia.
Qed.





Lemma summary_of_listing now now' d d' :
  get_flares_last_24h now d = get_flares_last_24h now' d' ->
  get_flares_summary now d = get_flares_summary now' d'.
Proof. unfold get_flares_summary. now intros ->. Qed.

Lemma cleanup_keeps_recent cleaned_at hours now d :
  24 <= hours -> cleaned_at <= now ->
  rows_last_24h now (fst (cleanup_old_flares cleaned_at hours d))
  = rows_last_24h now d.
Proof.
  intros Hh Hnow. unfold rows_last_24h, cleanup_old_flares.
  cbn [fst flares]. f_equal. apply filter_filter_weaker.
  intros r Hr. unfold recent in Hr. unfold expired.
  destruct (ex_timestamp r) as [ts|]; [|reflexivity].
  apply Z.leb_le in Hr. apply negb_true_iff, Z.ltb_ge. lia.
Qed.

(** X8 (the cleanup never removes a listed flare).  After a cleanup
    with [hours] of 24 or more, the 24-hour listing and its summary,
    taken at the same or a later clock, are what they would have been
    without the cleanup. *)
Theorem cleanup_keeps_listing cleaned_at hours now d :
  24 <= hours -> cleaned_at <= now ->
  let d' := fst (cleanup_old_flares cleaned_at hours d) in
  get_flares_last_24h now d' = get_flares_last_24h now d
  /\ get_flares_summary now d' = get_flares_summary now d.
Proof.
  intros Hh Hnow d'.
  assert (H : get_flares_last_24h now d' = get_flares_last_24h now d).
  { unfold get_flares_last_24h. subst d'.
    now rewrite cleanup_keeps_recent. }
  split; [exact H|]. now apply summary_of_listing.
Qed.

Lemma cleanup_keeps_listing_witness :
  get_flares_summary 1762088460
    (fst (cleanup_old_flares 1762088400 24 mixed_ages))
  = get_flares_summary 1762088460 mixed_ages.
Proof.
  apply (cleanup_keeps_listing 1762088400 24 1762088460 mixed_ages); lia.
Defined.

(* --------------------------------------------------------------------- *)
(** ** The summary *)
(* --------------------------------------------------------------------- *)

Lemma recency_total (a b : row) :
  Py.le_nullable (ex_timestamp b) (ex_timestamp a) = true
  \/ Py.le_nullable (ex_timestamp a) (ex_timestamp b) = true.
Proof.
  unfold Py.le_nullable.
  destruct (ex_timestamp a), (ex_timestamp b); auto.
  rewrite !Z.leb_le. lia.
Qed.

Lemma recency_trans (a b c : row) :
  Py.le_nullable (ex_timestamp b) (ex_timestamp a) = true ->
  Py.le_nullable (ex_timestamp c) (ex_timestamp b) = true ->
  Py.le_nullable (ex_timestamp c) (ex_timestamp a) = true.
Proof.
  unfold Py.le_nullable.
  destruct (ex_timestamp a), (ex_timestamp b), (ex_timestamp c);
    auto; try discriminate.
  rewrite !Z.leb_le. lia.
Qed.

Lemma rows_last_24h_sorted now d :
  StronglySorted
    (fun a b => Py.le_nullable (ex_timestamp b) (ex_timestamp a) = true)
    (rows_last_24h now d).
Proof.
  unfold rows_last_24h.
  apply (order_by_sorted
           (fun a b => Py.le_nullable (ex_timestamp b) (ex_timestamp a))).
  - intros a b. apply recency_total.
  - intros a b c. apply recency_trans.
Qed.

Lemma sorted_before {A} (R : A -> A -> Prop) (pre post : list A) x :
  StronglySorted R (pre ++ x :: post) -> forall y, In y pre -> R y x.
Proof.
  induction pre as [|z pre IH]; simpl; intros H y Hy; [destruct Hy|].
  inversion H as [|? ? Hs Hall]; subst.
  destruct Hy as [<-|Hy]; [|now apply IH].
  rewrite Forall_forall in Hall. apply Hall.
  apply in_or_app. right. now left.
Qed.

(** [max] returns the first element that reaches the greatest key. *)
Lemma max_from_first rest : forall best kb s,
  flare_strength (l_flare_class best) = Some kb ->
  max_from best kb rest = Some s ->
  exists pre post ks,
    best :: rest = (pre ++ s :: post)%list
    /\ flare_strength (l_flare_class s) = Some ks
    /\ forall f, In f pre ->
         exists kf, flare_strength (l_flare_class f) = Some kf
                    /\ (kf < ks)%Q.
Proof.
  induction rest as [|f rest IH]; intros best kb s Hb; simpl.
  - intros [= <-]. exists [], [], kb. repeat split; auto.
    intros f [].
  - destruct (flare_strength (l_flare_class f)) as [k|] eqn:Hf;
      [|discriminate].
    assert (Hkeep : Qcompare kb k <> Lt ->
              max_from best kb rest = Some s ->
              exists pre post ks,
                best :: f :: rest = (pre ++ s :: post)%list
                /\ flare_strength (l_flare_class s) = Some ks
                /\ forall g, In g pre ->
                     exists kg, flare_strength (l_flare_class g) = Some kg
                                /\ (kg < ks)%Q).
    { intros Hcmp Hmax. apply Qcompare_not_Lt in Hcmp.
      destruct (IH best kb s Hb Hmax) as (pre & post & ks & Heq & Hs & Hpre).
      destruct pre as [|b pre].
      - simpl in Heq. injection Heq as <- <-.
        exists [], (f :: rest), ks. repeat split; auto.
      - simpl in Heq. injection Heq as <- ->.
        exists (best :: f :: pre), post, ks. repeat split; auto.
        intros g [<-|[<-|Hg]].
        + apply Hpre. now left.
        + destruct (Hpre best (or_introl eq_refl)) as (kb' & Hkb' & Hlt).
          rewrite Hb in Hkb'. injection Hkb' as <-.
          exists k. split; [assumption|]. lra.
        + apply Hpre. now right. }
    destruct (Qcompare kb k) eqn:Hcmp; intros Hmax.
    + apply Hkeep; [discriminate|assumption].
    + destruct (IH f k s Hf Hmax) as (pre & post & ks & Heq & Hs & Hpre).
      destruct (max_from_spec rest f k s Hf Hmax)
        as (_ & ks' & Hs' & Hle & _).
      rewrite Hs in Hs'. injection Hs' as <-.
      apply Qlt_alt in Hcmp.
      exists (best :: pre), post, ks. rewrite Heq.
      repeat split; auto.
      intros g [<-|Hg]; [|now apply Hpre].
      exists kb. split; [assumption|]. lra.
    + apply Hkeep; [discriminate|assumption].
Qed.

Lemma strongest_first fls s :
  strongest fls = Some s ->
  exists pre post ks,
    fls = (pre ++ s :: post)%list
    /\ flare_strength (l_flare_class s) = Some ks
    /\ forall f, In f pre ->
         exists kf, flare_strength (l_flare_class f) = Some kf
                    /\ (kf < ks)%Q.
Proof.
  destruct fls as [|f rest]; simpl; [discriminate|].
  destruct (flare_strength (l_flare_class f)) as [k|] eqn:Hf;
    [|discriminate].
  now apply max_from_first.
Qed.

(** X9 (ties go to the most recent flare).  The summary's
    [strongest_flare] is the first entry of the listing that reaches the
    greatest strength, and the listing runs from the most recent start
    timestamp to the oldest, rows without timestamp last.  So every
    flare listed before the strongest one is strictly weaker and no
    older; every flare after it is no stronger and no more recent:
    among equally strong flares the most recent is reported. *)
Theorem strongest_is_most_recent now d s best :
  get_flares_summary now d = Some s ->
  strongest_flare s = Some best ->
  exists before r after kbest,
    rows_last_24h now d = (before ++ r :: after)%list
    /\ flares_list s = map listing (before ++ r :: after)
    /\ best = listing r
    /\ flare_strength (ex_class r) = Some kbest
    /\ (forall r', In r' before ->
          Py.le_nullable (ex_timestamp r) (ex_timestamp r') = true
          /\ exists k, flare_strength (ex_class r') = Some k
                       /\ (k < kbest)%Q)
    /\ (forall r', In r' after ->
          Py.le_nullable (ex_timestamp r') (ex_timestamp r) = true
          /\ exists k, flare_strength (ex_class r') = Some k
                       /\ (k <= kbest)%Q).
Proof.
  intros Hsum Hbest.
  pose proof (summary_fields now d s Hsum) as (Hlist & _).
  unfold get_flares_summary in Hsum.
  rewrite <- Hlist in Hsum.
  destruct (flares_list s) as [|f fls] eqn:Hfl.
  { injection Hsum as <-. discriminate. }
  destruct (strongest (f :: fls)) as [b|] eqn:Hstr; [|discriminate].
  injection Hsum as <-. cbn [strongest_flare] in Hbest.
  injection Hbest as ->. cbn [flares_list] in Hfl.
  destruct (strongest_first _ _ Hstr) as (pre & post & ks & Heq & Hks & Hpre).
  destruct (strongest_spec _ _ Hstr) as (_ & ks' & Hks' & Hall).
  rewrite Hks in Hks'. injection Hks' as <-.
  rewrite Heq in Hlist. unfold get_flares_last_24h in Hlist.
  symmetry in Hlist. apply map_eq_app in Hlist.
  destruct Hlist as (before & rest & Hrows & Hbefore & Hrest).
  apply map_eq_cons in Hrest.
  destruct Hrest as (r & after & -> & Hr & Hafter).
  pose proof (rows_last_24h_sorted now d) as Hsorted.
  rewrite Hrows in Hsorted.
  exists before, r, after, ks. split; [assumption|]. split.
  { cbn [flares_list]. rewrite Heq, map_app. cbn [map].
    now rewrite Hbefore, Hr, Hafter. }
  split; [now rewrite Hr|]. split; [now rewrite <- Hr in Hks|].
  split.
  - intros r' Hr'. split.
    + apply (sorted_before _ _ _ _ Hsorted r' Hr').
    + apply (Hpre (listing r')). rewrite <- Hbefore. now apply in_map.
  - intros r' Hr'. split.
    + pose proof (sorted_after _ _ _ _ Hsorted) as Hall'.
      rewrite Forall_forall in Hall'. now apply Hall'.
    + apply (Hall (listing r')). rewrite Heq. apply in_or_app. right.
      right. rewrite <- Hafter. now apply in_map.
Qed.

(** B1.0 at 13:00 and B9.0 at 12:00 tie at strength 0: the later one is
    reported. *)
Lemma strongest_is_most_recent_witness :
  exists before r after kbest,
    rows_last_24h 1762090000 two_b_flares = (before ++ r :: after)%list
    /\ listed_of_class "B1.0" = listing r
    /\ flare_strength (ex_class r) = Some kbest
    /\ (forall r', In r' after ->
          Py.le_nullable (ex_timestamp r') (ex_timestamp r) = true
          /\ exists k, flare_strength (ex_class r') = Some k
                       /\ (k <= kbest)%Q).
Proof.
  destruct (strongest_is_most_recent 1762090000 two_b_flares
              {| total_count := 2; x_class_count := 0; m_class_count := 0;
                 c_class_count := 0;
                 strongest_flare := Some (listed_of_class "B1.0");
                 flares_list := [listed_of_class "B1.0";
                                 listed_of_class "B9.0"] |}
              (listed_of_class "B1.0") eq_refl eq_refl)
    as (before & r & after & kbest & Hrows & _ & Hbest & Hk & _ & Hafter).
  exists before, r, after, kbest.
  split; [|split; [|split]]; assumption.
Defined.

Lemma starts_exclusive (s : string) :
  (if Py.startswith "X" s then 1 else 0)
  + (if Py.startswith "M" s then 1 else 0)
  + (if Py.startswith "C" s then 1 else 0)
  = if Py.startswith "X" s || Py.startswith "M" s || Py.startswith "C" s
    then 1 else 0.
Proof.
  destruct s as [|c s]; [reflexivity|]. unfold Py.startswith.
  destruct (Ascii.eqb_spec c "X") as [->|]; [reflexivity|].
  destruct (Ascii.eqb_spec c "M") as [->|]; [reflexivity|].
  destruct (Ascii.eqb c "C"); reflexivity.
Qed.

Lemma counts_partition (fls : list listed) :
  count_class "X" fls + count_class "M" fls + count_class "C" fls
  = Z.of_nat
      (List.length
         (filter (fun f => Py.startswith "X" (l_flare_class f)
                           || Py.startswith "M" (l_flare_class f)
                           || Py.startswith "C" (l_flare_class f)) fls)).
Proof.
  unfold count_class. induction fls as [|f fls IH]; [reflexivity|].
  cbn [filter].
  pose proof (starts_exclusive (l_flare_class f)) as H.
  destruct (Py.startswith "X" (l_flare_class f)),
           (Py.startswith "M" (l_flare_class f)),
           (Py.startswith "C" (l_flare_class f));
    cbn [orb List.length] in *; lia.
Qed.

Lemma filter_all_length {A} (p : A -> bool) (l : list A) :
  List.length (filter p l) = List.length l <->
  forall x, In x l -> p x = true.
Proof.
  induction l as [|x l IH]; simpl; [tauto|].
  pose proof (filter_length_le p l) as Hle.
  destruct (p x) eqn:Hx; simpl.
  - split.
    + intros H y [<-|Hy]; [assumption|]. apply IH; [lia|assumption].
    + intros H. f_equal. apply IH. auto.
  - split; [lia|]. intros H. rewrite H in Hx by now left. discriminate.
Qed.

(** X10 (the counters of the summary).  [total_count] is the number of
    stored rows that are within the last 24 hours or have no timestamp;
    the X, M and C counters count disjoint sets of listed flares, so
    their sum never exceeds [total_count], and it equals [total_count]
    exactly when every listed class starts with X, M or C: flares of
    the letters A and B are in the total but in no counter. *)
Theorem summary_counters now d s :
  get_flares_summary now d = Some s ->
  total_count s
  = Z.of_nat (List.length (filter (recent (now - 3600 * 24)) (flares d)))
  /\ 0 <= x_class_count s /\ 0 <= m_class_count s /\ 0 <= c_class_count s
  /\ x_class_count s + m_class_count s + c_class_count s <= total_count s
  /\ (x_class_count s + m_class_count s + c_class_count s = total_count s
      <-> forall f, In f (flares_list s) ->
            Py.startswith "X" (l_flare_class f) = true
            \/ Py.startswith "M" (l_flare_class f) = true
            \/ Py.startswith "C" (l_flare_class f) = true).
Proof.
  intros Hsum.
  destruct (summary_fields now d s Hsum) as (Hlist & Ht & Hx & Hm & Hc).
  rewrite Hx, Hm, Hc, Ht. split.
  { rewrite Hlist. unfold get_flares_last_24h, rows_last_24h.
    now rewrite length_map, order_by_length. }
  split; [unfold count_class; lia|].
  split; [unfold count_class; lia|].
  split; [unfold count_class; lia|].
  rewrite counts_partition. split.
  - apply inj_le, filter_length_le.
  - rewrite Nat2Z.inj_iff, filter_all_length. split; intros H f Hf.
    + specialize (H f Hf). apply orb_true_iff in H.
      destruct H as [H|H]; [|tauto].
      apply orb_true_iff in H. tauto.
    + destruct (H f Hf) as [-> | [-> | ->]];
        rewrite ?orb_true_r; reflexivity.
Qed.

(** The summary of [two_b_flares]: two flares, no counter moves. *)
Lemma summary_counters_witness :
  exists s,
    get_flares_summary 1762090000 two_b_flares = Some s
    /\ total_count s = 2
    /\ x_class_count s + m_class_count s + c_class_count s
       <= total_count s.
Proof.
  destruct (get_flares_summary 1762090000 two_b_flares) as [s|] eqn:E;
    [|discriminate E].
  exists s. split; [reflexivity|].
  destruct (summary_counters 1762090000 two_b_flares s E)
    as (Ht & _ & _ & _ & Hle & _).
  split; [rewrite Ht; reflexivity|exact Hle].
Defined.

Lemma max_from_fails rest : forall best kb,
  (exists f, In f rest /\ flare_strength (l_flare_class f) = None) ->
  max_from best kb rest = None.
Proof.
  induction rest as [|f rest IH]; intros best kb (g & Hg & Hnone);
    [destruct Hg|].
  simpl. destruct Hg as [<-|Hg].
  - now rewrite Hnone.
  - destruct (flare_strength (l_flare_class f)); [|reflexivity].
    destruct (Qcompare kb q); apply IH; eauto.
Qed.

Lemma max_from_none rest : forall best kb,
  max_from best kb rest = None ->
  exists f, In f rest /\ flare_strength (l_flare_class f) = None.
Proof.
  induction rest as [|f rest IH]; intros best kb; simpl; [discriminate|].
  destruct (flare_strength (l_flare_class f)) as [k|] eqn:Hf.
  - destruct (Qcompare kb k); intros H; apply IH in H;
      destruct H as (g & Hg & Hn); eauto.
  - intros _. eauto.
Qed.

Lemma strongest_fails fls :
  strongest fls = None <->
  fls = [] \/ exists f, In f fls /\ flare_strength (l_flare_class f) = None.
Proof.
  split.
  - intros H. destruct fls as [|f rest]; [now left|]. right.
    simpl in H.
    destruct (flare_strength (l_flare_class f)) as [k|] eqn:Hf.
    + apply max_from_none in H. destruct H as (g & Hg & Hn).
      exists g. split; [now right|assumption].
    + exists f. split; [now left|assumption].
  - intros [->|(g & Hg & Hnone)]; [reflexivity|].
    destruct fls as [|f rest]; [destruct Hg|]. simpl.
    destruct Hg as [<-|Hg]; [now rewrite Hnone|].
    destruct (flare_strength (l_flare_class f)); [|reflexivity].
    apply max_from_fails. eauto.
Qed.

(** X11 (a class text that cannot be read).  [get_flares_summary]
    raises exactly when some listed flare has a class that starts with
    X, M or C and whose remaining digits and dots do not form a number
    [float] accepts (two dots, or a dot alone): one such row within the
    window makes every summary fail, and rows of other letters never
    do. *)
Theorem summary_fails_on_unreadable_class now d :
  get_flares_summary now d = None <->
  exists f, In f (get_flares_last_24h now d)
            /\ (Py.startswith "X" (l_flare_class f) = true
                \/ Py.startswith "M" (l_flare_class f) = true
                \/ Py.startswith "C" (l_flare_class f) = true)
            /\ strength_digits (l_flare_class f) = None.
Proof.
  assert (Hstrength : forall c,
            flare_strength c = None <->
            (Py.startswith "X" c = true \/ Py.startswith "M" c = true
             \/ Py.startswith "C" c = true)
            /\ strength_digits c = None).
  { intros c. unfold flare_strength.
    destruct (Py.startswith "X" c), (Py.startswith "M" c),
      (Py.startswith "C" c), (strength_digits c); simpl;
      intuition discriminate. }
  unfold get_flares_summary.
  destruct (get_flares_last_24h now d) as [|f fls] eqn:E.
  - split; [discriminate|]. intros (g & [] & _).
  - destruct (strongest (f :: fls)) as [s|] eqn:Hs.
    + split; [discriminate|]. intros (g & Hg & Hc).
      apply Hstrength in Hc.
      assert (strongest (f :: fls) = None)
        by (apply strongest_fails; right; eauto).
      congruence.
    + split; [|reflexivity]. intros _.
      apply strongest_fails in Hs. destruct Hs as [|(g & Hg & Hn)];
        [discriminate|].
      exists g. split; [assumption|]. now apply Hstrength.
Qed.

(** A stored class ["M1.2.3"] takes the summary down. *)
Example unreadable_class_summary :
  strength_digits "M1.2.3" = None
  /\ get_flares_summary 1762090000 malformed_class_table = None.
Proof. split; reflexivity. Qed.

(* --------------------------------------------------------------------- *)
(** ** The detailed flares of a report *)
(* --------------------------------------------------------------------- *)

Lemma in_period_recent summary_at start_ts end_ts r :
  summary_at - 3600 * 24 <= start_ts ->
  in_period start_ts end_ts r = true ->
  recent (summary_at - 3600 * 24) r = true.
Proof.
  unfold in_period, recent. intros Hle.
  destruct (ex_timestamp r) as [ts|]; [|discriminate].
  intros H. apply andb_true_iff in H. destruct H as [Hlo _].
  apply Z.leb_le in Hlo. apply Z.leb_le. lia.
Qed.

(** X12 (detailed flares against the summary).  When the report period
    starts no earlier than the summary's 24-hour cutoff, every flare of
    [get_flares_for_report_period] is a row the summary lists, so the
    detailed list is never longer than [total_count]'s listing; and it
    never holds a row without start timestamp, although the summary
    lists and counts every such row. *)
Theorem detailed_flares_within_summary summary_at start_ts end_ts d :
  summary_at - 3600 * 24 <= start_ts ->
  let detailed := get_flares_for_report_period start_ts end_ts d in
  (forall e, In e detailed ->
     exists r ts, In r (rows_last_24h summary_at d)
                  /\ e = report_entry r
                  /\ ex_timestamp r = Some ts
                  /\ start_ts <= ts <= end_ts)
  /\ (List.length detailed
      <= List.length (get_flares_last_24h summary_at d))%nat
  /\ (forall r, In r (flares d) -> ex_timestamp r = None ->
        In (listing r) (get_flares_last_24h summary_at d)
        /\ ~ In (report_entry r) detailed).
Proof.
  intros Hle detailed. subst detailed.
  unfold get_flares_for_report_period, get_flares_last_24h.
  assert (Hmem : forall e,
            In e (map report_entry
                    (Py.order_by
                       (fun a b => Py.le_nullable (ex_timestamp b)
                                                  (ex_timestamp a))
                       (filter (in_period start_ts end_ts) (flares d)))) ->
            exists r ts, In r (rows_last_24h summary_at d)
                         /\ e = report_entry r
                         /\ ex_timestamp r = Some ts
                         /\ start_ts <= ts <= end_ts).
  { intros e He. apply in_map_iff in He. destruct He as (r & <- & Hr).
    apply order_by_In, filter_In in Hr. destruct Hr as [Hr Hp].
    pose proof (in_period_recent summary_at _ _ _ Hle Hp) as Hrec.
    unfold in_period in Hp.
    destruct (ex_timestamp r) as [ts|] eqn:Hts; [|discriminate].
    apply andb_true_iff in Hp. destruct Hp as [Hlo Hhi].
    apply Z.leb_le in Hlo, Hhi.
    exists r, ts. split; [|auto].
    apply rows_last_24h_In. auto. }
  split; [exact Hmem|]. split.
  - unfold rows_last_24h. rewrite !length_map, !order_by_length.
    apply filter_length_mono. intros r.
    now apply in_period_recent.
  - intros r Hr Hnull. split.
    + apply in_map, rows_last_24h_In. split; [assumption|].
      apply recent_iff. now left.
    + intros He. destruct (Hmem _ He) as (r' & ts & _ & Heq & Hts & _).
      apply (f_equal p_event_timestamp) in Heq.
      cbn [p_event_timestamp report_entry] in Heq. congruence.
Qed.

(** [undated_table] at 13:26:40 on 2 November: two flares in the
    summary, one in the detailed list. *)
Lemma detailed_flares_witness :
  (List.length (get_flares_for_report_period
                  (1762090000 - 3600 * 24) 1762090000 undated_table)
   <= List.length (get_flares_last_24h 1762090000 undated_table))%nat
  /\ List.length (get_flares_for_report_period
                    (1762090000 - 3600 * 24) 1762090000 undated_table)
     = 1%nat
  /\ List.length (get_flares_last_24h 1762090000 undated_table) = 2%nat.
Proof.
  split; [|split; reflexivity].
  exact (proj1 (proj2 (detailed_flares_within_summary 1762090000
                         (1762090000 - 3600 * 24) 1762090000
                         undated_table (Z.le_refl _)))).
Defined.

(* --------------------------------------------------------------------- *)
(** ** Archive links *)
(* --------------------------------------------------------------------- *)

Lemma joined_time_truthy h rest :
  Py.truthy_str (Some (h ++ String ":" rest)) = true.
Proof. destruct h; reflexivity. Qed.

Lemma link_of_pieces y m d h mi more time peak :
  Forall (fun p => Py.has_char "-" p = false) [y; m; d] ->
  Forall (fun p => Py.has_char ":" p = false) (h :: mi :: more) ->
  time = Some (Py.join ":" (h :: mi :: more))
  \/ Py.truthy_str time = false
     /\ peak = Some (Py.join ":" (h :: mi :: more)) ->
  generate_lmsal_link (Py.join "-" [y; m; d]) time peak
  = lmsal_archive ++ y ++ "/" ++ m ++ "/" ++ d ++ "/"
    ++ "gev_" ++ y ++ m ++ d ++ "_" ++ h ++ mi ++ "/index.html".
Proof.
  intros Hdate Htime Hchosen. unfold generate_lmsal_link.
  rewrite (split_join "-" y [m; d] Hdate).
  assert (Ht : Py.truthy_str (Some (Py.join ":" (h :: mi :: more))) = true).
  { change (Py.join ":" (h :: mi :: more))
      with (h ++ String ":" (Py.join ":" (mi :: more))).
    apply joined_time_truthy. }
  destruct Hchosen as [-> | [Hfalse ->]].
  - rewrite Ht, (split_join ":" h (mi :: more) Htime). reflexivity.
  - rewrite Hfalse, Ht, (split_join ":" h (mi :: more) Htime).
    reflexivity.
Qed.

(** X13 (the archive link).  For a date of three dash-free pieces and a
    time of at least two colon-free pieces, the link is the LMSAL
    archive address built from year, month, day, hour and minute; the
    time is [event_time] when that is non-empty and [peak_time]
    otherwise.  The link is empty when [event_time] is non-empty but
    has no colon, even if [peak_time] is well formed; when both times
    are empty; and when the date does not split into exactly three
    pieces. *)
Theorem lmsal_link_cases :
  (forall y m d h mi more time peak,
     Forall (fun p => Py.has_char "-" p = false) [y; m; d] ->
     Forall (fun p => Py.has_char ":" p = false) (h :: mi :: more) ->
     time = Some (Py.join ":" (h :: mi :: more))
     \/ Py.truthy_str time = false
        /\ peak = Some (Py.join ":" (h :: mi :: more)) ->
     generate_lmsal_link (Py.join "-" [y; m; d]) time peak
     = lmsal_archive ++ y ++ "/" ++ m ++ "/" ++ d ++ "/"
       ++ "gev_" ++ y ++ m ++ d ++ "_" ++ h ++ mi ++ "/index.html")
  /\ (forall date t peak,
        t <> "" -> Py.has_char ":" t = false ->
        generate_lmsal_link date (Some t) peak = "")
  /\ (forall date time peak,
        Py.truthy_str time = false -> Py.truthy_str peak = false ->
        generate_lmsal_link date time peak = "")
  /\ (forall date time peak,
        List.length (Py.split "-" date) <> 3%nat ->
        generate_lmsal_link date time peak = "").
Proof.
  split; [exact link_of_pieces|]. split; [|split].
  - intros date t peak Hne Hfree. unfold generate_lmsal_link.
    destruct (Py.split "-" date) as [|y [|m [|d [|? ?]]]];
      try reflexivity.
    assert (Ht : Py.truthy_str (Some t) = true).
    { simpl. destruct (String.eqb_spec t ""); [contradiction|reflexivity]. }
    rewrite Ht, (split_free ":" t Hfree). reflexivity.
  - intros date time peak Ht Hp. unfold generate_lmsal_link.
    destruct (Py.split "-" date) as [|y [|m [|d [|? ?]]]];
      try reflexivity.
    now rewrite Ht, Hp.
  - intros date time peak Hlen. unfold generate_lmsal_link.
    destruct (Py.split "-" date) as [|y [|m [|d [|? ?]]]];
      try reflexivity.
    now elim Hlen.
Qed.

(** The link of a flare that started at 00:26 on 2 November 2025, from
    the start time and from the peak time. *)
Example lmsal_link_examples :
  generate_lmsal_link "2025-11-02" (Some "00:26") None
  = "http://www.lmsal.com/solarsoft/latest_events_archive/events_summary/2025/11/02/gev_20251102_0026/index.html"
  /\ generate_lmsal_link "2025-11-02" None (Some "00:31:30")
     = "http://www.lmsal.com/solarsoft/latest_events_archive/events_summary/2025/11/02/gev_20251102_0031/index.html"
  /\ generate_lmsal_link "2025-11-02" (Some "0026") (Some "00:31:30") = ""
  /\ generate_lmsal_link "2025/11/02" (Some "00:26") None = "".
Proof. repeat split; reflexivity. Qed.

(* --------------------------------------------------------------------- *)
(** ** Monthly exports *)
(* --------------------------------------------------------------------- *)

Lemma enumerate_length {A} (l : list A) : forall start,
  List.length (Py.enumerate start l) = List.length l.
Proof.
  induction l as [|x l IH]; intros start; simpl; [reflexivity|].
  now rewrite IH.
Qed.

Lemma enumerate_nth {A} (l : list A) : forall start k i x,
  nth_error (Py.enumerate start l) k = Some (i, x) ->
  i = start + Z.of_nat k /\ nth_error l k = Some x.
Proof.
  induction l as [|y l IH]; intros start k i x; simpl.
  - destruct k; discriminate.
  - destruct k as [|k]; simpl.
    + intros [= <- <-]. split; [lia|reflexivity].
    + intros H. apply IH in H. destruct H as [-> H]. split; [lia|exact H].
Qed.

Lemma enumerate_In {A} (l : list A) : forall start x,
  In x l -> exists i, In (i, x) (Py.enumerate start l).
Proof.
  induction l as [|y l IH]; intros start x; simpl; [tauto|].
  intros [->|Hx].
  - exists start. now left.
  - destruct (IH (start + 1) x Hx) as [i Hi]. exists i. now right.
Qed.

Lemma monthly_rows_prefix year_month d :
  Py.plain year_month = true ->
  monthly_rows year_month d
  = Py.order_by export_order
      (filter (fun r => String.prefix year_month (ex_date r)) (flares d)).
Proof.
  intros Hp. unfold monthly_rows. f_equal. apply filter_ext.
  intros r. now apply like_prefix.
Qed.

(** X14 (the CSV export).  For a [year_month] of digits and dashes the
    export covers exactly the stored flares whose [event_date] begins
    with it: no file is written when there is none; otherwise the header
    is followed by one line per such flare, the line at position [k]
    numbered [k], and every such flare is on a line. *)
Theorem csv_export_lines year_month d :
  Py.plain year_month = true ->
  let selected :=
    filter (fun r => String.prefix year_month (ex_date r)) (flares d) in
  match export_monthly_flares_csv year_month d with
  | None => selected = []
  | Some table =>
      exists lines,
        table = csv_header :: lines
        /\ lines <> []
        /\ List.length lines = List.length selected
        /\ (forall k line, nth_error lines k = Some line ->
              exists r, In r selected
                        /\ line = csv_row (Z.of_nat k + 1) r)
        /\ (forall r, In r selected ->
              exists idx, In (csv_row idx r) lines)
  end.
Proof.
  intros Hp selected. unfold export_monthly_flares_csv.
  rewrite (monthly_rows_prefix _ _ Hp). fold selected.
  pose proof (order_by_length export_order selected) as Hlen.
  pose proof (fun r => order_by_In export_order r selected) as Hin.
  destruct (Py.order_by export_order selected) as [|r0 rows].
  - destruct selected; [reflexivity|discriminate].
  - eexists. split; [reflexivity|]. split; [discriminate|].
    split; [now rewrite length_map, enumerate_length|]. split.
    + intros k line Hk. rewrite nth_error_map in Hk.
      destruct (nth_error (Py.enumerate 1 (r0 :: rows)) k)
        as [[i r]|] eqn:E; [|discriminate].
      injection Hk as <-. apply enumerate_nth in E.
      destruct E as [-> Hr]. apply nth_error_In in Hr.
      exists r. split; [now apply Hin|].
      cbn [fst snd]. f_equal. lia.
    + intros r Hr. apply Hin in Hr.
      destruct (enumerate_In (r0 :: rows) 1 r Hr) as [i Hi].
      exists i. apply in_map_iff. now exists (i, r).
Qed.

(** The November rows of [undated_table]. *)
Lemma csv_export_witness :
  match export_monthly_flares_csv "2025-11" undated_table with
  | None => False
  | Some table => List.length table = 2%nat
  end.
Proof.
  pose proof (csv_export_lines "2025-11" undated_table eq_refl) as H.
  destruct (export_monthly_flares_csv "2025-11" undated_table)
    as [table|].
  - destruct H as (lines & -> & _ & Hlen & _). simpl. now rewrite Hlen.
  - discriminate H.
Defined.

Lemma month_name_defined n :
  -13 <= n <= 12 -> month_name n <> None.
Proof.
  intros Hn. unfold month_name.
  destruct (Z.leb_spec 0 n); simpl.
  - destruct (Z.leb_spec n 12); [|lia].
    intros Hnone. apply nth_error_None in Hnone. simpl in Hnone. lia.
  - destruct (Z.leb_spec (-13) n); [|lia]. simpl.
    destruct (Z.ltb_spec n 0); [|lia].
    intros Hnone. apply nth_error_None in Hnone. simpl in Hnone. lia.
Qed.

Lemma markdown_does_not_raise (int : string -> option Z) d year month n :
  Py.has_char "-" year = false -> Py.has_char "-" month = false ->
  int month = Some n -> -13 <= n <= 12 ->
  export_monthly_flares_markdown int (Py.join "-" [year; month]) d
  <> Py.Raises.
Proof.
  intros Hy Hm Hint Hn. unfold export_monthly_flares_markdown.
  destruct (monthly_rows (Py.join "-" [year; month]) d); [discriminate|].
  rewrite (split_join "-" year [month]) by (repeat constructor; auto).
  rewrite Hint.
  destruct (month_name n) eqn:E; [discriminate|].
  now apply month_name_defined in E.
Qed.

(** X15 (the Markdown export against the CSV export).  Both exports
    select the same rows, so the Markdown export returns without a file
    exactly when the CSV export does.  With rows to write, the Markdown
    export raises whenever [year_month] does not split at its dashes
    into exactly two pieces, or the second piece is no integer, or the
    integer is no index of the month names, while the CSV export
    succeeds on the same input; it does not raise on a dash-free year
    and a month that [int] reads as a number from -13 to 12. *)
Theorem markdown_export_outcome (int : string -> option Z) year_month d :
  (export_monthly_flares_markdown int year_month d = Py.Returns None
   <-> export_monthly_flares_csv year_month d = None)
  /\ (forall year month n,
        year_month = Py.join "-" [year; month] ->
        Py.has_char "-" year = false -> Py.has_char "-" month = false ->
        int month = Some n -> -13 <= n <= 12 ->
        export_monthly_flares_markdown int year_month d <> Py.Raises)
  /\ (export_monthly_flares_csv year_month d <> None ->
      List.length (Py.split "-" year_month) <> 2%nat ->
      export_monthly_flares_markdown int year_month d = Py.Raises)
  /\ (export_monthly_flares_csv year_month d <> None ->
      forall year month,
        Py.split "-" year_month = [year; month] ->
        int month = None
        \/ (exists n, int month = Some n /\ (n < -13 \/ 12 < n)) ->
        export_monthly_flares_markdown int year_month d = Py.Raises).
Proof.
  assert (Hgood : forall year month n,
            year_month = Py.join "-" [year; month] ->
            Py.has_char "-" year = false -> Py.has_char "-" month = false ->
            int month = Some n -> -13 <= n <= 12 ->
            export_monthly_flares_markdown int year_month d <> Py.Raises).
  { intros year month n ->. apply markdown_does_not_raise. }
  revert Hgood.
  unfold export_monthly_flares_markdown, export_monthly_flares_csv.
  destruct (monthly_rows year_month d) as [|r0 rows]; intros Hgood.
  { split; [tauto|]. split; [discriminate|].
    split; intros H; now elim H. }
  split; [|split; [|split]].
  - split; [|discriminate].
    destruct (Py.split "-" year_month) as [|y [|m [|? ?]]];
      try discriminate.
    destruct (int m) as [n|]; [|discriminate].
    destruct (month_name n); discriminate.
  - exact Hgood.
  - intros _ Hlen.
    destruct (Py.split "-" year_month) as [|y [|m [|? ?]]];
      try reflexivity.
    now elim Hlen.
  - intros _ year month -> [Hnone|(n & Hn & Hrange)].
    + now rewrite Hnone.
    + rewrite Hn. unfold month_name.
      destruct (Z.leb_spec 0 n); simpl.
      * destruct (Z.leb_spec n 12); [lia|]. simpl.
        destruct (Z.leb_spec (-13) n); simpl; [|reflexivity].
        destruct (Z.ltb_spec n 0); [lia|reflexivity].
      * destruct (Z.leb_spec (-13) n); [lia|]. reflexivity.
Qed.

(** All flares of 2025: the CSV export writes them, the Markdown export
    raises on the missing month. *)
Example export_of_a_year :
  export_monthly_flares_csv "2025" undated_table <> None
  /\ export_monthly_flares_markdown Py.int_plain "2025" undated_table
     = Py.Raises
  /\ export_monthly_flares_markdown Py.int_plain "2025-13" two_b_flares
     = Py.Returns None.
Proof. repeat split; try reflexivity. discriminate. Qed.

(* --------------------------------------------------------------------- *)
(** ** The scraping cycle *)
(* --------------------------------------------------------------------- *)

Lemma filter_keeps_ids_distinct (keep : row -> bool) (tbl : list row) :
  NoDup (map ex_id tbl) -> NoDup (map ex_id (filter keep tbl)).
Proof.
  intros Hnd. induction tbl as [|r tbl IH]; simpl; [constructor|].
  inversion Hnd as [|? ? Hr Htbl]; subst.
  destruct (keep r); simpl; [|now apply IH].
  constructor; [|now apply IH].
  rewrite in_map_iff. intros (r' & Hid & Hin).
  apply filter_In in Hin. apply Hr. rewrite <- Hid.
  apply in_map. tauto.
Qed.

Lemma cleanup_well_formed now hours d :
  well_formed d -> well_formed (fst (cleanup_old_flares now hours d)).
Proof.
  intros [Hnd Hle]. unfold cleanup_old_flares, well_formed.
  cbn [fst flares seq]. split.
  - now apply filter_keeps_ids_distinct.
  - intros r Hr. apply filter_In in Hr. now apply Hle.
Qed.

Lemma cleanup_retains now hours d r :
  In r (flares (fst (cleanup_old_flares now hours d))) ->
  In r (flares d)
  /\ (ex_timestamp r = None
      \/ exists ts, ex_timestamp r = Some ts /\ now - 3600 * hours <= ts).
Proof.
  unfold cleanup_old_flares. cbn [fst flares]. intros Hr.
  apply filter_In in Hr. destruct Hr as [Hr Hexp]. split; [assumption|].
  apply negb_true_iff in Hexp. unfold expired in Hexp.
  destruct (ex_timestamp r) as [ts|]; [|now left].
  right. exists ts. apply Z.ltb_ge in Hexp. auto.
Qed.

Lemma cleanup_length now hours d :
  Z.of_nat (List.length (flares (fst (cleanup_old_flares now hours d))))
  = Z.of_nat (List.length (flares d)) - snd (cleanup_old_flares now hours d)
  /\ 0 <= snd (cleanup_old_flares now hours d)
  /\ seq (fst (cleanup_old_flares now hours d)) = seq d.
Proof.
  unfold cleanup_old_flares. cbn [fst snd flares seq].
  pose proof (filter_split_length (expired (now - 3600 * hours)) (flares d)).
  repeat split; lia.
Qed.

Section CycleMore.

Variable int : string -> option Z.
Variable strptime : string -> option Z.

Lemma store_feed_spec source scraped_at fls d :
  store_feed strptime source scraped_at fls d
  = (fst (store_flares strptime source scraped_at (delivered fls) d),
     snd (store_flares strptime source scraped_at (delivered fls) d),
     if fetched fls then [source] else []).
Proof.
  unfold store_feed. destruct fls as [[|fl rest]|]; reflexivity.
Qed.

(** The three statements of the cycle that write to the database. *)
Lemma cycle_unfolded i d :
  let lmsal := store_flares strptime "LMSAL" (at_lmsal_store i)
                 (delivered (lmsal_flares i)) d in
  let noaa := store_flares strptime "NOAA" (at_noaa_store i)
                (delivered (noaa_flares i)) (fst lmsal) in
  let cleaned := cleanup_old_flares (at_cleanup i) 24 (fst noaa) in
  scrape_and_update int strptime i d
  = if fetched (lmsal_flares i) || fetched (noaa_flares i) then
      match get_flares_summary (at_summary i) (fst cleaned) with
      | None => (fst cleaned, Py.Raises)
      | Some s =>
          match export_monthly_flares_markdown int (year_month i)
                  (fst cleaned) with
          | Py.Raises => (fst cleaned, Py.Raises)
          | Py.Returns md =>
              (fst cleaned,
               Py.Returns
                 (Cycle (snd lmsal + snd noaa) (snd cleaned)
                    (total_count s)
                    ((if fetched (lmsal_flares i) then ["LMSAL"] else [])
                     ++ (if fetched (noaa_flares i) then ["NOAA"]
                         else []))%list
                    s
                    (export_monthly_flares_csv (year_month i) (fst cleaned))
                    md))
          end
      end
    else (d, Py.Returns NoSource).
Proof.
  intros lmsal noaa cleaned. unfold scrape_and_update.
  rewrite !store_feed_spec. fold lmsal. fold noaa.
  destruct (fetched (lmsal_flares i)) eqn:El,
           (fetched (noaa_flares i)) eqn:En; cbn [app orb].
  4: { assert (Hl : delivered (lmsal_flares i) = []).
       { destruct (lmsal_flares i) as [[|]|]; try reflexivity.
         discriminate. }
       assert (Hn : delivered (noaa_flares i) = []).
       { destruct (noaa_flares i) as [[|]|]; try reflexivity.
         discriminate. }
       subst noaa lmsal. rewrite Hl. cbn [store_flares fold_left fst store].
       rewrite Hn. reflexivity. }
  all: fold cleaned;
    destruct (cleanup_old_flares (at_cleanup i) 24 (fst noaa)) eqn:Ec;
    subst cleaned; rewrite ?Ec; cbn [fst snd]; reflexivity.
Qed.

(** X16 (a cycle without a source).  The cycle reports failure exactly
    when neither feed delivered a flare, and then the database is left
    as it was: no cleanup runs, so rows older than 24 hours stay until
    a feed answers again.  In every other case the database is the one
    left by the LMSAL store, the NOAA store and the 24-hour cleanup, in
    this order, also when the summary or the Markdown export raises
    afterwards. *)
Theorem cycle_without_source i d :
  let stored :=
    fst (store_flares strptime "NOAA" (at_noaa_store i)
           (delivered (noaa_flares i))
           (fst (store_flares strptime "LMSAL" (at_lmsal_store i)
                   (delivered (lmsal_flares i)) d))) in
  (snd (scrape_and_update int strptime i d) = Py.Returns NoSource
   <-> fetched (lmsal_flares i) = false /\ fetched (noaa_flares i) = false)
  /\ (fetched (lmsal_flares i) = false -> fetched (noaa_flares i) = false ->
      fst (scrape_and_update int strptime i d) = d)
  /\ (fetched (lmsal_flares i) = true \/ fetched (noaa_flares i) = true ->
      fst (scrape_and_update int strptime i d)
      = fst (cleanup_old_flares (at_cleanup i) 24 stored)).
Proof.
  intros stored. rewrite cycle_unfolded. fold stored.
  destruct (fetched (lmsal_flares i)), (fetched (noaa_flares i));
    cbn [orb].
  4: { repeat split; auto. intros [H|H]; discriminate. }
  all: destruct (get_flares_summary (at_summary i)
                   (fst (cleanup_old_flares (at_cleanup i) 24 stored)));
    [destruct (export_monthly_flares_markdown int (year_month i)
                 (fst (cleanup_old_flares (at_cleanup i) 24 stored)))|];
    cbn [fst snd];
    (split; [split; [discriminate|intros [? ?]; discriminate]|]);
    (split; [intros; discriminate|reflexivity]).
Qed.

End CycleMore.

(** Neither feed answers: the flare of 30 October stays in the table
    on 2 November. *)
Example cycle_without_feeds_keeps_stale_rows :
  scrape_and_update Py.int_plain Py.strptime_padded cycle_without_feeds
    stale_table
  = (stale_table, Py.Returns NoSource)
  /\ snd (cleanup_old_flares (at_cleanup cycle_without_feeds) 24
            stale_table) = 1.
Proof. split; reflexivity. Qed.

Section CycleReport.

Variable int : string -> option Z.
Variable strptime : string -> option Z.

(** What a returned report says about the database it was taken
    from. *)
Lemma cycle_report_inv i d d' n del tot srcs s csv md :
  scrape_and_update int strptime i d
  = (d', Py.Returns (Cycle n del tot srcs s csv md)) ->
  let lmsal := store_flares strptime "LMSAL" (at_lmsal_store i)
                 (delivered (lmsal_flares i)) d in
  let noaa := store_flares strptime "NOAA" (at_noaa_store i)
                (delivered (noaa_flares i)) (fst lmsal) in
  let cleaned := cleanup_old_flares (at_cleanup i) 24 (fst noaa) in
  d' = fst cleaned
  /\ n = snd lmsal + snd noaa
  /\ del = snd cleaned
  /\ get_flares_summary (at_summary i) d' = Some s
  /\ tot = total_count s
  /\ csv = export_monthly_flares_csv (year_month i) d'
  /\ export_monthly_flares_markdown int (year_month i) d' = Py.Returns md
  /\ srcs = ((if fetched (lmsal_flares i) then ["LMSAL"] else [])
             ++ (if fetched (noaa_flares i) then ["NOAA"] else []))%list.
Proof.
  intros H lmsal noaa cleaned. rewrite cycle_unfolded in H.
  fold lmsal noaa cleaned in H.
  destruct (fetched (lmsal_flares i) || fetched (noaa_flares i));
    [|discriminate].
  destruct (get_flares_summary (at_summary i) (fst cleaned)) as [s0|] eqn:Es;
    [|discriminate].
  destruct (export_monthly_flares_markdown int (year_month i) (fst cleaned))
    as [|md0] eqn:Em; [discriminate|].
  injection H as <- <- <- <- <- <- <- <-.
  repeat split; assumption.
Qed.

(** X17 (the accounting of a cycle).  A cycle that returns its report
    keeps the ids distinct and bounded by the counter; the table grows
    by [new_flares] and shrinks by [deleted_old]; the counter advances
    by [new_flares], which is at most the number of flares the two
    feeds delivered; [current_total] is the length of the listing of
    the summary and never more than the rows left, and it is the number
    of rows left when the summary reads the clock no later than the
    cleanup did. *)
Theorem cycle_accounting i d d' new_flares deleted_old current_total
  sources_used report monthly_csv monthly_md :
  scrape_and_update int strptime i d
  = (d', Py.Returns (Cycle new_flares deleted_old current_total
                       sources_used report monthly_csv monthly_md)) ->
  well_formed d ->
  well_formed d'
  /\ Z.of_nat (List.length (flares d'))
     = Z.of_nat (List.length (flares d)) + new_flares - deleted_old
  /\ seq d' = seq d + new_flares
  /\ 0 <= new_flares
       <= Z.of_nat (List.length (delivered (lmsal_flares i))
                    + List.length (delivered (noaa_flares i)))
  /\ 0 <= deleted_old
  /\ flares_list report = get_flares_last_24h (at_summary i) d'
  /\ current_total = Z.of_nat (List.length (flares_list report))
  /\ current_total <= Z.of_nat (List.length (flares d'))
  /\ (at_summary i <= at_cleanup i ->
      current_total = Z.of_nat (List.length (flares d'))).
Proof.
  intros H Hwf. apply cycle_report_inv in H.
  destruct H as (Hd & Hn & Hdel & Hs & Htot & _).
  set (lmsal := store_flares strptime "LMSAL" (at_lmsal_store i)
                  (delivered (lmsal_flares i)) d) in *.
  set (noaa := store_flares strptime "NOAA" (at_noaa_store i)
                 (delivered (noaa_flares i)) (fst lmsal)) in *.
  destruct (store_flares_counts strptime "LMSAL" (at_lmsal_store i)
              (delivered (lmsal_flares i)) d) as (Hn1 & Hl1 & Hs1).
  destruct (store_flares_counts strptime "NOAA" (at_noaa_store i)
              (delivered (noaa_flares i)) (fst lmsal)) as (Hn2 & Hl2 & Hs2).
  fold lmsal in Hn1, Hl1, Hs1. fold noaa in Hn2, Hl2, Hs2.
  destruct (cleanup_length (at_cleanup i) 24 (fst noaa))
    as (Hl3 & Hdel0 & Hs3).
  destruct (summary_fields _ _ _ Hs) as (Hlist & Hcount & _).
  assert (Hlen : List.length (flares_list report)
                 = List.length (filter (recent (at_summary i - 3600 * 24))
                                       (flares d'))).
  { rewrite Hlist. unfold get_flares_last_24h, rows_last_24h.
    now rewrite length_map, order_by_length. }
  rewrite <- Hd in Hl3, Hs3.
  split.
  { rewrite Hd. apply cleanup_well_formed.
    apply store_flares_loop_well_formed.
    now apply store_flares_loop_well_formed. }
  split; [lia|]. split; [lia|]. split; [lia|]. split; [lia|].
  split; [assumption|]. split; [congruence|]. split.
  - rewrite Htot, Hcount, Hlen. apply inj_le, filter_length_le.
  - intros Hclock. rewrite Htot, Hcount, Hlen. f_equal.
    apply filter_all_length. intros r Hr. rewrite Hd in Hr.
    apply cleanup_retains in Hr. destruct Hr as [_ Hr].
    apply recent_iff. destruct Hr as [Hr|(ts & Hts & Hle)]; [now left|].
    right. exists ts. split; [assumption|lia].
Qed.


(** X19 (a cycle that cannot raise).  When every class on file and
    every delivered class is one [flare_strength] can read, and
    [year_month] is a dash-free year and a month that [int] reads as a
    number from -13 to 12, the cycle returns: with [NoSource] or with
    its report, never with an exception. *)
Theorem cycle_returns i d year month n :
  (forall r, In r (flares d) -> flare_strength (ex_class r) <> None) ->
  (forall fl, In fl (delivered (lmsal_flares i)
                     ++ delivered (noaa_flares i))%list ->
              flare_strength (flare_class fl) <> None) ->
  year_month i = Py.join "-" [year; month] ->
  Py.has_char "-" year = false -> Py.has_char "-" month = false ->
  int month = Some n -> -13 <= n <= 12 ->
  snd (scrape_and_update int strptime i d) <> Py.Raises.
Proof.
  intros Hold Hnew Hym Hy Hm Hint Hn. rewrite cycle_unfolded.
  destruct (fetched (lmsal_flares i) || fetched (noaa_flares i));
    [|discriminate].
  set (cleaned := fst (cleanup_old_flares (at_cleanup i) 24 _)).
  assert (Hclass : forall r, In r (flares cleaned) ->
                             flare_strength (ex_class r) <> None).
  { intros r Hr. subst cleaned. apply cleanup_retains in Hr.
    destruct Hr as [Hr _]. revert r Hr.
    apply (store_flares_classes strptime "NOAA"
             (fun c => flare_strength c <> None)).
    - apply (store_flares_classes strptime "LMSAL"
               (fun c => flare_strength c <> None)); [assumption|].
      intros fl Hfl. apply Hnew, in_or_app. now left.
    - intros fl Hfl. apply Hnew, in_or_app. now right. }
  destruct (get_flares_summary (at_summary i) cleaned) as [s|] eqn:Es.
  - rewrite Hym.
    pose proof (markdown_does_not_raise int cleaned year month n
                  Hy Hm Hint Hn) as Hmd.
    destruct (export_monthly_flares_markdown int
                (Py.join "-" [year; month]) cleaned);
      [now elim Hmd|discriminate].
  - exfalso. unfold get_flares_summary in Es.
    destruct (get_flares_last_24h (at_summary i) cleaned)
      as [|f fls] eqn:El; [discriminate|].
    destruct (strongest (f :: fls)) eqn:Estr; [discriminate|].
    apply strongest_fails in Estr.
    destruct Estr as [|(g & Hg & Hnone)]; [discriminate|].
    rewrite <- El in Hg. unfold get_flares_last_24h in Hg.
    apply in_map_iff in Hg. destruct Hg as (r & <- & Hr).
    apply rows_last_24h_In in Hr. destruct Hr as [Hr _].
    now apply (Hclass r Hr).
Qed.

End CycleReport.

Lemma stale_table_well_formed : well_formed stale_table.
Proof.
  split; simpl.
  - constructor; [simpl; tauto|constructor].
  - intros r [<-|[]]. simpl. lia.
Defined.

(** The cycle of 2 November on [stale_table]: one flare added, the flare
    of 30 October deleted. *)
Lemma cycle_accounting_witness :
  match scrape_and_update Py.int_plain Py.strptime_padded
          cycle_of_november stale_table with
  | (d', Py.Returns (Cycle new_flares deleted_old _ _ _ _ _)) =>
      well_formed d'
      /\ Z.of_nat (List.length (flares d'))
         = Z.of_nat (List.length (flares stale_table))
           + new_flares - deleted_old
  | _ => False
  end.
Proof.
  destruct (scrape_and_update Py.int_plain Py.strptime_padded
              cycle_of_november stale_table)
    as [d' [|[|n del tot srcs s csv md]]] eqn:E.
  - vm_compute in E. discriminate E.
  - vm_compute in E. discriminate E.
  - destruct (cycle_accounting Py.int_plain Py.strptime_padded
                cycle_of_november stale_table d' n del tot srcs s csv md
                E stale_table_well_formed) as (Hwf & Hlen & _).
    split; assumption.
Defined.


Lemma cycle_returns_witness :
  snd (scrape_and_update Py.int_plain Py.strptime_padded
         cycle_of_november stale_table) <> Py.Raises.
Proof.
  apply (cycle_returns Py.int_plain Py.strptime_padded cycle_of_november
           stale_table "2025" "11" 11).
  - intros r [<-|[]]. vm_compute. discriminate.
  - intros fl [<-|[<-|[]]]; vm_compute; discriminate.
  - reflexivity.
  - reflexivity.
  - reflexivity.
  - reflexivity.
  - lia.
Defined.

End FlareMore.


(* ===================================================================== *)
(** ** The CME catalogue, further *)
(* ===================================================================== *)

Section CMEMore.

Import CME.

Lemma grown_refl cme_id d : grown cme_id d d.
Proof. constructor; auto; lia. Qed.

Ltac old_or_fresh H :=
  destruct H as [H|[? ?]]; [left; exact H|right; split; lia].

Section Growth.

Variable fromisoformat : string -> option Z.
Variable hash : string -> Z.
Variable now : Z.

Lemma impact_keeps_counters model_run_id analysis_id activity_id imp d :
  let d' := _store_spacecraft_impact fromisoformat now model_run_id
              analysis_id activity_id imp d in
  seq_analyses d' = seq_analyses d /\ seq_model_runs d' = seq_model_runs d.
Proof.
  unfold _store_spacecraft_impact.
  destruct (optional_timestamp fromisoformat (Py.get (arrivalTime imp)));
    [|auto].
  destruct (Py.get_or (location imp) ""); auto.
Qed.

Lemma impacts_keep_counters model_run_id analysis_id activity_id imps :
  forall d,
  let d' := fold_left
              (fun acc imp =>
                 _store_spacecraft_impact fromisoformat now model_run_id
                   analysis_id activity_id imp acc) imps d in
  seq_analyses d' = seq_analyses d /\ seq_model_runs d' = seq_model_runs d.
Proof.
  induction imps as [|imp imps IH]; intros d; simpl; [auto|].
  destruct (IH (_store_spacecraft_impact fromisoformat now model_run_id
                  analysis_id activity_id imp d)) as [-> ->].
  apply impact_keeps_counters.
Qed.

Lemma model_run_keeps_seq_analyses analysis_id activity_id n e d :
  seq_analyses (_store_model_run fromisoformat now analysis_id activity_id
                  n e d) = seq_analyses d.
Proof.
  unfold _store_model_run.
  destruct (optional_timestamp fromisoformat
              (Py.get_or (modelCompletionTime e) "")); [|reflexivity].
  destruct (optional_timestamp fromisoformat
              (Py.get (estimatedShockArrivalTime e))); [|reflexivity].
  match goal with
  | |- seq_analyses (fold_left _ ?imps ?d1) = _ =>
      destruct (impacts_keep_counters (seq_model_runs d + 1) analysis_id
                  activity_id imps d1) as [-> _]
  end.
  reflexivity.
Qed.

Lemma store_impact_grows cme_id d0 model_run_id analysis_id activity_id
  imp d :
  grown cme_id d0 d ->
  seq_model_runs d0 < model_run_id <= seq_model_runs d ->
  grown cme_id d0
    (_store_spacecraft_impact fromisoformat now model_run_id analysis_id
       activity_id imp d).
Proof.
  intros G Hid. unfold _store_spacecraft_impact.
  destruct (optional_timestamp fromisoformat (Py.get (arrivalTime imp)))
    as [arrival|]; [|exact G].
  destruct (Py.get_or (location imp) "") as [name|]; [|exact G].
  destruct G as [Gc Gsc Gsa Gsm Gss Ga Gm Gs].
  constructor; simpl; try assumption; try lia.
  intros s Hs. apply in_app_or in Hs. destruct Hs as [Hs|[<-|[]]].
  - apply Gs in Hs. old_or_fresh Hs.
  - right. simpl. lia.
Qed.

Lemma store_impacts_grow cme_id d0 model_run_id analysis_id activity_id
  imps :
  forall d,
  grown cme_id d0 d ->
  seq_model_runs d0 < model_run_id <= seq_model_runs d ->
  grown cme_id d0
    (fold_left
       (fun acc imp =>
          _store_spacecraft_impact fromisoformat now model_run_id
            analysis_id activity_id imp acc) imps d).
Proof.
  induction imps as [|imp imps IH]; intros d G Hid; simpl; [exact G|].
  apply IH.
  - now apply store_impact_grows.
  - destruct (impact_keeps_counters model_run_id analysis_id activity_id
                imp d) as [_ ->].
    exact Hid.
Qed.

Lemma store_model_run_grows cme_id d0 analysis_id activity_id n e d :
  grown cme_id d0 d ->
  seq_analyses d0 < analysis_id <= seq_analyses d ->
  grown cme_id d0
    (_store_model_run fromisoformat now analysis_id activity_id n e d).
Proof.
  intros G Hid. unfold _store_model_run.
  destruct (optional_timestamp fromisoformat
              (Py.get_or (modelCompletionTime e) "")) as [completed|];
    [|exact G].
  destruct (optional_timestamp fromisoformat
              (Py.get (estimatedShockArrivalTime e))) as [arrival|];
    [|exact G].
  apply store_impacts_grow; [|simpl; destruct G; lia].
  destruct G as [Gc Gsc Gsa Gsm Gss Ga Gm Gs].
  constructor; simpl; try assumption; try lia.
  - intros m Hm. apply in_app_or in Hm. destruct Hm as [Hm|[<-|[]]].
    + apply filter_In in Hm. destruct Hm as [Hm _].
      apply Gm in Hm. old_or_fresh Hm.
    + right. simpl. lia.
  - intros s Hs. apply Gs in Hs. old_or_fresh Hs.
Qed.

Lemma store_runs_from_grow cme_id d0 analysis_id activity_id l :
  forall n d,
  grown cme_id d0 d ->
  seq_analyses d0 < analysis_id <= seq_analyses d ->
  grown cme_id d0
    (store_runs_from fromisoformat now n analysis_id activity_id l d).
Proof.
  induction l as [|e l IH]; intros n d G Hid; simpl; [exact G|].
  apply IH.
  - now apply store_model_run_grows.
  - now rewrite model_run_keeps_seq_analyses.
Qed.

Lemma store_analysis_grows cme_id d0 activity_id an d :
  grown cme_id d0 d ->
  grown cme_id d0
    (_store_analysis fromisoformat hash now cme_id activity_id an d).
Proof.
  intros G. unfold _store_analysis.
  destruct (optional_timestamp fromisoformat (Py.get_or (time21_5 an) ""))
    as [measured|]; [|exact G].
  apply store_runs_from_grow; [|simpl; destruct G; lia].
  destruct G as [Gc Gsc Gsa Gsm Gss Ga Gm Gs].
  constructor; simpl; try assumption; try lia.
  - intros a Ha. apply in_app_or in Ha. destruct Ha as [Ha|[<-|[]]].
    + apply filter_In in Ha. destruct Ha as [Ha _].
      apply Ga in Ha. old_or_fresh Ha.
    + right. simpl. lia.
  - intros m Hm. apply Gm in Hm. old_or_fresh Hm.
Qed.

Lemma store_analyses_grow cme_id d0 activity_id ans :
  forall d,
  grown cme_id d0 d ->
  grown cme_id d0
    (fold_left
       (fun acc an =>
          _store_analysis fromisoformat hash now cme_id activity_id an acc)
       ans d).
Proof.
  induction ans as [|an ans IH]; intros d G; simpl; [exact G|].
  apply IH. now apply store_analysis_grows.
Qed.

(** A call of [store_cme] that does not commit leaves the database as
    it was. *)
Lemma store_cme_uncommitted p d :
  cme_is_written fromisoformat p = false ->
  store_cme fromisoformat hash now p d = (d, None).
Proof.
  unfold cme_is_written, store_cme.
  destruct (fromisoformat (startTime p)); [|reflexivity].
  destruct (instruments p), (cmeAnalyses p);
    try reflexivity; discriminate.
Qed.

(** A call that commits: the row it writes, and how the other tables
    grow. *)
Lemma store_cme_committed p d :
  cme_is_written fromisoformat p = true ->
  let d' := fst (store_cme fromisoformat hash now p d) in
  exists c,
    cmes_enhanced d'
    = (filter (fun r => negb (c_activity_id r =? activityID p)%string)
              (cmes_enhanced d) ++ [c])%list
    /\ snd (store_cme fromisoformat hash now p d) = Some (seq_cmes d + 1)
    /\ c_id c = seq_cmes d + 1
    /\ c_activity_id c = activityID p
    /\ c_start_time c = startTime p
    /\ fromisoformat (startTime p) = Some (c_start_timestamp c)
    /\ seq_cmes d' = seq_cmes d + 1
    /\ grown (seq_cmes d + 1)
         {| cmes_enhanced := cmes_enhanced d';
            cme_analyses := cme_analyses d;
            cme_model_runs := cme_model_runs d;
            cme_spacecraft_impacts := cme_spacecraft_impacts d;
            seq_cmes := seq_cmes d + 1;
            seq_analyses := seq_analyses d;
            seq_model_runs := seq_model_runs d;
            seq_impacts := seq_impacts d |}
         d'.
Proof.
  unfold cme_is_written, store_cme.
  destruct (fromisoformat (startTime p)) as [ts|]; [|discriminate].
  assert (Hgen : forall ans,
    let base :=
      {| cmes_enhanced :=
           filter (fun r => negb (c_activity_id r =? activityID p)%string)
                  (cmes_enhanced d)
           ++ [{| c_id := seq_cmes d + 1;
                  c_activity_id := activityID p;
                  c_catalog := Some "M2M_CATALOG";
                  c_start_time := startTime p;
                  c_start_timestamp := ts;
                  c_source_location := Py.get_or (sourceLocation p) "";
                  c_source_region :=
                    if Py.truthy_int (Py.get (activeRegionNum p))
                    then option_map Py.str_int (Py.get (activeRegionNum p))
                    else None;
                  c_associated_flare := associated_flare_of p;
                  c_note := Py.get_or (note p) "";
                  c_instruments :=
                    Some (Py.join ", " (entries (instruments p)));
                  c_donki_url := Py.get_or (link p) "";
                  c_created_at := now;
                  c_updated_at := Some now |}];
         cme_analyses := cme_analyses d;
         cme_model_runs := cme_model_runs d;
         cme_spacecraft_impacts := cme_spacecraft_impacts d;
         seq_cmes := seq_cmes d + 1;
         seq_analyses := seq_analyses d;
         seq_model_runs := seq_model_runs d;
         seq_impacts := seq_impacts d |} in
    let d' := fold_left
                (fun acc an =>
                   _store_analysis fromisoformat hash now (seq_cmes d + 1)
                     (activityID p) an acc) ans base in
    cmes_enhanced d' = cmes_enhanced base
    /\ seq_cmes d' = seq_cmes d + 1
    /\ grown (seq_cmes d + 1)
         {| cmes_enhanced := cmes_enhanced d';
            cme_analyses := cme_analyses d;
            cme_model_runs := cme_model_runs d;
            cme_spacecraft_impacts := cme_spacecraft_impacts d;
            seq_cmes := seq_cmes d + 1;
            seq_analyses := seq_analyses d;
            seq_model_runs := seq_model_runs d;
            seq_impacts := seq_impacts d |}
         d').
  { intros ans base d'.
    pose proof (store_analyses_grow (seq_cmes d + 1) base (activityID p)
                  ans base (grown_refl _ base)) as G.
    fold d' in G. destruct G as [Gc Gsc Gsa Gsm Gss Ga Gm Gs].
    split; [assumption|]. split; [assumption|].
    rewrite Gc. now constructor. }
  intros Hw. specialize (Hgen (entries (cmeAnalyses p))).
  cbv zeta in Hgen. revert Hgen.
  destruct (instruments p), (cmeAnalyses p);
    try discriminate Hw; cbn [fst snd entries];
    intros (Hc & Hs & G); eexists;
    (split; [exact Hc|]); (split; [reflexivity|]);
    (split; [reflexivity|]); (split; [reflexivity|]);
    (split; [reflexivity|]); (split; [reflexivity|]);
    (split; [exact Hs|]); exact G.
Qed.

End Growth.

Section Catalogue.

Variable fromisoformat : string -> option Z.
Variable hash : string -> Z.

Lemma store_cme_keeps_consistent now p d :
  consistent d -> consistent (fst (store_cme fromisoformat hash now p d)).
Proof.
  intros (H0 & Hact & Hids & Hc & Ha & Hm & Hs).
  destruct (cme_is_written fromisoformat p) eqn:Hw.
  2: { rewrite store_cme_uncommitted by assumption. cbn [fst].
       repeat split; auto; try apply Ha; try apply Hm; try apply Hs; auto. }
  destruct (store_cme_committed fromisoformat hash now p d Hw)
    as (c & Hrows & _ & Hid & Hact' & _ & _ & Hseq & G).
  destruct G as [_ _ Gsa Gsm Gss Ga Gm Gs]. cbn in Gsa, Gsm, Gss, Ga, Gm, Gs.
  unfold consistent. rewrite Hseq, Hrows.
  split; [lia|]. split.
  { apply distinct_keys_append; [now apply distinct_keys_filter|].
    intros r Hr. apply filter_In in Hr. destruct Hr as [_ Hne].
    rewrite Hact'. apply negb_true_iff in Hne.
    now apply String.eqb_neq in Hne. }
  split.
  { apply distinct_keys_append; [now apply distinct_keys_filter|].
    intros r Hr. apply filter_In in Hr. destruct Hr as [Hr _].
    apply Hc in Hr. lia. }
  split.
  { intros c' Hc'. apply in_app_or in Hc'.
    destruct Hc' as [Hc'|[<-|[]]]; [|lia].
    apply filter_In in Hc'. destruct Hc' as [Hc' _].
    apply Hc in Hc'. lia. }
  split.
  { intros a Ha'. apply Ga in Ha'. destruct Ha' as [Ha'|[? ?]]; [|lia].
    apply Ha in Ha'. lia. }
  split.
  { intros m Hm'. apply Gm in Hm'. destruct Hm' as [Hm'|[? ?]]; [|lia].
    apply Hm in Hm'. lia. }
  intros s0 Hs'. apply Gs in Hs'. destruct Hs' as [Hs'|[? ?]]; [|lia].
  apply Hs in Hs'. lia.
Qed.

Lemma store_then_find_helper now p d :
  cme_is_written fromisoformat p = true ->
  exists c,
    In c (cmes_enhanced (fst (store_cme fromisoformat hash now p d)))
    /\ c_activity_id c = activityID p
    /\ (forall c', In c' (cmes_enhanced d) ->
          c_activity_id c' <> activityID p ->
          In c' (cmes_enhanced (fst (store_cme fromisoformat hash now p d)))).
Proof.
  intros Hw.
  destruct (store_cme_committed fromisoformat hash now p d Hw)
    as (c & Hrows & _ & _ & Hact & _).
  exists c. rewrite Hrows. split; [|split; [assumption|]].
  - apply in_or_app. right. now left.
  - intros c' Hc' Hne. apply in_or_app. left.
    apply filter_In. split; [assumption|].
    apply negb_true_iff, String.eqb_neq. assumption.
Qed.

(** X20 (the keys of the catalogue).  [store_cme] keeps the tables as
    the schema and AUTOINCREMENT intend them: at most one CME row per
    [activity_id], ids distinct and at most the counter of the table,
    and every [cme_id], [analysis_id] and [model_run_id] stored in a
    child row at most the counter of the table it refers to.  This
    holds whether the call commits or not, and for any payload. *)
Theorem store_cme_consistent now p d :
  consistent d -> consistent (fst (store_cme fromisoformat hash now p d)).
Proof. apply store_cme_keeps_consistent. Qed.

(** X21 (store, then find).  A call of [store_cme] that does not commit
    (a start time that does not parse, a [null] list of instruments or
    analyses) returns [None] and changes nothing.  A call that commits
    returns the id of the row it wrote, one more than the counter; that
    row is the only row of the [activity_id], holds the start time and
    its timestamp, and is returned by [get_cmes_for_period] exactly for
    the periods that contain its start; rows of other activity ids
    stay. *)
Theorem store_then_find now p d :
  (cme_is_written fromisoformat p = false ->
   store_cme fromisoformat hash now p d = (d, None))
  /\ (cme_is_written fromisoformat p = true ->
      let d' := fst (store_cme fromisoformat hash now p d) in
      exists c,
        snd (store_cme fromisoformat hash now p d) = Some (c_id c)
        /\ c_id c = seq_cmes d + 1
        /\ In c (cmes_enhanced d')
        /\ c_activity_id c = activityID p
        /\ c_start_time c = startTime p
        /\ fromisoformat (startTime p) = Some (c_start_timestamp c)
        /\ (forall c', In c' (cmes_enhanced d') ->
              c_activity_id c' = activityID p -> c' = c)
        /\ (forall lo hi,
              In c (map cme (get_cmes_for_period lo hi d'))
              <-> lo <= c_start_timestamp c <= hi)
        /\ (forall c', In c' (cmes_enhanced d) ->
              c_activity_id c' <> activityID p ->
              In c' (cmes_enhanced d'))).
Proof.
  split; [apply store_cme_uncommitted|].
  intros Hw d'.
  destruct (store_cme_committed fromisoformat hash now p d Hw)
    as (c & Hrows & Hret & Hid & Hact & Htime & Hts & _).
  fold d' in Hrows.
  assert (Hin : In c (cmes_enhanced d')).
  { rewrite Hrows. apply in_or_app. right. now left. }
  exists c. split; [now rewrite Hid|]. split; [assumption|].
  split; [assumption|]. split; [assumption|]. split; [assumption|].
  split; [assumption|]. split; [|split].
  - intros c' Hc' Hact'. rewrite Hrows in Hc'. apply in_app_or in Hc'.
    destruct Hc' as [Hc'|[<-|[]]]; [|reflexivity].
    apply filter_In in Hc'. destruct Hc' as [_ Hne].
    apply negb_true_iff, String.eqb_neq in Hne. contradiction.
  - intros lo hi. unfold get_cmes_for_period.
    rewrite tree_cmes, order_by_In, filter_In, andb_true_iff, !Z.leb_le.
    tauto.
  - intros c' Hc' Hne. rewrite Hrows. apply in_or_app. left.
    apply filter_In. split; [assumption|].
    apply negb_true_iff, String.eqb_neq. assumption.
Qed.

(** X22 (what the queries show of a stored CME).  After a committed
    [store_cme] on consistent tables, the analyses that
    [_get_analyses_for_cme] attaches to the new CME row, their model
    runs and the impacts of these runs were all written by this very
    call: each carries an id beyond the counter its table had before.
    Rows left by an earlier store of the same CME, model runs and
    impacts included, are in no tree of the new row. *)
Theorem visible_tree_is_fresh now p d :
  consistent d ->
  cme_is_written fromisoformat p = true ->
  let d' := fst (store_cme fromisoformat hash now p d) in
  forall t, In t (_get_analyses_for_cme d' (seq_cmes d + 1)) ->
    seq_analyses d < a_id (analysis_of t)
    /\ forall rt, In rt (model_runs t) ->
         seq_model_runs d < m_id (run rt)
         /\ forall s, In s (spacecraft_impacts rt) ->
              seq_impacts d < s_id s.
Proof.
  intros (H0 & _ & _ & _ & Ha & Hm & Hs) Hw d' t Ht.
  destruct (store_cme_committed fromisoformat hash now p d Hw)
    as (c & _ & _ & _ & _ & _ & _ & _ & G).
  fold d' in G. destruct G as [_ _ _ _ _ Ga Gm Gs]. cbn in Ga, Gm, Gs.
  destruct (get_analyses_complete d' (seq_cmes d + 1)) as (Htop & Hsub).
  destruct (Hsub t Ht) as (Hruns & Himpacts).
  assert (Hfresh : seq_analyses d < a_id (analysis_of t)).
  { assert (Hin : In (analysis_of t)
                     (map analysis_of
                        (_get_analyses_for_cme d' (seq_cmes d + 1))))
      by now apply in_map.
    apply Htop in Hin. destruct Hin as [Hin Hcme].
    apply Ga in Hin. destruct Hin as [Hin|[? ?]]; [|lia].
    apply Ha in Hin. lia. }
  split; [assumption|]. intros rt Hrt.
  assert (Hrun : seq_model_runs d < m_id (run rt)).
  { assert (Hin : In (run rt) (map run (model_runs t)))
      by now apply in_map.
    apply Hruns in Hin. destruct Hin as [Hin Heq].
    apply Gm in Hin. destruct Hin as [Hin|[? ?]]; [|lia].
    apply Hm in Hin. lia. }
  split; [assumption|]. intros s0 Hs0.
  apply (Himpacts rt Hrt) in Hs0. destruct Hs0 as [Hin Heq].
  apply Gs in Hin. destruct Hin as [Hin|[? ?]]; [|lia].
  apply Hs in Hin. lia.
Qed.

End Catalogue.

Lemma empty_db_consistent : consistent empty_db.
Proof.
  unfold consistent, empty_db. simpl.
  repeat split; try constructor; try lia; intros ? [].
Defined.

(** From the empty database to [stored_once] and on to
    [stored_twice]. *)
Lemma store_cme_consistent_witness :
  consistent stored_once /\ consistent stored_twice.
Proof.
  assert (H1 : consistent stored_once).
  { apply (store_cme_consistent Py.fromisoformat_catalog sample_hash
             1762070000 sample_cme empty_db).
    exact empty_db_consistent. }
  split; [exact H1|].
  apply (store_cme_consistent Py.fromisoformat_catalog sample_hash
           1762084400 sample_cme stored_once).
  exact H1.
Defined.

Lemma stored_once_consistent : consistent stored_once.
Proof.
  exact (store_cme_keeps_consistent Py.fromisoformat_catalog sample_hash
           1762070000 sample_cme empty_db empty_db_consistent).
Defined.

(** [sample_cme] stored a second time: the tree of the new row holds
    the second analysis, model run and impact only. *)
Lemma visible_tree_witness :
  Forall (fun t =>
            1 < a_id (analysis_of t)
            /\ Forall (fun rt =>
                         1 < m_id (run rt)
                         /\ Forall (fun s => 1 < s_id s)
                                   (spacecraft_impacts rt))
                      (model_runs t))
         (_get_analyses_for_cme stored_twice 2)
  /\ List.length (cme_model_runs stored_twice) = 2%nat.
Proof.
  split; [|reflexivity].
  apply Forall_forall. intros t Ht.
  destruct (visible_tree_is_fresh Py.fromisoformat_catalog sample_hash
              1762084400 sample_cme stored_once stored_once_consistent
              eq_refl t Ht) as [Ha Hruns].
  split; [exact Ha|]. apply Forall_forall. intros rt Hrt.
  destruct (Hruns rt Hrt) as [Hm Himpacts].
  split; [exact Hm|]. apply Forall_forall. exact Himpacts.
Defined.

(** [sample_cme] is found by its start, [broken_cme] is refused. *)
Example store_then_find_sample :
  store_cme Py.fromisoformat_catalog sample_hash 1762070000 broken_cme
            stored_once = (stored_once, None)
  /\ map (fun t => c_activity_id (cme t))
         (get_cmes_for_period 1762041600 1762127999 stored_once)
     = ["2025-11-02T00:26:00-CME-001"]
  /\ get_cmes_for_period 1762128000 1762214399 stored_once = [].
Proof. repeat split; reflexivity. Qed.

(* --------------------------------------------------------------------- *)
(** *** Synchronisation *)
(* --------------------------------------------------------------------- *)

Section SyncFacts.

Variable fromisoformat : string -> option Z.
Variable hash : string -> Z.
Variable clock : nat -> Z.

Lemma store_cme_keeps_activity now p d x :
  (exists c, In c (cmes_enhanced d) /\ c_activity_id c = x) ->
  exists c, In c (cmes_enhanced (fst (store_cme fromisoformat hash now p d)))
            /\ c_activity_id c = x.
Proof.
  intros (c & Hc & Hx).
  destruct (cme_is_written fromisoformat p) eqn:Hw.
  - destruct (store_then_find_helper fromisoformat hash now p d Hw)
      as (c0 & Hin0 & Hact0 & Hkept).
    destruct (String.eqb_spec x (activityID p)) as [->|Hne].
    + exists c0. auto.
    + exists c. split; [|assumption]. apply Hkept; congruence.
  - rewrite store_cme_uncommitted by assumption. exists c. auto.
Qed.

Lemma sync_from_spec cmes : forall k d stored_count,
  consistent d ->
  let r := sync_from fromisoformat hash clock k cmes d stored_count in
  let written :=
    Z.of_nat (List.length (filter (cme_is_written fromisoformat) cmes)) in
  snd r = stored_count + written
  /\ consistent (fst r)
  /\ seq_cmes (fst r) = seq_cmes d + written
  /\ (forall x, (exists c, In c (cmes_enhanced d) /\ c_activity_id c = x) ->
        exists c, In c (cmes_enhanced (fst r)) /\ c_activity_id c = x)
  /\ (forall p, In p cmes -> cme_is_written fromisoformat p = true ->
        exists c, In c (cmes_enhanced (fst r))
                  /\ c_activity_id c = activityID p)
  /\ (forall c, In c (cmes_enhanced d) ->
        (forall p, In p cmes -> cme_is_written fromisoformat p = true ->
                   activityID p <> c_activity_id c) ->
        In c (cmes_enhanced (fst r))).
Proof.
  induction cmes as [|p cmes IH]; intros k d stored_count Hcons.
  - simpl. split; [lia|]. split; [assumption|]. split; [lia|].
    split; [auto|]. split; [intros p []|auto].
  - cbn [sync_from filter].
    pose proof (store_cme_keeps_consistent fromisoformat hash (clock k) p d
                  Hcons) as Hcons'.
    pose proof (store_cme_keeps_activity (clock k) p d) as Hkeep.
    destruct (cme_is_written fromisoformat p) eqn:Hw.
    + destruct (store_then_find_helper fromisoformat hash (clock k) p d Hw)
        as (c0 & Hin0 & Hact0 & Hkept).
      destruct (store_cme_committed fromisoformat hash (clock k) p d Hw)
        as (c1 & _ & Hret & _ & _ & _ & _ & Hseq & _).
      destruct (store_cme fromisoformat hash (clock k) p d) as [d1 id].
      cbn [fst snd] in *. subst id.
      assert (Htruthy : Py.truthy_int (Some (seq_cmes d + 1)) = true).
      { destruct Hcons as (H0 & _). simpl.
        apply negb_true_iff, Z.eqb_neq. lia. }
      rewrite Htruthy.
      specialize (IH (S k) d1 (stored_count + 1) Hcons').
      destruct IH as (Hn & Hc & Hs & Hact & Hnew & Hframe).
      cbn [List.length]. rewrite Nat2Z.inj_succ.
      split; [lia|]. split; [assumption|]. split; [lia|].
      split; [intros x Hx; apply Hact, Hkeep, Hx|]. split.
      * intros q [<-|Hq] Hwq; [|now apply Hnew].
        apply Hact. exists c0. auto.
      * intros c Hc0 Hother. apply Hframe.
        -- apply Hkept; [assumption|].
           intros Heq. apply (Hother p); [now left|assumption|congruence].
        -- intros q Hq. apply Hother. now right.
    + rewrite store_cme_uncommitted in * by assumption.
      cbn [fst snd Py.truthy_int] in *.
      specialize (IH (S k) d stored_count Hcons).
      destruct IH as (Hn & Hc & Hs & Hact & Hnew & Hframe).
      split; [assumption|]. split; [assumption|]. split; [assumption|].
      split; [assumption|]. split.
      * intros q [<-|Hq] Hwq; [congruence|now apply Hnew].
      * intros c Hc0 Hother. apply Hframe; [assumption|].
        intros q Hq. apply Hother. now right.
Qed.

(** X23 ([sync_cmes]).  On consistent tables the count [sync_cmes]
    returns is the number of fetched entries whose store committed
    (those with a start time that parses and no [null] list), and the
    CME counter advances by as much.  Afterwards the tables are
    consistent, every committed entry has a row under its
    [activity_id], and a row that was there stays unless an entry of the
    batch carries its [activity_id]. *)
Theorem sync_cmes_count cmes d :
  consistent d ->
  let d' := fst (sync_cmes fromisoformat hash clock cmes d) in
  let stored := snd (sync_cmes fromisoformat hash clock cmes d) in
  stored = Z.of_nat (List.length (filter (cme_is_written fromisoformat)
                                         cmes))
  /\ consistent d'
  /\ seq_cmes d' = seq_cmes d + stored
  /\ (forall p, In p cmes -> cme_is_written fromisoformat p = true ->
        exists c, In c (cmes_enhanced d')
                  /\ c_activity_id c = activityID p)
  /\ (forall c, In c (cmes_enhanced d) ->
        (forall p, In p cmes -> cme_is_written fromisoformat p = true ->
                   activityID p <> c_activity_id c) ->
        In c (cmes_enhanced d')).
Proof.
  intros Hcons d' stored. subst d' stored. unfold sync_cmes.
  destruct (sync_from_spec cmes 0%nat d 0 Hcons)
    as (Hn & Hc & Hs & _ & Hnew & Hframe).
  rewrite Z.add_0_l in Hn. rewrite Hn.
  split; [reflexivity|]. split; [assumption|]. split; [assumption|].
  split; assumption.
Qed.

End SyncFacts.

(** A sync of three entries, one of them broken, one repeated. *)
Lemma sync_cmes_witness :
  snd (sync_cmes Py.fromisoformat_catalog sample_hash
         (fun k => 1762070000 + Z.of_nat k)
         [sample_cme; broken_cme; second_cme; sample_cme] empty_db) = 3
  /\ List.length
       (cmes_enhanced
          (fst (sync_cmes Py.fromisoformat_catalog sample_hash
                  (fun k => 1762070000 + Z.of_nat k)
                  [sample_cme; broken_cme; second_cme; sample_cme]
                  empty_db))) = 2%nat.
Proof.
  split; [|reflexivity].
  exact (proj1 (sync_cmes_count Py.fromisoformat_catalog sample_hash
                  (fun k => 1762070000 + Z.of_nat k)
                  [sample_cme; broken_cme; second_cme; sample_cme]
                  empty_db empty_db_consistent)).
Defined.

(* --------------------------------------------------------------------- *)
(** *** The queries *)
(* --------------------------------------------------------------------- *)

Lemma sorted_by_start (rows : list cme_row) :
  StronglySorted
    (fun x y => c_start_timestamp y <= c_start_timestamp x)
    (Py.order_by (fun x y => c_start_timestamp y <=? c_start_timestamp x)
                 rows).
Proof.
  pose proof (order_by_sorted
                (fun x y => c_start_timestamp y <=? c_start_timestamp x)
                rows) as H.
  assert (Hs : StronglySorted
                 (fun x y => (c_start_timestamp y <=? c_start_timestamp x)
                             = true)
                 (Py.order_by
                    (fun x y => c_start_timestamp y <=? c_start_timestamp x)
                    rows)).
  { apply H.
    - intros a b. rewrite !Z.leb_le. lia.
    - intros a b c. rewrite !Z.leb_le. lia. }
  clear H. induction Hs as [|x l Hl IH Hx]; constructor; [assumption|].
  eapply Forall_impl; [|exact Hx]. intros y Hy. now apply Z.leb_le.
Qed.

(** X24 (CMEs of a period).  [get_cmes_for_period] returns exactly the
    stored CMEs whose start timestamp lies in the period, bounds
    included, the most recent start first, each stored row as many
    times as it is stored; and every returned CME carries all its
    analysis rows, each with all its model runs, each run with all its
    spacecraft impacts. *)
Theorem cmes_for_period_correct lo hi d :
  let result := get_cmes_for_period lo hi d in
  (forall c, In c (map cme result) <->
             In c (cmes_enhanced d) /\ lo <= c_start_timestamp c <= hi)
  /\ StronglySorted
       (fun x y => c_start_timestamp y <= c_start_timestamp x)
       (map cme result)
  /\ (NoDup (cmes_enhanced d) -> NoDup (map cme result))
  /\ forall t, In t result ->
       (forall a, In a (map analysis_of (analyses t)) <->
                  In a (cme_analyses d) /\ a_cme_id a = c_id (cme t))
       /\ forall atree, In atree (analyses t) ->
            (forall m, In m (map run (model_runs atree)) <->
                       In m (cme_model_runs d)
                       /\ m_analysis_id m = a_id (analysis_of atree))
            /\ forall rt, In rt (model_runs atree) ->
                 forall s, In s (spacecraft_impacts rt) <->
                           In s (cme_spacecraft_impacts d)
                           /\ s_model_run_id s = m_id (run rt).
Proof.
  intros result. subst result. unfold get_cmes_for_period.
  rewrite tree_cmes. split; [|split; [|split]].
  - intros c.
    rewrite order_by_In, filter_In, andb_true_iff, !Z.leb_le. tauto.
  - apply sorted_by_start.
  - intros Hnd. apply order_by_NoDup. now apply NoDup_filter.
  - intros t Ht. apply in_map_iff in Ht. destruct Ht as (c & <- & _).
    simpl. apply get_analyses_complete.
Qed.




(* --------------------------------------------------------------------- *)
(** *** Other CMEs during a store *)
(* --------------------------------------------------------------------- *)

Lemma filter_filter_In {A} (p q : A -> bool) (l : list A) :
  (forall x, In x l -> q x = true -> p x = true) ->
  filter q (filter p l) = filter q l.
Proof.
  induction l as [|x l IH]; simpl; intros H; [reflexivity|].
  assert (IH' : filter q (filter p l) = filter q l)
    by (apply IH; intros y Hy; apply H; now right).
  destruct (p x) eqn:Hp; simpl; rewrite IH'; [reflexivity|].
  destruct (q x) eqn:Hq; [|reflexivity].
  rewrite (H x (or_introl eq_refl) Hq) in Hp. discriminate.
Qed.

Lemma filter_snoc_out {A} (q : A -> bool) (l : list A) (x : A) :
  q x = false -> filter q (l ++ [x]) = filter q l.
Proof.
  intros Hq. rewrite filter_app. simpl. rewrite Hq. apply app_nil_r.
Qed.

Lemma untouched_refl cme_id activity_id d :
  untouched cme_id activity_id d d.
Proof. constructor; auto. Qed.

Section Frame.

Variable fromisoformat : string -> option Z.
Variable hash : string -> Z.
Variable now : Z.

Lemma store_impact_untouched cme_id act d0 model_run_id analysis_id
  activity_id imp d :
  untouched cme_id act d0 d ->
  seq_model_runs d0 < model_run_id ->
  untouched cme_id act d0
    (_store_spacecraft_impact fromisoformat now model_run_id analysis_id
       activity_id imp d).
Proof.
  intros U Hid. unfold _store_spacecraft_impact.
  destruct (optional_timestamp fromisoformat (Py.get (arrivalTime imp)))
    as [arrival|]; [|exact U].
  destruct (Py.get_or (location imp) "") as [name|]; [|exact U].
  destruct U as [Uact Ua Um Us].
  constructor; simpl; try assumption.
  intros mid Hmid. rewrite filter_snoc_out; [now apply Us|].
  simpl. apply Z.eqb_neq. lia.
Qed.

Lemma store_impacts_untouched cme_id act d0 model_run_id analysis_id
  activity_id imps :
  forall d,
  untouched cme_id act d0 d ->
  seq_model_runs d0 < model_run_id ->
  untouched cme_id act d0
    (fold_left
       (fun acc imp =>
          _store_spacecraft_impact fromisoformat now model_run_id
            analysis_id activity_id imp acc) imps d).
Proof.
  induction imps as [|imp imps IH]; intros d U Hid; simpl; [exact U|].
  apply IH; [|assumption]. now apply store_impact_untouched.
Qed.

Lemma store_model_run_untouched cme_id act d0 analysis_id activity_id n e
  d :
  grown cme_id d0 d ->
  untouched cme_id act d0 d ->
  seq_analyses d0 < analysis_id ->
  untouched cme_id act d0
    (_store_model_run fromisoformat now analysis_id activity_id n e d).
Proof.
  intros G U Hid. unfold _store_model_run.
  destruct (optional_timestamp fromisoformat
              (Py.get_or (modelCompletionTime e) "")) as [completed|];
    [|exact U].
  destruct (optional_timestamp fromisoformat
              (Py.get (estimatedShockArrivalTime e))) as [arrival|];
    [|exact U].
  apply store_impacts_untouched; [|destruct G; lia].
  destruct U as [Uact Ua Um Us].
  constructor; simpl; try assumption.
  intros aid Haid. rewrite filter_snoc_out.
  - rewrite filter_filter_In; [now apply Um|].
    intros m _ Hm. apply Z.eqb_eq in Hm.
    apply negb_true_iff, andb_false_iff. left. apply Z.eqb_neq. lia.
  - simpl. apply Z.eqb_neq. lia.
Qed.

Lemma store_runs_from_untouched cme_id act d0 analysis_id activity_id l :
  forall n d,
  grown cme_id d0 d ->
  untouched cme_id act d0 d ->
  seq_analyses d0 < analysis_id <= seq_analyses d ->
  untouched cme_id act d0
    (store_runs_from fromisoformat now n analysis_id activity_id l d).
Proof.
  induction l as [|e l IH]; intros n d G U Hid; simpl; [exact U|].
  apply IH.
  - now apply store_model_run_grows.
  - apply store_model_run_untouched; [assumption|assumption|lia].
  - now rewrite model_run_keeps_seq_analyses.
Qed.

Lemma store_analysis_untouched cme_id activity_id d0 an d :
  grown cme_id d0 d ->
  untouched cme_id activity_id d0 d ->
  untouched cme_id activity_id d0
    (_store_analysis fromisoformat hash now cme_id activity_id an d).
Proof.
  intros G U. unfold _store_analysis.
  destruct (optional_timestamp fromisoformat (Py.get_or (time21_5 an) ""))
    as [measured|]; [|exact U].
  apply store_runs_from_untouched.
  - destruct G as [Gc Gsc Gsa Gsm Gss Ga Gm Gs].
    constructor; simpl; try assumption; try lia.
    + intros a Ha. apply in_app_or in Ha. destruct Ha as [Ha|[<-|[]]].
      * apply filter_In in Ha. destruct Ha as [Ha _].
        apply Ga in Ha. old_or_fresh Ha.
      * right. simpl. lia.
    + intros m Hm. apply Gm in Hm. old_or_fresh Hm.
  - destruct G as [Gc Gsc Gsa Gsm Gss Ga Gm Gs].
    destruct U as [Uact Ua Um Us].
    constructor; simpl; try assumption.
    + intros a Ha. apply in_app_or in Ha. destruct Ha as [Ha|[<-|[]]].
      * apply filter_In in Ha. destruct Ha as [Ha _]. now apply Uact.
      * right. reflexivity.
    + intros cid Hcid Hother. rewrite filter_snoc_out.
      * rewrite filter_filter_In; [now apply Ua|].
        intros a Ha Hq. apply Z.eqb_eq in Hq.
        apply negb_true_iff. unfold same_analysis_key.
        destruct (Ga a Ha) as [Hold|[_ Hnew]]; [|congruence].
        apply andb_false_iff. left. apply andb_false_iff. left.
        apply String.eqb_neq. now apply Hother.
      * simpl. now apply Z.eqb_neq.
  - simpl. destruct G. lia.
Qed.

Lemma store_analyses_untouched cme_id activity_id d0 ans :
  forall d,
  grown cme_id d0 d ->
  untouched cme_id activity_id d0 d ->
  untouched cme_id activity_id d0
    (fold_left
       (fun acc an =>
          _store_analysis fromisoformat hash now cme_id activity_id an acc)
       ans d).
Proof.
  induction ans as [|an ans IH]; intros d G U; simpl; [exact U|].
  apply IH.
  - now apply store_analysis_grows.
  - now apply store_analysis_untouched.
Qed.

Lemma store_cme_untouched p d :
  cme_is_written fromisoformat p = true ->
  untouched (seq_cmes d + 1) (activityID p) d
    (fst (store_cme fromisoformat hash now p d)).
Proof.
  unfold cme_is_written, store_cme.
  destruct (fromisoformat (startTime p)) as [ts|]; [|discriminate].
  assert (Hgen : forall ans base,
    cme_analyses base = cme_analyses d ->
    cme_model_runs base = cme_model_runs d ->
    cme_spacecraft_impacts base = cme_spacecraft_impacts d ->
    seq_analyses base = seq_analyses d ->
    seq_model_runs base = seq_model_runs d ->
    untouched (seq_cmes d + 1) (activityID p) d
      (fold_left
         (fun acc an =>
            _store_analysis fromisoformat hash now (seq_cmes d + 1)
              (activityID p) an acc) ans base)).
  { intros ans base Ha Hm Hs Hsa Hsm.
    pose proof (store_analyses_untouched (seq_cmes d + 1) (activityID p)
                  base ans base (grown_refl _ base)
                  (untouched_refl _ _ base)) as U.
    destruct U as [Uact Ua Um Us].
    rewrite Ha in Uact, Ua. rewrite Hm, Hsa in Um. rewrite Hs, Hsm in Us.
    now constructor. }
  intros Hw.
  destruct (instruments p), (cmeAnalyses p);
    try discriminate Hw; cbn [fst]; apply Hgen; reflexivity.
Qed.

Lemma store_cme_keeps_owned p d :
  consistent d -> owned d ->
  owned (fst (store_cme fromisoformat hash now p d)).
Proof.
  intros (H0 & _ & _ & Hc & Ha & _) Hown.
  destruct (cme_is_written fromisoformat p) eqn:Hw.
  2: { now rewrite store_cme_uncommitted. }
  destruct (store_cme_committed fromisoformat hash now p d Hw)
    as (c0 & Hrows & _ & Hid & Hact & _ & _ & _ & G).
  pose proof (store_cme_untouched p d Hw) as U.
  destruct G as [_ _ _ _ _ Ga _ _]. cbn in Ga.
  destruct U as [Uact _ _ _].
  intros a c Hina Hinc Heq. rewrite Hrows in Hinc.
  apply in_app_or in Hinc.
  destruct (Ga a Hina) as [Hold|[_ Hnew]].
  - destruct Hinc as [Hinc|[<-|[]]].
    + apply filter_In in Hinc. destruct Hinc as [Hinc _].
      now apply Hown.
    + apply Ha in Hold. lia.
  - destruct Hinc as [Hinc|[<-|[]]].
    + apply filter_In in Hinc. destruct Hinc as [Hinc _].
      apply Hc in Hinc. lia.
    + rewrite Hact. destruct (Uact a Hina) as [Hold|Hfresh];
        [|assumption].
      apply Ha in Hold. lia.
Qed.

(** X26 (other CMEs during a store).  On consistent tables whose
    analyses bear the [activity_id] of their CME row, storing a CME
    leaves every CME row of another [activity_id] in the table, and
    what [_get_analyses_for_cme] returns for such a row, analyses, model
    runs and impacts in their order, is the same list before and after
    the store.  Both conditions on the tables hold again afterwards. *)
Theorem other_cmes_untouched p d :
  consistent d -> owned d ->
  let d' := fst (store_cme fromisoformat hash now p d) in
  consistent d' /\ owned d'
  /\ forall c, In c (cmes_enhanced d) -> c_activity_id c <> activityID p ->
       In c (cmes_enhanced d')
       /\ _get_analyses_for_cme d' (c_id c)
          = _get_analyses_for_cme d (c_id c).
Proof.
  intros Hcons Hown d'.
  split; [now apply store_cme_keeps_consistent|].
  split; [now apply store_cme_keeps_owned|].
  intros c Hc Hne. subst d'.
  destruct (cme_is_written fromisoformat p) eqn:Hw.
  2: { rewrite store_cme_uncommitted by assumption. auto. }
  destruct (store_then_find_helper fromisoformat hash now p d Hw)
    as (_ & _ & _ & Hkept).
  split; [now apply Hkept|].
  destruct (store_cme_untouched p d Hw) as [_ Ua Um Us].
  destruct Hcons as (_ & _ & _ & Hcid & Ha & Hm & _).
  unfold _get_analyses_for_cme. rewrite Ua.
  - apply map_ext_in. intros a Hina.
    apply order_by_In, filter_In in Hina. destruct Hina as [Hina _].
    f_equal. rewrite Um by (apply Ha in Hina; lia).
    apply map_ext_in. intros m Hinm.
    apply order_by_In, filter_In in Hinm. destruct Hinm as [Hinm _].
    f_equal. rewrite Us by (apply Hm in Hinm; lia). reflexivity.
  - apply Hcid in Hc. lia.
  - intros a Hina Heq. rewrite (Hown a c Hina Hc Heq). assumption.
Qed.

End Frame.

Lemma empty_db_owned : owned empty_db.
Proof. intros a c []. Defined.

Lemma stored_once_owned : owned stored_once.
Proof.
  exact (store_cme_keeps_owned Py.fromisoformat_catalog sample_hash
           1762070000 sample_cme empty_db empty_db_consistent
           empty_db_owned).
Defined.

(** Storing [second_cme] next to [sample_cme]: the tree of the first
    stays as it is. *)
Lemma other_cmes_witness :
  Forall (fun c =>
            _get_analyses_for_cme
              (fst (store_cme Py.fromisoformat_catalog sample_hash
                      1762084400 second_cme stored_once)) (c_id c)
            = _get_analyses_for_cme stored_once (c_id c))
         (cmes_enhanced stored_once)
  /\ List.length (cmes_enhanced stored_once) = 1%nat.
Proof.
  split; [|reflexivity].
  apply Forall_forall. intros c Hc.
  destruct (other_cmes_untouched Py.fromisoformat_catalog sample_hash
              1762084400 second_cme stored_once stored_once_consistent
              stored_once_owned) as (_ & _ & H).
  apply H; [exact Hc|].
  vm_compute in Hc. destruct Hc as [<-|[]]. discriminate.
Defined.

End CMEMore.
